(** * Affina automation testing: a shallow embedding of the QA pipeline

    The development follows the Python sources of the two services:

    - [brd-test-executor/app/automation/sheet_reader.py]     (module [SheetReader])
    - [brd-test-executor/app/automation/code_generator.py]   (module [CodeGenerator])
    - [brd-test-executor/app/automation/url_manager.py]      (module [URLManager])
    - [brd-test-executor/app/automation/result_reporter.py]  (module [ResultReporter])
    - [brd-test-executor/app/automation/playwright_runner.py] (module [PlaywrightRunner])
    - [brd-testcase-automation/app/services/chatgpt_service.py] (module [ChatGPTService])
    - [brd-test-executor/app/automation/locator_manager.py]  (module [LocatorManager])
    - [brd-test-executor/app/routes/executor_routes.py]      (module [ExecutorRoutes])

    The modules [SheetQueries], [URLPaths], [Reporting], [Login] and
    [CodeGeneration] hold the remaining methods of the classes above.

    Python values are modelled as the interpreter has them: a [str] is a
    sequence of Unicode code points, an [int] is an unbounded integer, a
    [float] is an IEEE-754 binary64 number, a [dict] keeps its insertion
    order.  Calls that leave the process (the language-model service, the
    browser, the spreadsheet) are explicit: their outcome is an argument of
    the model, and the state they act on is threaded through. *)

From Stdlib Require Import ZArith NArith PArith List String Ascii Bool Lia.
From Stdlib Require Import SpecFloat.
From Stdlib Require Import Sorted.
Import ListNotations.

Set Implicit Arguments.

(* ================================================================= *)
(** * Python strings *)
(* ================================================================= *)

Module Py.

(** A Python [str] is a sequence of code points. *)
Definition char := N.
Definition str := list char.

(** Decoding of the UTF-8 bytes of a source literal. *)
Fixpoint utf8 (bs : list N) : str :=
  match bs with
  | [] => []
  | b0 :: r0 =>
      if (b0 <? 128)%N then b0 :: utf8 r0
      else if (b0 <? 224)%N then
        match r0 with
        | b1 :: r1 => ((b0 - 192) * 64 + (b1 - 128))%N :: utf8 r1
        | [] => [b0]
        end
      else if (b0 <? 240)%N then
        match r0 with
        | b1 :: b2 :: r2 =>
            ((b0 - 224) * 4096 + (b1 - 128) * 64 + (b2 - 128))%N :: utf8 r2
        | _ => [b0]
        end
      else
        match r0 with
        | b1 :: b2 :: b3 :: r3 =>
            ((b0 - 240) * 262144 + (b1 - 128) * 4096
             + (b2 - 128) * 64 + (b3 - 128))%N :: utf8 r3
        | _ => [b0]
        end
  end.

(** [lit "..."] is the Python literal ['...']. *)
Definition lit (s : string) : str :=
  utf8 (map N_of_ascii (list_ascii_of_string s)).

Definition char_eqb (a b : char) : bool := N.eqb a b.

Fixpoint eqb (a b : str) : bool :=
  match a, b with
  | [], [] => true
  | x :: a', y :: b' => char_eqb x y && eqb a' b'
  | _, _ => false
  end.

(** [bool(s)]: a string is truthy when it is not empty. *)
Definition truthy (s : str) : bool :=
  match s with [] => false | _ :: _ => true end.

(** [c.isspace()], the whitespace set of [str.strip()]. *)
Definition isspace (c : char) : bool :=
  ((9 <=? c) && (c <=? 13) || (28 <=? c) && (c <=? 32)
   || (c =? 133) || (c =? 160) || (c =? 5760)
   || (8192 <=? c) && (c <=? 8202)
   || (c =? 8232) || (c =? 8233) || (c =? 8239) || (c =? 8287)
   || (c =? 12288))%N.

Fixpoint lstrip (s : str) : str :=
  match s with
  | [] => []
  | c :: s' => if isspace c then lstrip s' else s
  end.

Definition rstrip (s : str) : str := rev (lstrip (rev s)).

(** [s.strip()] *)
Definition strip (s : str) : str := rstrip (lstrip s).

(** [s.startswith(p)] *)
Fixpoint startswith (s p : str) : bool :=
  match p, s with
  | [], _ => true
  | x :: p', y :: s' => char_eqb x y && startswith s' p'
  | _ :: _, [] => false
  end.

(** [s.endswith(p)] *)
Definition endswith (s p : str) : bool := startswith (rev s) (rev p).

(** [sub in s] *)
Fixpoint contains (sub s : str) : bool :=
  startswith s sub
  || match s with [] => false | _ :: s' => contains sub s' end.

(** [s.find(sub)], [None] standing for [-1]. *)
Fixpoint find (sub s : str) : option nat :=
  if startswith s sub then Some 0
  else match s with
       | [] => None
       | _ :: s' => option_map S (find sub s')
       end.

(** [s.rfind(c)] for a one-character needle, [None] standing for [-1]. *)
Fixpoint rfind_char (c : char) (s : str) : option nat :=
  match s with
  | [] => None
  | x :: s' =>
      match rfind_char c s' with
      | Some i => Some (S i)
      | None => if char_eqb x c then Some 0 else None
      end
  end.

(** The scan of [s.count(old)] for a non-empty [old]: occurrences are
    taken left to right and do not overlap; [skip] is the number of
    characters of the current occurrence still to pass. *)
Fixpoint count_from (old : str) (skip : nat) (s : str) : nat :=
  match s with
  | [] => 0
  | _ :: s' =>
      match skip with
      | S k => count_from old k s'
      | O => if startswith s old
             then S (count_from old (List.length old - 1) s')
             else count_from old 0 s'
      end
  end.

(** [s.count(old)] *)
Definition count (old s : str) : nat :=
  match old with
  | [] => S (List.length s)
  | _ :: _ => count_from old 0 s
  end.

(** The scan of [s.replace(old, new)] for a non-empty [old]. *)
Fixpoint replace_from (old new : str) (skip : nat) (s : str) : str :=
  match s with
  | [] => []
  | c :: s' =>
      match skip with
      | S k => replace_from old new k s'
      | O => if startswith s old
             then new ++ replace_from old new (List.length old - 1) s'
             else c :: replace_from old new 0 s'
      end
  end.

(** [s.replace(old, new)]; an empty [old] matches before every
    character and at the end. *)
Definition replace (old new s : str) : str :=
  match old with
  | [] => flat_map (fun c => new ++ [c]) s ++ new
  | _ :: _ => replace_from old new 0 s
  end.

(** [s[i:]] and [s[:j]] for non-negative bounds. *)
Definition slice_from (i : nat) (s : str) : str := skipn i s.
Definition slice_to (j : nat) (s : str) : str := firstn j s.

(** [sep.join(s.split(sep)[1:])] for a one-character separator: what
    follows the first separator, or the empty string when there is none. *)
Fixpoint after_first (sep : char) (s : str) : str :=
  match s with
  | [] => []
  | c :: s' => if char_eqb c sep then s' else after_first sep s'
  end.

(** [str.lower] on a text whose cased letters are all ASCII; used to
    run the models on concrete inputs. *)
Definition lower_ascii (s : str) : str :=
  map (fun c => if (65 <=? c)%N && (c <=? 90)%N then (c + 32)%N else c) s.

End Py.

Notation "'py' s" := (Py.lit s%string) (at level 9, only parsing).

(* ================================================================= *)
(** * Python numbers *)
(* ================================================================= *)

Module PyFloat.

(** A Python [float] is a binary64 number. *)
Definition float := spec_float.
Definition prec : Z := 53.
Definition emax : Z := 1024.

(** [float(z)] for an [int]: rounded to nearest, ties to even; [None]
    stands for [OverflowError] (int too large to convert to float). *)
Definition of_int (z : Z) : option float :=
  match binary_normalize prec emax z 0 false with
  | S754_infinity _ => None
  | f => Some f
  end.

Definition mul : float -> float -> float := SFmul prec emax.
Definition add : float -> float -> float := SFadd prec emax.
Definition ltb : float -> float -> bool := SFltb.

(** The literals of the sources. *)
Definition f0_0 : float := S754_zero false.
Definition f0_5 : float := binary_normalize prec emax 1 (-1) false.
Definition f1_5 : float := binary_normalize prec emax 3 (-1) false.
Definition f2_0 : float := binary_normalize prec emax 2 0 false.
Definition f100_0 : float := binary_normalize prec emax 100 0 false.

(** [int(f)]: truncation towards zero; [None] stands for the
    [OverflowError] of an infinity and the [ValueError] of a NaN. *)
Definition to_int (f : float) : option Z :=
  match f with
  | S754_zero _ => Some 0%Z
  | S754_finite s m e =>
      Some (cond_Zopp s
              (match e with
               | Z0 => Zpos m
               | Zpos p => Zpos m * 2 ^ Zpos p
               | Zneg p => Zpos m / 2 ^ Zpos p
               end))%Z
  | _ => None
  end.

(** [a / b] for positive [int]s: the correctly rounded quotient. *)
Definition truediv_pos (a b : positive) : float :=
  let '(q, e, l) := SFdiv_core_binary prec emax (Zpos a) 0 (Zpos b) 0 in
  binary_round_aux prec emax false q e l.

(** [a / b] for [int]s; [None] stands for [ZeroDivisionError] and for the
    [OverflowError] of a quotient too large for a float. *)
Definition truediv (a b : Z) : option float :=
  match a, b with
  | _, Z0 => None
  | Z0, Zpos _ => Some (S754_zero false)
  | Z0, Zneg _ => Some (S754_zero true)
  | Zpos p, Zpos q | Zneg p, Zneg q =>
      match truediv_pos p q with
      | S754_infinity _ => None
      | f => Some f
      end
  | Zpos p, Zneg q | Zneg p, Zpos q =>
      match truediv_pos p q with
      | S754_infinity _ => None
      | f => Some (SFopp f)
      end
  end.

(** [min(x, y)] on floats: [y] only when it is strictly smaller. *)
Definition min (x y : float) : float := if ltb y x then y else x.

(** The nearest integer to [m * 2^e], ties to even. *)
Definition round_half_even (m : positive) (e : Z) : Z :=
  match e with
  | Z0 => Zpos m
  | Zpos p => Zpos m * 2 ^ Zpos p
  | Zneg p =>
      let d := (2 ^ Zpos p)%Z in
      let q := (Zpos m / d)%Z in
      let r := (Zpos m mod d)%Z in
      match (2 * r ?= d)%Z with
      | Lt => q
      | Gt => (q + 1)%Z
      | Eq => if Z.even q then q else (q + 1)%Z
      end
  end.

(** [round(x, 1)]: the exact value of [x] is rounded to one decimal,
    ties to even, and the decimal is converted back to the nearest
    float. *)
Definition round1 (x : float) : float :=
  match x with
  | S754_finite s m e =>
      match round_half_even (m * 10) e with
      | Zpos k =>
          let f := truediv_pos k 10 in if s then SFopp f else f
      | _ => S754_zero s
      end
  | _ => x
  end.

End PyFloat.

(** A value that is an [int] on one path and a [float] on another. *)
Inductive number : Type :=
| Int (z : Z)
| Float (f : PyFloat.float).

(** What a call that leaves the process comes back with: a value, or an
    exception.  [Exception msg] is any subclass of Python's [Exception],
    with [msg] its [str(e)]; [BaseException_] is one that
    [except Exception] does not catch ([KeyboardInterrupt],
    [asyncio.CancelledError], ...). *)
Inductive raised : Type :=
| Exception (msg : Py.str)
| BaseException_.

Inductive outcome (A : Type) : Type :=
| Ret (a : A)
| Raise (e : raised).
Arguments Ret {A} a.
Arguments Raise {A} e.

(** How an f-string renders an [Optional[str]]. *)
Definition fmt_opt (o : option Py.str) : Py.str :=
  match o with
  | Some s => s
  | None => py"None"
  end.

(* ================================================================= *)
(** * sheet_reader.py *)
(* ================================================================= *)

Module SheetReader.
Import Py.

(** The dict built for every accepted row. *)
Record TestCase : Type := mkTestCase {
  test_id : str;
  description : str;
  steps : str;
  expected_result : str;
  priority : str;
  row_number : nat;
  status : str;
  error_message : str;
  screenshot_url : str
}.

(** [row[i].strip() if len(row) > i else default] *)
Definition cell_or (row : list str) (i : nat) (default : str) : str :=
  match nth_error row i with
  | Some c => strip c
  | None => default
  end.

(** The body of the loop of [read_test_cases] for the row at index
    [row_idx] (0-based): [None] is [continue]. *)
Definition parse_row (row_idx : nat) (row : list str) : option TestCase :=
  match row with
  | [] => None
  | c0 :: _ =>
      if negb (truthy c0) || negb (truthy (strip c0)) then None
      else
        let test_id := cell_or row 0 [] in
        let description := cell_or row 1 [] in
        let steps := cell_or row 2 [] in
        let expected_result := cell_or row 3 [] in
        let priority := cell_or row 4 (py"Medium") in
        if negb (startswith test_id (py"TC")) then None
        else Some {| test_id := test_id;
                     description := description;
                     steps := steps;
                     expected_result := expected_result;
                     priority := priority;
                     row_number := row_idx + 1;
                     status := [];
                     error_message := [];
                     screenshot_url := [] |}
  end.

(** [for row_idx in range(row_idx, len(all_values))] over the rows that
    remain. *)
Fixpoint read_rows (row_idx : nat) (rows : list (list str)) : list TestCase :=
  match rows with
  | [] => []
  | row :: rest =>
      match parse_row row_idx row with
      | Some test_case => test_case :: read_rows (S row_idx) rest
      | None => read_rows (S row_idx) rest
      end
  end.

(** [read_test_cases] from the point where [get_all_values()] has
    returned. *)
Definition read_all_values (all_values : list (list str))
  : bool * list TestCase * option str :=
  if List.length all_values <? 4 then
    (false, [], Some (py"Worksheet has insufficient data (need at least 4 rows)"))
  else
    (true, read_rows 3 (skipn 3 all_values), None).

(** The spreadsheet as the reader meets it: [connect()] succeeds or
    reports an error; a worksheet is found by name or not; reading its
    values returns the rows or raises. *)
Inductive connection : Type :=
| Connected (worksheets : list (str * outcome (list (list str))))
| ConnectFailed (error : option str).

Fixpoint worksheet (worksheets : list (str * outcome (list (list str))))
  (name : str) : option (outcome (list (list str))) :=
  match worksheets with
  | [] => None
  | (n, w) :: rest => if eqb n name then Some w else worksheet rest name
  end.

(** [SheetReader.read_test_cases]; [None] when an exception that
    [except Exception] does not catch leaves the method. *)
Definition read_test_cases (c : connection) (worksheet_name : str)
  : option (bool * list TestCase * option str) :=
  match c with
  | ConnectFailed error =>
      Some (false, [], Some (py"Failed to connect: " ++ fmt_opt error))
  | Connected worksheets =>
      match worksheet worksheets worksheet_name with
      | None => Some (false, [], Some (py"Worksheet not found: " ++ worksheet_name))
      | Some (Ret all_values) => Some (read_all_values all_values)
      | Some (Raise (Exception msg)) =>
          Some (false, [], Some (py"Error reading test cases: " ++ msg))
      | Some (Raise BaseException_) => None
      end
  end.

(** ** The reader's rule, in the words of its description *)

(** A row is kept when its first cell, once stripped, is not empty and
    starts with the prefix. *)
Definition accepted (row : list str) : bool :=
  match row with
  | [] => false
  | c0 :: _ => truthy (strip c0) && startswith (strip c0) (py"TC")
  end.

(** Cell [i] of a kept row: stripped when the row has it, the default
    otherwise. *)
Definition field (row : list str) (i : nat) (default : str) : str :=
  if i <? List.length row then strip (nth i row []) else default.

Definition expected_test_case (row : list str) (row_number : nat) : TestCase :=
  {| test_id := field row 0 [];
     description := field row 1 [];
     steps := field row 2 [];
     expected_result := field row 3 [];
     priority := field row 4 (py"Medium");
     row_number := row_number;
     status := [];
     error_message := [];
     screenshot_url := [] |}.

(** The exclusion rule read on the first cell as the sheet holds it:
    blank, or not starting with the prefix. *)
Definition excluded_as_written (row : list str) : bool :=
  match row with
  | [] => true
  | c0 :: _ => negb (truthy (strip c0)) || negb (startswith c0 (py"TC"))
  end.

Definition exclusion_rule_as_written : Prop :=
  forall (all_values : list (list str)) (i : nat) (row : list str),
    3 <= i ->
    nth_error all_values i = Some row ->
    excluded_as_written row = true ->
    forall tc, In tc (snd (fst (read_all_values all_values))) ->
               row_number tc <> i + 1.

(** The worksheet of the end-to-end scenario, under any title row and
    second row. *)
Definition scenario_sheet (title second : list str) : list (list str) :=
  [ title; second;
    [py"Test ID"; py"Description"; py"Steps"; py"Expected Result"; py"Priority"];
    [py"TC001"; py"desc"; py"steps"; py"expected"; py"High"] ].

End SheetReader.

(* ================================================================= *)
(** * code_generator.py *)
(* ================================================================= *)

Module CodeGenerator.
Import Py.

(** The string-valued entries of a test case dict, by key. *)
Definition test_case_dict : Type := list (str * str).

(** [test_case.get(key, '')] *)
Fixpoint get_or_empty (test_case : test_case_dict) (key : str) : str :=
  match test_case with
  | [] => []
  | (k, v) :: rest => if eqb k key then v else get_or_empty rest key
  end.

(** The dict of a test case the reader produced. *)
Definition of_test_case (tc : SheetReader.TestCase) : test_case_dict :=
  [ (py"test_id", SheetReader.test_id tc);
    (py"description", SheetReader.description tc);
    (py"steps", SheetReader.steps tc);
    (py"expected_result", SheetReader.expected_result tc);
    (py"priority", SheetReader.priority tc);
    (py"status", SheetReader.status tc);
    (py"error_message", SheetReader.error_message tc);
    (py"screenshot_url", SheetReader.screenshot_url tc) ].

Section DetectModule.

(** [str.lower] of the interpreter (full Unicode lower-casing). *)
Variable lower : str -> str.

(** [any(word in description or word in steps for word in words)] *)
Definition any_word (description steps : str) (words : list str) : bool :=
  existsb (fun word => contains word description || contains word steps) words.

(** [CodeGenerator._detect_module] *)
Definition _detect_module (test_case : test_case_dict) : str :=
  let description := lower (get_or_empty test_case (py"description")) in
  let steps := lower (get_or_empty test_case (py"steps")) in
  if any_word description steps [py"hợp đồng"; py"ctv"; py"contract"] then
    py"contract"
  else if any_word description steps [py"lead"; py"khách hàng tiềm năng"] then
    py"lead"
  else if any_word description steps [py"sản phẩm"; py"product"] then
    py"product"
  else if any_word description steps [py"deeplink"; py"link"] then
    py"deeplink"
  else if any_word description steps [py"báo cáo"; py"report"; py"dashboard"] then
    py"report"
  else if any_word description steps [py"cài đặt"; py"setting"; py"kpi"] then
    py"settings"
  else if any_word description steps [py"profile"; py"hồ sơ"; py"tài khoản"] then
    py"profile"
  else
    py"contract".

End DetectModule.

(** The classifier as the specification words it: seven keyword groups
    in a fixed order, the first group with a keyword occurring in either
    lower-cased field wins, and [contract] is the default. *)
Definition keyword_groups : list (str * list str) :=
  [ (py"contract", [py"hợp đồng"; py"ctv"; py"contract"]);
    (py"lead",     [py"lead"; py"khách hàng tiềm năng"]);
    (py"product",  [py"sản phẩm"; py"product"]);
    (py"deeplink", [py"deeplink"; py"link"]);
    (py"report",   [py"báo cáo"; py"report"; py"dashboard"]);
    (py"settings", [py"cài đặt"; py"setting"; py"kpi"]);
    (py"profile",  [py"profile"; py"hồ sơ"; py"tài khoản"]) ].

Definition group_matches (description steps : str) (g : str * list str) : bool :=
  existsb (fun word => contains word description || contains word steps) (snd g).

Definition first_match_spec (lower : str -> str) (description steps : str) : str :=
  match List.find (group_matches (lower description) (lower steps)) keyword_groups with
  | Some g => fst g
  | None => py"contract"
  end.

End CodeGenerator.

(* ================================================================= *)
(** * url_manager.py *)
(* ================================================================= *)

Module URLManager.
Import Py.

(** What [yaml.safe_load] yields: a string, a mapping (a [dict], in the
    order of the file), [None], or any other scalar or sequence, of
    which only the truth value and the text an f-string gives it
    matter here. *)
Unset Elimination Schemes.
Inductive yaml : Type :=
| YStr (s : str)
| YMap (entries : list (str * yaml))
| YNull
| YOther (is_true : bool) (text : str).
Set Elimination Schemes.

(** [bool(v)] *)
Definition yaml_truthy (v : yaml) : bool :=
  match v with
  | YStr s => truthy s
  | YMap entries => match entries with [] => false | _ :: _ => true end
  | YNull => false
  | YOther b _ => b
  end.

(** [d.get(key)] on a mapping. *)
Fixpoint dict_get (key : str) (entries : list (str * yaml)) : option yaml :=
  match entries with
  | [] => None
  | (k, v) :: rest => if eqb k key then Some v else dict_get key rest
  end.

(** The two attributes of a [URLManager] after [load_urls]. *)
Record t : Type := mk {
  urls : yaml;
  base_url : str
}.

Section Get.

(** The type of the values of [**kwargs] and their [str(value)]. *)
Variable V : Type.
Variable str_of : V -> str.

(** The text of a mapping, as [str] gives it. *)
Variable repr_map : list (str * yaml) -> str.

(** What the f-string of the last line makes of the path. *)
Definition fmt (path : yaml) : str :=
  match path with
  | YStr s => s
  | YMap entries => repr_map entries
  | YNull => py"None"
  | YOther _ text => text
  end.

(** [f"{{{key}}}"] *)
Definition placeholder (key : str) : str := py"{" ++ key ++ py"}".

(** [for key, value in kwargs.items(): path = path.replace(...)] *)
Fixpoint substitute (path : str) (kwargs : list (str * V)) : str :=
  match kwargs with
  | [] => path
  | (key, value) :: rest =>
      substitute (replace (placeholder key) (str_of value) path) rest
  end.

(** [URLManager.get]; every exception of the body is caught and turned
    into [None]. *)
Definition get (self : t) (module action : str) (kwargs : list (str * V))
  : option str :=
  match urls self with
  | YMap entries =>
      match dict_get module entries with
      | None => None
      | Some module_urls =>
          if negb (yaml_truthy module_urls) then None
          else
            match module_urls with
            | YMap actions =>
                match dict_get action actions with
                | None => None
                | Some path =>
                    if negb (yaml_truthy path) then None
                    else
                      match path, kwargs with
                      | YStr p, _ => Some (base_url self ++ substitute p kwargs)
                      | _, [] => Some (base_url self ++ fmt path)
                      | _, _ :: _ => None      (* no [replace] on the path *)
                      end
                end
            | _ => None
            end
      end
  | _ => None
  end.

End Get.

(** A path template seen as the specification describes it: literal
    text interleaved with [{name}] placeholders. *)
Inductive segment : Type :=
| Text (s : str)
| Hole (name : str).

Definition render_segment (g : segment) : str :=
  match g with
  | Text s => s
  | Hole name => placeholder name
  end.

Definition render (template : list segment) : str :=
  flat_map render_segment template.

Fixpoint lookup (V : Type) (key : str) (kwargs : list (str * V)) : option V :=
  match kwargs with
  | [] => None
  | (k, v) :: rest => if eqb k key then Some v else lookup key rest
  end.

(** One pass over the template: a placeholder with a supplied name
    becomes the value, any other stays as written. *)
Definition fill (V : Type) (str_of : V -> str) (kwargs : list (str * V))
  (template : list segment) : str :=
  flat_map (fun g =>
              match g with
              | Text s => s
              | Hole name =>
                  match lookup name kwargs with
                  | Some v => str_of v
                  | None => placeholder name
                  end
              end) template.

Definition is_brace (c : char) : bool := (c =? 123)%N || (c =? 125)%N.

Definition brace_free (s : str) : bool := forallb (fun c => negb (is_brace c)) s.

Definition segment_brace_free (g : segment) : bool :=
  match g with
  | Text s => brace_free s
  | Hole name => brace_free name
  end.

(** A template whose literal text holds no brace and whose
    placeholder names hold none either. *)
Definition well_formed (template : list segment) : bool :=
  forallb segment_brace_free template.

(** The template with the placeholders named [key] filled by [text]. *)
Definition fill_one (key text : str) (template : list segment) : list segment :=
  map (fun g =>
         match g with
         | Text s => Text s
         | Hole name => if eqb key name then Text text else Hole name
         end) template.

(** [module] and [action] resolve, in the mapping loaded, to the
    non-empty path [path]. *)
Definition resolves (self : t) (module action path : str) : Prop :=
  exists entries actions,
    urls self = YMap entries /\
    dict_get module entries = Some (YMap actions) /\
    dict_get action actions = Some (YStr path) /\
    path <> [].

(** The substitution as the description words it: whatever the supplied
    values are, the URL is the template with each placeholder of a
    supplied name replaced by its value and every other placeholder
    left as written. *)
Definition substitution_as_written : Prop :=
  forall (self : t) (module action : str) (template : list segment)
         (kwargs : list (str * str)),
    resolves self module action (render template) ->
    well_formed template = true ->
    forallb (fun kv => brace_free (fst kv)) kwargs = true ->
    forall repr_map,
      get (fun v => v) repr_map self module action kwargs
      = Some (base_url self ++ fill (fun v => v) kwargs template).

End URLManager.

(* ================================================================= *)
(** * result_reporter.py *)
(* ================================================================= *)

Module ResultReporter.
Import Py.

(** The remote worksheet: a grid of [row_count] by [col_count] cells,
    of which [cells] lists the rows that hold something (a row may be
    shorter than the grid; a missing cell is empty).  Rows and columns
    are numbered from 1.  The service may fail any call for a reason of
    its own (quota, network, permission): [pending] lists what the
    calls to come meet, in their order, [None] where the call is
    answered; the calls after these are answered. *)
Record Worksheet : Type := mkWorksheet {
  cells : list (list str);
  row_count : nat;
  col_count : nat;
  pending : list (option raised)
}.

(** A call reaches the service: what it meets, and the worksheet with
    the calls that remain. *)
Definition next_call (w : Worksheet) : option raised * Worksheet :=
  match pending w with
  | [] => (None, w)
  | answer :: rest =>
      (answer,
       {| cells := cells w;
          row_count := row_count w;
          col_count := col_count w;
          pending := rest |})
  end.

(** Trailing empty cells are not reported. *)
Fixpoint drop_trailing_empty (row : list str) : list str :=
  match row with
  | [] => []
  | c :: rest =>
      match drop_trailing_empty rest with
      | [] => if truthy c then [c] else []
      | rest' => c :: rest'
      end
  end.

(** Row [row] as the service holds it. *)
Definition stored_row (w : Worksheet) (row : nat) : list str :=
  drop_trailing_empty (nth (row - 1) (cells w) []).

(** [worksheet.row_values(row)]: the row when the call is answered,
    and the worksheet after the call. *)
Definition row_values (w : Worksheet) (row : nat)
  : outcome (list str) * Worksheet :=
  match next_call w with
  | (Some e, w') => (Raise e, w')
  | (None, w') => (Ret (stored_row w' row), w')
  end.

(** Writing position [i] (0-based) of a list, padding with [pad]. *)
Fixpoint set_nth (A : Type) (pad : A) (i : nat) (v : A) (l : list A) : list A :=
  match i, l with
  | O, [] => [v]
  | O, _ :: rest => v :: rest
  | S i', [] => pad :: set_nth pad i' v []
  | S i', x :: rest => x :: set_nth pad i' v rest
  end.

(** A cell outside the grid is refused by the service. *)
Definition in_grid (w : Worksheet) (row col : nat) : bool :=
  (1 <=? row) && (row <=? row_count w) && (1 <=? col) && (col <=? col_count w).

(** The worksheet once [value] is stored at [(row, col)]. *)
Definition put (w : Worksheet) (row col : nat) (value : str) : Worksheet :=
  {| cells := set_nth [] (row - 1)
                (set_nth [] (col - 1) value (nth (row - 1) (cells w) []))
                (cells w);
     row_count := row_count w;
     col_count := col_count w;
     pending := pending w |}.

(** [worksheet.update_cell(row, col, value)]: the call raises when the
    service fails it or refuses the cell, and then stores nothing; the
    worksheet after the call comes with either outcome. *)
Definition update_cell (w : Worksheet) (row col : nat) (value : str)
  : outcome unit * Worksheet :=
  match next_call w with
  | (Some e, w') => (Raise e, w')
  | (None, w') =>
      if in_grid w' row col then (Ret tt, put w' row col value)
      else (Raise (Exception (py"APIError: exceeds grid limits")), w')
  end.

(** A header position is missing when the row is too short for it, or
    the cell is empty or blank. *)
Definition header_missing (headers : list str) (col : nat) : bool :=
  let current_cols := List.length headers in
  (current_cols <? col)
  || ((col <=? current_cols)
      && (negb (truthy (nth (col - 1) headers []))
          || eqb (strip (nth (col - 1) headers [])) [])).

Definition updates_needed (headers : list str) : list (nat * nat * str) :=
  (if header_missing headers 7 then [(3, 7, py"Error Message")] else [])
  ++ (if header_missing headers 8 then [(3, 8, py"Screenshot")] else []).

(** [for row, col, value in updates_needed: worksheet.update_cell(...)];
    the result carries the worksheet as the loop left it and the writes
    that went through, whether the loop ended or an exception cut it. *)
Fixpoint apply_updates (w : Worksheet) (done : list (nat * nat * str))
  (updates : list (nat * nat * str))
  : outcome unit * Worksheet * list (nat * nat * str) :=
  match updates with
  | [] => (Ret tt, w, done)
  | (row, col, value) :: rest =>
      match update_cell w row col value with
      | (Ret _, w') => apply_updates w' (done ++ [(row, col, value)]) rest
      | (Raise e, w') => (Raise e, w', done)
      end
  end.

(** [ResultReporter._ensure_result_columns]: the boolean returned
    ([None] when an exception [except Exception] does not catch leaves
    the method), the worksheet afterwards, and the cell writes done.
    The read of the header row and the writes all run inside the
    [try]: an [Exception] of any of them gives [False]. *)
Definition _ensure_result_columns (worksheet : Worksheet)
  : option bool * Worksheet * list (nat * nat * str) :=
  match row_values worksheet 3 with
  | (Raise (Exception _), w) => (Some false, w, [])
  | (Raise BaseException_, w) => (None, w, [])
  | (Ret headers, w) =>
      match apply_updates w [] (updates_needed headers) with
      | (Ret _, w', writes) => (Some true, w', writes)
      | (Raise (Exception _), w', writes) => (Some false, w', writes)
      | (Raise BaseException_, w', writes) => (None, w', writes)
      end
  end.

(** The three parts of what [_ensure_result_columns] yields. *)
Definition returned (x : option bool * Worksheet * list (nat * nat * str))
  : option bool := fst (fst x).
Definition sheet_after (x : option bool * Worksheet * list (nat * nat * str))
  : Worksheet := snd (fst x).
Definition writes (x : option bool * Worksheet * list (nat * nat * str))
  : list (nat * nat * str) := snd x.

(** Column [col] of the header row holds a non-blank value. *)
Definition header_present (headers : list str) (col : nat) : Prop :=
  col <= List.length headers /\ strip (nth (col - 1) headers []) <> [].


(** Two worksheets that hold the same grid; they may differ in the
    calls to come. *)
Definition same_grid (a b : Worksheet) : Prop :=
  cells a = cells b /\ row_count a = row_count b /\ col_count a = col_count b.

(** ** The idempotence of the step, in the words of its description *)

(** On a worksheet whose header row holds non-blank values at columns
    7 and 8 the step writes nothing and returns success; and run twice
    in succession it leaves the header row as one run leaves it. *)
Definition idempotence_as_written : Prop :=
  forall worksheet : Worksheet,
    (header_present (stored_row worksheet 3) 7 ->
     header_present (stored_row worksheet 3) 8 ->
     writes (_ensure_result_columns worksheet) = [] /\
     returned (_ensure_result_columns worksheet) = Some true) /\
    (let once := _ensure_result_columns worksheet in
     let twice := _ensure_result_columns (sheet_after once) in
     stored_row (sheet_after twice) 3 = stored_row (sheet_after once) 3).

End ResultReporter.

(* ================================================================= *)
(** * playwright_runner.py *)
(* ================================================================= *)

Module PlaywrightRunner.
Import Py.

(** The result dict of [run_single_test]. *)
Record Result : Type := mkResult {
  test_id : str;
  status : str;
  error_message : option str;
  screenshot_path : option str;
  execution_time : number
}.

Definition set_status (v : str) (r : Result) : Result :=
  {| test_id := test_id r; status := v; error_message := error_message r;
     screenshot_path := screenshot_path r; execution_time := execution_time r |}.

Definition set_error_message (v : option str) (r : Result) : Result :=
  {| test_id := test_id r; status := status r; error_message := v;
     screenshot_path := screenshot_path r; execution_time := execution_time r |}.

Definition set_screenshot_path (v : option str) (r : Result) : Result :=
  {| test_id := test_id r; status := status r; error_message := error_message r;
     screenshot_path := v; execution_time := execution_time r |}.

Definition set_execution_time (v : number) (r : Result) : Result :=
  {| test_id := test_id r; status := status r; error_message := error_message r;
     screenshot_path := screenshot_path r; execution_time := v |}.

(** What awaiting the generated test function under
    [asyncio.wait_for(..., timeout=120)] comes to. *)
Inductive test_outcome : Type :=
| Returned (result : bool)       (* the truth value of what it returned *)
| TimeoutError                   (* asyncio.TimeoutError *)
| TestRaised (e : raised).

(** Everything outside the runner that one call of [run_single_test]
    meets. *)
Record World : Type := mkWorld {
  start_browser : outcome (bool * option str);
  login : outcome (bool * option str);
  page_screenshot : str -> str -> outcome unit;   (* by test id and reason *)
  filepath : str -> str -> str;                   (* the timestamped file name *)
  file_exists : bool;                             (* os.path.exists(code_file) *)
  load_module : outcome bool;                     (* exec_module, then hasattr *)
  run_test : test_outcome;
  elapsed : PyFloat.float                         (* end_time - start_time *)
}.

Section Runner.

Variable lower : str -> str.
Variable w : World.

(** [PlaywrightRunner._capture_screenshot] *)
Definition _capture_screenshot (test_id reason : str) : outcome (option str) :=
  match page_screenshot w test_id reason with
  | Ret _ => Ret (Some (filepath w test_id reason))
  | Raise (Exception _) => Ret None
  | Raise BaseException_ => Raise BaseException_
  end.

(** [PlaywrightRunner.execute_test_code] *)
Definition execute_test_code (test_id code_file : str)
  : outcome (bool * option str * option str) :=
  if negb (file_exists w) then
    Ret (false, Some (py"Code file not found: " ++ code_file), None)
  else
    match load_module w with
    | Raise (Exception msg) =>
        Ret (false, Some (py"Failed to execute test: " ++ msg), None)
    | Raise BaseException_ => Raise BaseException_
    | Ret has_function =>
        if negb has_function then
          Ret (false,
               Some (py"Test function 'test_" ++ lower test_id
                     ++ py"' not found in module"),
               None)
        else
          match run_test w with
          | Returned true => Ret (true, None, None)
          | Returned false =>
              match _capture_screenshot test_id (py"assertion_failed") with
              | Ret screenshot_path =>
                  Ret (false, Some (py"Test assertions failed"), screenshot_path)
              | Raise e => Raise e
              end
          | TimeoutError =>
              match _capture_screenshot test_id (py"timeout") with
              | Ret screenshot_path =>
                  Ret (false, Some (py"Test execution timeout (120s)"), screenshot_path)
              | Raise e => Raise e
              end
          | TestRaised (Exception msg) =>
              match _capture_screenshot test_id (py"error") with
              | Ret screenshot_path => Ret (false, Some msg, screenshot_path)
              | Raise e => Raise e
              end
          | TestRaised BaseException_ => Raise BaseException_
          end
    end.

(** The last part of the [try] block of [run_single_test]. *)
Definition execute_step (test_id code_file : str) (result : Result)
  : Result * option raised :=
  match execute_test_code test_id code_file with
  | Raise e => (result, Some e)
  | Ret (success, error, screenshot_path) =>
      if success then (set_status (py"PASS") result, None)
      else (set_screenshot_path screenshot_path
              (set_error_message error (set_status (py"FAIL") result)), None)
  end.

(** The [try] block of [run_single_test]: the result dict as the block
    left it, and the exception that cut it short, if any. *)
Definition try_block (browser : bool) (test_id code_file : str) (result : Result)
  : Result * option raised :=
  if negb browser then
    match start_browser w with
    | Raise e => (result, Some e)
    | Ret (success, error) =>
        if negb success then
          (set_error_message (Some (py"Browser start failed: " ++ fmt_opt error))
             (set_status (py"FAIL") result), None)
        else
          match login w with
          | Raise e => (result, Some e)
          | Ret (success, error) =>
              if negb success then
                let result :=
                  set_error_message (Some (py"Login failed: " ++ fmt_opt error))
                    (set_status (py"FAIL") result) in
                match _capture_screenshot test_id (py"login_failed") with
                | Raise e => (result, Some e)
                | Ret screenshot_path =>
                    (set_screenshot_path screenshot_path result, None)
                end
              else execute_step test_id code_file result
          end
    end
  else execute_step test_id code_file result.

(** [PlaywrightRunner.run_single_test], called when [self.browser] is
    set or not ([browser]); [None] when an exception that
    [except Exception] does not catch leaves the method. *)
Definition run_single_test (browser : bool) (test_id code_file : str)
  : option Result :=
  let result := {| test_id := test_id;
                   status := py"PENDING";
                   error_message := None;
                   screenshot_path := None;
                   execution_time := Int 0 |} in
  match try_block browser test_id code_file result with
  | (result, None) =>
      Some (set_execution_time (Float (elapsed w)) result)
  | (result, Some (Exception msg)) =>
      Some (set_execution_time (Float (elapsed w))
              (set_error_message (Some (py"Unexpected error: " ++ msg))
                 (set_status (py"FAIL") result)))
  | (_, Some BaseException_) => None
  end.

End Runner.

(** The two terminal states. *)
Definition terminal (r : Result) : Prop :=
  status r = py"PASS" \/ status r = py"FAIL".

End PlaywrightRunner.

(* ================================================================= *)
(** * chatgpt_service.py *)
(* ================================================================= *)

Module ChatGPTService.
Import Py.

(** ** JSON values, as [json.loads] builds them *)

Unset Elimination Schemes.
Inductive json : Type :=
| JNull
| JBool (b : bool)
| JInt (z : Z)
| JFloat (f : PyFloat.float)
| JStr (s : str)
| JArr (items : list json)
| JObj (members : list (str * json)).
Set Elimination Schemes.

(** A test case record is a [dict] of the parsed array. *)
Definition record := list (str * json).

(** What [json.loads] comes to: a value, a [JSONDecodeError], or another
    exception (a [RecursionError] on deep nesting), with their text. *)
Inductive loads_result : Type :=
| Loaded (v : json)
| JSONDecodeError (msg : str)
| LoadsRaised (msg : str).

(** [key in d] and [d[key]] on a dict. *)
Fixpoint dict_lookup (key : str) (d : record) : option json :=
  match d with
  | [] => None
  | (k, v) :: rest => if eqb k key then Some v else dict_lookup key rest
  end.

(** [d[key] = v] for a key the dict already has: the entry keeps its
    place. *)
Fixpoint dict_set (key : str) (v : json) (d : record) : record :=
  match d with
  | [] => [(key, v)]
  | (k, x) :: rest =>
      if eqb k key then (k, v) :: rest else (k, x) :: dict_set key v rest
  end.

(** ** The prompts *)

Inductive template : Type :=
| UIHappyPath       (* _create_prompt_ui_happy_path *)
| UIValidation      (* _create_prompt_ui_validation *)
| UIEdgeCases.      (* _create_prompt_ui_edge_cases *)

(** A prompt is the text its template gives for the BRD and the count
    asked for; the estimation prompt is built from the content sample
    and the number generated so far. *)
Inductive prompt : Type :=
| Generate (t : template) (brd_content : str) (count : Z)
| Estimate (content_sample : str) (generated_count : Z).

Definition _create_prompt_ui_happy_path (brd_content : str) (count : Z) : prompt :=
  Generate UIHappyPath brd_content count.
Definition _create_prompt_ui_validation (brd_content : str) (count : Z) : prompt :=
  Generate UIValidation brd_content count.
Definition _create_prompt_ui_edge_cases (brd_content : str) (count : Z) : prompt :=
  Generate UIEdgeCases brd_content count.

(** ** The batch breakdown *)

Record BatchStat : Type := mkStat {
  name : str;
  count : Z;
  percentage : number
}.

Record BatchBreakdown : Type := mkBreakdown {
  batch1_happy_path : BatchStat;
  batch2_validation : BatchStat;
  batch3_edge_cases : BatchStat
}.

(** ** Calls to the model service

    The service is outside the program: what it answers may depend on
    everything sent so far.  The state threaded through the methods is
    the list of prompts sent; a computation yields [None] when an
    exception leaves the method. *)

Definition M (A : Type) : Type := list prompt -> option A * list prompt.

Definition ret (A : Type) (a : A) : M A := fun sent => (Some a, sent).

Definition bind (A B : Type) (c : M A) (k : A -> M B) : M B :=
  fun sent =>
    match c sent with
    | (Some a, sent') => k a sent'
    | (None, sent') => (None, sent')
    end.

(** An exception nobody catches. *)
Definition throw (A : Type) : M A := fun sent => (None, sent).

(** Lifting of a step that may raise. *)
Definition lift (A : Type) (o : option A) : M A := fun sent => (o, sent).

Notation "x <- c ;; k" := (bind c (fun x => k))
  (at level 61, c at next level, right associativity).
Notation "' pat <- c ;; k" := (bind c (fun x => match x with pat => k end))
  (at level 61, pat pattern, c at next level, right associativity).

Section Service.

(** The interpreter and library functions the methods call. *)
Variable lower : str -> str.                 (* str.lower *)
Variable capitalize : str -> str.            (* str.capitalize *)
Variable repr : json -> str.                 (* str(v) for a value that is not a str *)
Variable json_loads : str -> loads_result.   (* json.loads *)
Variable error_text : json -> str.           (* str(e) of the TypeError a value causes *)
Variable digit_value : char -> option Z.     (* the value of a decimal digit, for \d and int *)

(** The model service: its answer to a prompt, after the prompts sent
    before.  [Ret content] is a completion ([content] may be [None]). *)
Variable service : list prompt -> prompt -> outcome (option str).

(** [str(v)] *)
Definition py_str (v : json) : str :=
  match v with
  | JStr s => s
  | _ => repr v
  end.

(** [ChatGPTService._call_chatgpt] *)
Definition _call_chatgpt (p : prompt) : M (bool * option str * option str) :=
  fun sent =>
    match service sent p with
    | Ret response_text => (Some (true, response_text, None), sent ++ [p])
    | Raise (Exception msg) =>
        (Some (false, Some [], Some (py"ChatGPT API error: " ++ msg)), sent ++ [p])
    | Raise BaseException_ => (None, sent ++ [p])
    end.

(** The removal of the Markdown fence around the response. *)
Definition strip_fence (response_text : str) : str :=
  let cleaned_text := strip response_text in
  let cleaned_text :=
    if startswith cleaned_text (py"```")
    then after_first 10%N cleaned_text        (* '\n'.join(lines[1:]) *)
    else cleaned_text in
  let cleaned_text :=
    if endswith cleaned_text (py"```")
    then slice_to (List.length cleaned_text - 3) cleaned_text   (* rsplit('```', 1)[0] *)
    else cleaned_text in
  strip cleaned_text.

Definition required_fields : list str :=
  [py"description"; py"steps"; py"expected_result"; py"priority"].

(** [tc[field] = str(tc[field]).strip()] *)
Definition normalise (field : str) (post : str -> str) (tc : record) : record :=
  match dict_lookup field tc with
  | Some v => dict_set field (JStr (post (strip (py_str v)))) tc
  | None => tc
  end.

(** One turn of the validation loop: [inl None] skips the element,
    [inl (Some tc)] keeps it, [inr msg] is an exception raised by the
    element. *)
Definition validate_one (tc : json) : option record + str :=
  match tc with
  | JObj members =>
      if forallb (fun field =>
                    match dict_lookup field members with
                    | Some _ => true
                    | None => false
                    end) required_fields
      then
        inl (Some (normalise (py"priority") capitalize
                     (normalise (py"expected_result") (fun s => s)
                        (normalise (py"steps") (fun s => s)
                           (normalise (py"description") (fun s => s) members)))))
      else inl None
  | JArr items =>
      if forallb (fun field =>
                    existsb (fun item =>
                               match item with
                               | JStr s => eqb s field
                               | _ => false
                               end) items) required_fields
      then inr (error_text tc)      (* tc['description'] on a list *)
      else inl None
  | JStr s =>
      if forallb (fun field => contains field s) required_fields
      then inr (error_text tc)      (* tc['description'] on a str *)
      else inl None
  | _ => inr (error_text tc)        (* field not in tc *)
  end.

Fixpoint validate (test_cases : list json) : list record + str :=
  match test_cases with
  | [] => inl []
  | tc :: rest =>
      match validate_one tc with
      | inr msg => inr msg
      | inl kept =>
          match validate rest with
          | inr msg => inr msg
          | inl valid =>
              inl (match kept with Some r => r :: valid | None => valid end)
          end
      end
  end.

(** [ChatGPTService._parse_test_cases] *)
Definition _parse_test_cases (response_text : option str)
  : bool * list record * option str :=
  match response_text with
  | None =>
      (false, [], Some (py"Parsing error: 'NoneType' object has no attribute 'strip'"))
  | Some response_text =>
      let cleaned_text := strip_fence response_text in
      match find (py"[") cleaned_text, rfind_char 93%N cleaned_text with
      | Some first_bracket, Some last_bracket =>
          let cleaned_text := slice_from first_bracket cleaned_text in
          let cleaned_text := slice_to (last_bracket + 1) cleaned_text in
          match json_loads cleaned_text with
          | JSONDecodeError msg =>
              (false, [], Some (py"Failed to parse JSON: " ++ msg))
          | LoadsRaised msg => (false, [], Some (py"Parsing error: " ++ msg))
          | Loaded (JArr test_cases) =>
              match validate test_cases with
              | inr msg => (false, [], Some (py"Parsing error: " ++ msg))
              | inl [] =>
                  (false, [], Some (py"No valid test cases found after parsing"))
              | inl valid_test_cases => (true, valid_test_cases, None)
              end
          | Loaded _ => (false, [], Some (py"Response is not a JSON array"))
          end
      | _, _ => (false, [], Some (py"No JSON array found in response"))
      end
  end.

(** [round((n / total) * 100, 1) if total > 0 else 0]; [None] when the
    division raises. *)
Definition share (n total : Z) : option number :=
  if (0 <? total)%Z then
    match PyFloat.truediv n total with
    | Some q => Some (Float (PyFloat.round1 (PyFloat.mul q PyFloat.f100_0)))
    | None => None
    end
  else Some (Int 0).

(** The breakdown returned when batch 2 did not come through. *)
Definition breakdown_batch1_only (batch1_actual : Z) : BatchBreakdown :=
  {| batch1_happy_path :=
       mkStat (py"UI Happy Path (MainFlow)") batch1_actual (Float PyFloat.f100_0);
     batch2_validation := mkStat (py"UI Validation") 0 (Float PyFloat.f0_0);
     batch3_edge_cases :=
       mkStat (py"UI Boundary (Edge Cases)") 0 (Float PyFloat.f0_0) |}.

(** The breakdown returned when batch 3 did not come through. *)
Definition breakdown_batch12 (batch1_actual batch2_actual : Z)
  : option BatchBreakdown :=
  let total := (batch1_actual + batch2_actual)%Z in
  match share batch1_actual total, share batch2_actual total with
  | Some p1, Some p2 =>
      Some {| batch1_happy_path :=
                mkStat (py"UI Happy Path (MainFlow)") batch1_actual p1;
              batch2_validation := mkStat (py"UI Validation") batch2_actual p2;
              batch3_edge_cases :=
                mkStat (py"UI Boundary (Edge Cases)") 0 (Float PyFloat.f0_0) |}
  | _, _ => None
  end.

(** The breakdown of three batches that all came through. *)
Definition breakdown_all (batch1_actual batch2_actual batch3_actual : Z)
  : option BatchBreakdown :=
  let total_generated := (batch1_actual + batch2_actual + batch3_actual)%Z in
  match share batch1_actual total_generated,
        share batch2_actual total_generated,
        share batch3_actual total_generated with
  | Some p1, Some p2, Some p3 =>
      Some {| batch1_happy_path :=
                mkStat (py"UI Happy Path (MainFlow)") batch1_actual p1;
              batch2_validation := mkStat (py"UI Validation") batch2_actual p2;
              batch3_edge_cases :=
                mkStat (py"UI Boundary (Edge Cases)") batch3_actual p3 |}
  | _, _, _ => None
  end.

(** The breakdown of single batch mode. *)
Definition breakdown_single (n : Z) : BatchBreakdown :=
  {| batch1_happy_path :=
       mkStat (py"All Test Cases (Single Batch)") n (Float PyFloat.f100_0);
     batch2_validation := mkStat (py"N/A") 0 (Float PyFloat.f0_0);
     batch3_edge_cases := mkStat (py"N/A") 0 (Float PyFloat.f0_0) |}.

Definition len (A : Type) (l : list A) : Z := Z.of_nat (List.length l).

(** [ChatGPTService.generate_test_cases]: the tuple
    [(success, test_cases, error_message, batch_breakdown)]. *)
Definition generate_test_cases (brd_content : str) (target_count : Z)
  (batch_mode : bool)
  : M (bool * list record * option str * option BatchBreakdown) :=
  if batch_mode && (70 <=? target_count)%Z then
    (* 3-BATCH STRATEGY *)
    let batch1_count := 30%Z in
    let batch2_count := 30%Z in
    let batch3_count := (target_count - 60)%Z in
    (* BATCH 1 *)
    let prompt1 := _create_prompt_ui_happy_path brd_content batch1_count in
    '(success1, response1, error1) <- _call_chatgpt prompt1 ;;
    if negb success1 then ret (false, [], error1, None)
    else
      let '(success_parse1, happy_cases, parse_error1) :=
        _parse_test_cases response1 in
      if negb success_parse1 then ret (false, [], parse_error1, None)
      else
        let all_test_cases := happy_cases in
        let batch1_actual := len happy_cases in
        (* BATCH 2 *)
        let prompt2 := _create_prompt_ui_validation brd_content batch2_count in
        '(success2, response2, error2) <- _call_chatgpt prompt2 ;;
        if negb success2 then
          ret (true, all_test_cases,
               Some (py"Batch 2 failed but Batch 1 succeeded"),
               Some (breakdown_batch1_only batch1_actual))
        else
          let '(success_parse2, validation_cases, parse_error2) :=
            _parse_test_cases response2 in
          if negb success_parse2 then
            ret (true, all_test_cases,
                 Some (py"Batch 2 parsing failed but Batch 1 succeeded"),
                 Some (breakdown_batch1_only batch1_actual))
          else
            let all_test_cases := all_test_cases ++ validation_cases in
            let batch2_actual := len validation_cases in
            (* BATCH 3 *)
            let prompt3 := _create_prompt_ui_edge_cases brd_content batch3_count in
            '(success3, response3, error3) <- _call_chatgpt prompt3 ;;
            if negb success3 then
              batch_breakdown <- lift (breakdown_batch12 batch1_actual batch2_actual) ;;
              ret (true, all_test_cases,
                   Some (py"Batch 3 failed but Batch 1+2 succeeded"),
                   Some batch_breakdown)
            else
              let '(success_parse3, edge_cases, parse_error3) :=
                _parse_test_cases response3 in
              if negb success_parse3 then
                batch_breakdown <- lift (breakdown_batch12 batch1_actual batch2_actual) ;;
                ret (true, all_test_cases,
                     Some (py"Batch 3 parsing failed but Batch 1+2 succeeded"),
                     Some batch_breakdown)
              else
                let all_test_cases := all_test_cases ++ edge_cases in
                let batch3_actual := len edge_cases in
                batch_breakdown <-
                  lift (breakdown_all batch1_actual batch2_actual batch3_actual) ;;
                ret (true, all_test_cases, None, Some batch_breakdown)
  else
    (* Single batch mode *)
    let prompt := _create_prompt_ui_happy_path brd_content target_count in
    '(success, response, error) <- _call_chatgpt prompt ;;
    if negb success then ret (false, [], error, None)
    else
      let '(success_parse, test_cases, parse_error) := _parse_test_cases response in
      if negb success_parse then ret (false, [], parse_error, None)
      else
        ret (true, test_cases, None, Some (breakdown_single (len test_cases))).

(** ** Estimation *)

Definition ui_keywords : list str :=
  [py"button"; py"field"; py"form"; py"input"; py"dropdown"; py"checkbox";
   py"radio"; py"select"; py"menu"; py"tab"; py"modal"; py"dialog";
   py"nút"; py"trường"; py"biểu mẫu"; py"nhập"; py"chọn"].

Definition obind (A B : Type) (o : option A) (k : A -> option B) : option B :=
  match o with
  | Some a => k a
  | None => None
  end.

(** [sum(brd_content.lower().count(keyword) for keyword in ui_keywords)] *)
Definition ui_element_count (brd_content : str) : nat :=
  list_sum (map (fun keyword => Py.count keyword (lower brd_content)) ui_keywords).

(** [int(base_estimate * (1 + ui_factor * 0.5))] with
    [ui_factor = min(ui_element_count / 20, 2.0)] *)
Definition scaled_estimate (base_estimate : Z) (ui_element_count : nat) : option Z :=
  obind (PyFloat.truediv (Z.of_nat ui_element_count) 20) (fun q =>
  let ui_factor := PyFloat.min q PyFloat.f2_0 in
  obind (PyFloat.of_int base_estimate) (fun b =>
  obind (PyFloat.of_int 1) (fun one =>
  PyFloat.to_int
    (PyFloat.mul b (PyFloat.add one (PyFloat.mul ui_factor PyFloat.f0_5)))))).

(** [ChatGPTService._estimate_by_heuristic]; [None] when the arithmetic
    raises. *)
Definition _estimate_by_heuristic (brd_content : str) (generated_count : Z)
  : option Z :=
  let brd_length := len brd_content in
  let ui_element_count := ui_element_count brd_content in
  let base_estimate :=
    if (brd_length <? 5000)%Z then 30%Z
    else if (brd_length <? 15000)%Z then 60%Z
    else 100%Z in
  obind (scaled_estimate base_estimate ui_element_count) (fun estimate =>
  obind (PyFloat.of_int generated_count) (fun g =>
  obind (PyFloat.to_int (PyFloat.mul g PyFloat.f1_5)) (fun min_estimate =>
  Some (Z.max estimate min_estimate)))).

(** The digits that follow the first one, read as a decimal number. *)
Fixpoint digits_prefix (acc : Z) (s : str) : Z :=
  match s with
  | [] => acc
  | c :: s' =>
      match digit_value c with
      | Some d => digits_prefix (10 * acc + d) s'
      | None => acc
      end
  end.

(** [int(re.findall(r'\d+', s)[0])], [None] when there is no match. *)
Fixpoint first_number (s : str) : option Z :=
  match s with
  | [] => None
  | c :: s' =>
      match digit_value c with
      | Some d => Some (digits_prefix d s')
      | None => first_number s'
      end
  end.

(** [ChatGPTService.estimate_required_test_cases] *)
Definition estimate_required_test_cases (brd_content : str) (generated_count : Z)
  : M Z :=
  let content_sample :=
    if (6000 <? len brd_content)%Z then slice_to (Z.to_nat 6000) brd_content
    else brd_content in
  let p := Estimate content_sample generated_count in
  fun sent =>
    match service sent p with
    | Ret (Some content) =>
        match first_number (strip content) with
        | Some estimated => (Some (Z.max estimated generated_count), sent ++ [p])
        | None => (_estimate_by_heuristic brd_content generated_count, sent ++ [p])
        end
    | Ret None
    | Raise (Exception _) =>
        (_estimate_by_heuristic brd_content generated_count, sent ++ [p])
    | Raise BaseException_ => (None, sent ++ [p])
    end.

(** A batch fails when the call raises or the response does not
    parse. *)
Definition batch_fails (sent : list prompt) (p : prompt) : Prop :=
  (exists msg, service sent p = Raise (Exception msg)) \/
  (exists response_text,
     service sent p = Ret response_text /\
     fst (fst (_parse_test_cases response_text)) = false).

(** A batch comes through with the records [cases]. *)
Definition batch_gives (sent : list prompt) (p : prompt) (cases : list record)
  : Prop :=
  exists response_text e,
    service sent p = Ret response_text /\
    _parse_test_cases response_text = (true, cases, e).

End Service.


(** The three requests of the 3-batch protocol, in the order they are
    issued. *)
Definition three_batches (brd_content : str) (target_count : Z) : list prompt :=
  [ Generate UIHappyPath brd_content 30;
    Generate UIValidation brd_content 30;
    Generate UIEdgeCases brd_content (target_count - 60) ].

(** The number of test cases a generation request asks for. *)
Definition requested (p : prompt) : Z :=
  match p with
  | Generate _ _ count => count
  | Estimate _ _ => 0
  end.

End ChatGPTService.

(* ================================================================= *)
(** * sheet_reader.py: queries on the list read *)
(* ================================================================= *)

Module SheetQueries.
Import Py SheetReader.

(** [SheetReader.get_test_case_by_id] *)
Fixpoint get_test_case_by_id (test_cases : list TestCase) (test_id : str)
  : option TestCase :=
  match test_cases with
  | [] => None
  | tc :: rest =>
      if eqb (SheetReader.test_id tc) test_id then Some tc
      else get_test_case_by_id rest test_id
  end.

Section Filter.

(** [str.lower] of the interpreter. *)
Variable lower : str -> str.

(** [SheetReader.filter_by_priority] *)
Definition filter_by_priority (test_cases : list TestCase) (priority : str)
  : list TestCase :=
  filter (fun tc => eqb (lower (SheetReader.priority tc)) (lower priority))
    test_cases.

End Filter.

(** The first cell of a stored row, as a column read reports it. *)
Definition first_cell (row : list str) : str :=
  match row with
  | [] => []
  | c0 :: _ => c0
  end.

End SheetQueries.

(* ================================================================= *)
(** * executor_routes.py *)
(* ================================================================= *)

Module ExecutorRoutes.
Import Py.

(** A worksheet of the spreadsheet, as [get_worksheets] meets it. *)
Record Sheet : Type := mkSheet {
  title : str;
  row_count : Z;
  col_values_1 : outcome (list str);      (* ws.col_values(1) *)
  url : str
}.

(** The dict appended for a worksheet that is listed. *)
Record worksheet_info : Type := mkInfo {
  name : str;
  test_count : Z;
  info_row_count : Z;                     (* 'row_count' *)
  info_url : str                          (* 'url' *)
}.

(** [sum(1 for val in col_a_values
         if val and str(val).strip().startswith('TC'))] *)
Definition actual_test_count (col_a_values : list str) : Z :=
  Z.of_nat
    (List.length
       (filter (fun val => truthy val && startswith (strip val) (py"TC"))
          col_a_values)).

(** The loop over the worksheets. *)
Fixpoint worksheet_list (worksheets : list Sheet) : outcome (list worksheet_info) :=
  match worksheets with
  | [] => Ret []
  | ws :: rest =>
      let append (info : option worksheet_info) :=
        match worksheet_list rest with
        | Ret l => Ret (match info with Some i => i :: l | None => l end)
        | Raise e => Raise e
        end in
      if eqb (title ws) (py"Trang tính1") || (row_count ws <=? 3)%Z then
        append None
      else
        match col_values_1 ws with
        | Ret col_a_values =>
            let actual_test_count := actual_test_count col_a_values in
            if (actual_test_count =? 0)%Z then append None
            else append (Some {| name := title ws;
                                 test_count := actual_test_count;
                                 info_row_count := row_count ws;
                                 info_url := url ws |})
        | Raise (Exception _) =>
            let test_count := Z.max 0 (row_count ws - 3) in
            append (Some {| name := title ws;
                            test_count := test_count;
                            info_row_count := row_count ws;
                            info_url := url ws |})
        | Raise BaseException_ => Raise BaseException_
        end
  end.

(** The two shapes of the JSON answer: the list with its length, or an
    error with status 500. *)
Inductive response : Type :=
| Listed (worksheets : list worksheet_info) (total : Z)
| ServerError (error : str).

(** [get_worksheets], from what opening the spreadsheet and listing its
    worksheets come to; [None] when an exception that [except Exception]
    does not catch leaves the handler. *)
Definition get_worksheets (access : outcome (bool * option str))
  (worksheets : outcome (list Sheet)) : option response :=
  match access with
  | Raise (Exception msg) =>
      Some (ServerError (py"Error fetching worksheets: " ++ msg))
  | Raise BaseException_ => None
  | Ret (false, error) =>
      Some (ServerError (py"Failed to access Google Sheet: " ++ fmt_opt error))
  | Ret (true, _) =>
      match worksheets with
      | Raise (Exception msg) =>
          Some (ServerError (py"Error fetching worksheets: " ++ msg))
      | Raise BaseException_ => None
      | Ret worksheets =>
          match worksheet_list worksheets with
          | Ret worksheet_list =>
              Some (Listed worksheet_list (Z.of_nat (List.length worksheet_list)))
          | Raise (Exception msg) =>
              Some (ServerError (py"Error fetching worksheets: " ++ msg))
          | Raise BaseException_ => None
          end
      end
  end.

End ExecutorRoutes.

(* ================================================================= *)
(** * url_manager.py: loading, paths and the table of a module *)
(* ================================================================= *)

Module URLPaths.
Import Py URLManager.

(** The mapping file as [load_urls] meets it: whether it exists, what
    opening and parsing it come to, and whether every key of the
    top-level mapping is a [str] (the keys that are not play no part in
    a lookup by name, and are left out of [YMap]). *)
Record url_file : Type := mkFile {
  file_exists : bool;
  safe_load : outcome yaml;
  keys_are_str : bool
}.

Section Paths.

Variable V : Type.
Variable str_of : V -> str.
Variable repr_map : list (str * yaml) -> str.

(** [URLManager.load_urls]: the boolean returned and the manager
    afterwards; [None] when an exception that [except Exception] does
    not catch leaves the method.  [base_url] keeps the text the
    f-strings give the attribute. *)
Definition load_urls (self : t) (f : url_file) : option (bool * t) :=
  if negb (file_exists f) then Some (false, self)
  else
    match safe_load f with
    | Raise (Exception _) => Some (false, self)
    | Raise BaseException_ => None
    | Ret loaded =>
        match loaded with
        | YMap entries =>
            let base :=
              match dict_get (py"base_url") entries with
              | Some v => v
              | None => YStr []
              end in
            (* the join of the module names raises on a key that is not a str *)
            Some (keys_are_str f, {| urls := loaded; base_url := fmt repr_map base |})
        | _ =>
            (* no [get] on the value loaded *)
            Some (false, {| urls := loaded; base_url := base_url self |})
        end
    end.

(** [URLManager.__init__] *)
Definition init (f : url_file) : option t :=
  match load_urls {| urls := YMap []; base_url := [] |} f with
  | Some (_, self) => Some self
  | None => None
  end.

(** [URLManager.get_path]: the path, which is a [str] once a
    replacement has run and the stored value otherwise; every exception
    of the body is caught and turned into [None]. *)
Definition get_path (self : t) (module action : str) (kwargs : list (str * V))
  : option yaml :=
  match urls self with
  | YMap entries =>
      match dict_get module entries with
      | None => None
      | Some module_urls =>
          if negb (yaml_truthy module_urls) then None
          else
            match module_urls with
            | YMap actions =>
                match dict_get action actions with
                | None => None
                | Some path =>
                    if negb (yaml_truthy path) then None
                    else
                      match path, kwargs with
                      | YStr p, _ => Some (YStr (substitute str_of p kwargs))
                      | _, [] => Some path
                      | _, _ :: _ => None      (* no [replace] on the path *)
                      end
                end
            | _ => None
            end
      end
  | _ => None
  end.

(** [URLManager.get_all_urls]; nothing is caught here: [None] stands
    for the [AttributeError] of a value without [get] or [items]. *)
Definition get_all_urls (self : t) (module : str) : option (list (str * str)) :=
  match urls self with
  | YMap entries =>
      let module_urls :=
        match dict_get module entries with
        | Some v => v
        | None => YMap []
        end in
      match module_urls with
      | YMap actions =>
          Some (map (fun kv => (fst kv, base_url self ++ fmt repr_map (snd kv)))
                  actions)
      | _ => None
      end
  | _ => None
  end.

End Paths.

End URLPaths.

(* ================================================================= *)
(** * locator_manager.py *)
(* ================================================================= *)

Module LocatorManager.
Import Py URLManager.

Section Locators.

(** [element in v] for a loaded value that is neither a [str] nor a
    mapping: a sequence answers, a number raises ([None]). *)
Variable contains_other : str -> yaml -> option bool.

(** [self.locators.get(category, {})] on the mapping loaded. *)
Definition category_or_empty (entries : list (str * yaml)) (category : str) : yaml :=
  match dict_get category entries with
  | Some v => v
  | None => YMap []
  end.

(** [LocatorManager.get]: the value, [None] being Python's [None];
    every exception of the body is caught and turned into [None]. *)
Definition get (locators : yaml) (category element : str) : option yaml :=
  match locators with
  | YMap entries =>
      match category_or_empty entries category with
      | YMap elements =>
          match dict_get element elements with
          | Some YNull => None
          | found => found
          end
      | _ => None
      end
  | _ => None
  end.

(** [LocatorManager.get_all]; [None] stands for the [AttributeError] of
    a [locators] attribute that is not a mapping. *)
Definition get_all (locators : yaml) (category : str) : option yaml :=
  match locators with
  | YMap entries => Some (category_or_empty entries category)
  | _ => None
  end.

(** [LocatorManager.has]; [None] stands for an exception. *)
Definition has (locators : yaml) (category element : str) : option bool :=
  match locators with
  | YMap entries =>
      match category_or_empty entries category with
      | YMap elements =>
          Some (match dict_get element elements with
                | Some _ => true
                | None => false
                end)
      | YStr s => Some (contains element s)
      | YNull => None
      | YOther _ _ as v => contains_other element v
      end
  | _ => None
  end.

End Locators.

(** [LocatorManager.load_locators] (and [reload]), on the file as
    [URLPaths.url_file] describes it. *)
Definition load_locators (locators : yaml) (f : URLPaths.url_file)
  : option (bool * yaml) :=
  if negb (URLPaths.file_exists f) then Some (false, locators)
  else
    match URLPaths.safe_load f with
    | Raise (Exception _) => Some (false, locators)
    | Raise BaseException_ => None
    | Ret loaded =>
        match loaded with
        | YMap _ => Some (URLPaths.keys_are_str f, loaded)
        | _ => Some (false, loaded)       (* no [keys] on the value loaded *)
        end
    end.

(** [LocatorManager.__init__] *)
Definition init (f : URLPaths.url_file) : option yaml :=
  match load_locators (YMap []) f with
  | Some (_, locators) => Some locators
  | None => None
  end.

End LocatorManager.
(* ================================================================= *)
(** * result_reporter.py: writing a result back *)
(* ================================================================= *)

Module Reporting.
Import Py ResultReporter.

(** The entries of a test case dict that [report_result] reads; [None]
    is a key the dict lacks. *)
Record Case : Type := mkCase {
  test_id : option str;
  row_number : option nat
}.

(** The entries of a result dict that [report_result] reads.  For
    [status], [None] is a key the dict lacks and [Some None] a key that
    holds [None]: the two are told apart by the default of [get].  For
    the other two, [None] is a key the dict lacks or one that holds
    [None], which the method treats alike. *)
Record Report : Type := mkReport {
  status : option (option str);
  error_message : option str;
  screenshot_path : option str
}.

Definition of_test_case (tc : SheetReader.TestCase) : Case :=
  {| test_id := Some (SheetReader.test_id tc);
     row_number := Some (SheetReader.row_number tc) |}.

Definition of_result (r : PlaywrightRunner.Result) : Report :=
  {| status := Some (Some (PlaywrightRunner.status r));
     error_message := PlaywrightRunner.error_message r;
     screenshot_path := PlaywrightRunner.screenshot_path r |}.

(** What one call meets outside the reporter, the worksheet apart. *)
Record Remote : Type := mkRemote {
  access : outcome (bool * option str);   (* _get_or_create_spreadsheet() *)
  worksheet_found : outcome unit;         (* spreadsheet.worksheet(name) *)
  none_cell : str -> str;                 (* a cell once None is written over its text *)
  path_exists : bool;                     (* os.path.exists(screenshot_path) *)
  basename : str;                         (* os.path.basename(image_path) *)
  relpath : outcome str;                  (* os.path.relpath(image_path) *)
  getsize : outcome Z                     (* os.path.getsize(image_path) *)
}.

(** A cell write: row, column, value. *)
Definition write : Type := (nat * nat * str)%type.

(** What the cell at [(row, col)] reads as. *)
Definition cell (w : Worksheet) (row col : nat) : str :=
  nth (col - 1) (nth (row - 1) (cells w) []) [].

(** The worksheet after the writes of a log, in their order. *)
Definition replay (log : list write) (w : Worksheet) : Worksheet :=
  fold_left (fun w x => put w (fst (fst x)) (snd (fst x)) (snd x)) log w.

(** The text stored in the error column: the message, cut to 1000
    characters and marked when it is longer, or the empty text. *)
Definition error_cell (error_message : option str) : str :=
  match error_message with
  | Some error_msg =>
      if truthy error_msg then
        if 1000 <? List.length error_msg
        then slice_to 1000 error_msg ++ py"... (truncated)"
        else error_msg
      else []
  | None => []
  end.

(** [result.get('status', 'UNKNOWN')]: the value the dict holds, which
    may be [None], and the default only for a key it lacks. *)
Definition status_cell (result : Report) : option str :=
  match status result with
  | Some value => value
  | None => Some (py"UNKNOWN")
  end.

(** What column 6 of the row holds once [status] is written there: the
    text, or what the service makes of [None]. *)
Definition status_text (env : Remote) (worksheet : Worksheet) (row_num : nat)
  (result : Report) : str :=
  match status_cell result with
  | Some s => s
  | None => none_cell env (cell worksheet row_num 6)
  end.

Section Reporter.

(** [f"{x:.0f}"] of the interpreter. *)
Variable format_0f : PyFloat.float -> str.

(** [f"{rel_path} ({file_size:.0f} KB)"], from the file system. *)
Definition screenshot_text (env : Remote) : outcome str :=
  match relpath env with
  | Raise e => Raise e
  | Ret rel_path =>
      match getsize env with
      | Raise e => Raise e
      | Ret size =>
          match PyFloat.truediv size 1024 with
          | None => Raise (Exception (py"integer division result too large for a float"))
          | Some file_size =>
              Ret (rel_path ++ py" (" ++ format_0f file_size ++ py" KB)")
          end
      end
  end.

(** [ResultReporter._add_screenshot_info]: the boolean returned
    ([None] when an exception [except Exception] does not catch leaves
    the method), the worksheet afterwards and the writes done. *)
Definition _add_screenshot_info (env : Remote) (worksheet : Worksheet)
  (row_num col_num : nat) : option bool * Worksheet * list write :=
  let fallback (worksheet : Worksheet) :=
    let text := py"📸 " ++ basename env in
    match update_cell worksheet row_num col_num text with
    | (Ret _, w) => (Some true, w, [(row_num, col_num, text)])
    | (Raise _, w) => (Some false, w, [])
    end in
  match screenshot_text env with
  | Raise BaseException_ => (None, worksheet, [])
  | Raise (Exception _) => fallback worksheet
  | Ret text =>
      match update_cell worksheet row_num col_num text with
      | (Ret _, w) => (Some true, w, [(row_num, col_num, text)])
      | (Raise (Exception _), w) => fallback w
      | (Raise BaseException_, w) => (None, w, [])
      end
  end.

(** The part of [report_result] that writes the row, after the header
    step. *)
Definition report_row (env : Remote) (worksheet : Worksheet) (row_num : nat)
  (result : Report) : option bool * Worksheet * list write :=
  let status := status_text env worksheet row_num result in
  match update_cell worksheet row_num 6 status with
  | (Raise (Exception _), w) => (Some false, w, [])
  | (Raise BaseException_, w) => (None, w, [])
  | (Ret _, w6) =>
      let error_msg := error_cell (error_message result) in
      match update_cell w6 row_num 7 error_msg with
      | (Raise (Exception _), w) => (Some false, w, [(row_num, 6, status)])
      | (Raise BaseException_, w) => (None, w, [(row_num, 6, status)])
      | (Ret _, w7) =>
          let done := [(row_num, 6, status); (row_num, 7, error_msg)] in
          let with_screenshot :=
            match screenshot_path result with
            | Some p => truthy p && path_exists env
            | None => false
            end in
          if with_screenshot then
            match _add_screenshot_info env w7 row_num 8 with
            | (Some _, w8, log) => (Some true, w8, done ++ log)
            | (None, w8, log) => (None, w8, done ++ log)
            end
          else
            match update_cell w7 row_num 8 [] with
            | (Ret _, w8) => (Some true, w8, done ++ [(row_num, 8, [])])
            | (Raise (Exception _), w) => (Some false, w, done)
            | (Raise BaseException_, w) => (None, w, done)
            end
      end
  end.

(** [ResultReporter.report_result] on the worksheet as the service
    holds it: the boolean returned ([None] when an exception
    [except Exception] does not catch leaves the method), the worksheet
    afterwards and the writes done. *)
Definition report_result (env : Remote) (worksheet : Worksheet)
  (test_case : Case) (result : Report) : option bool * Worksheet * list write :=
  match test_id test_case with
  | None => (Some false, worksheet, [])          (* KeyError: 'test_id' *)
  | Some _ =>
      match access env with
      | Raise (Exception _) => (Some false, worksheet, [])
      | Raise BaseException_ => (None, worksheet, [])
      | Ret (false, _) => (Some false, worksheet, [])
      | Ret (true, _) =>
          match worksheet_found env with
          | Raise (Exception _) => (Some false, worksheet, [])
          | Raise BaseException_ => (None, worksheet, [])
          | Ret _ =>
              match _ensure_result_columns worksheet with
              | (None, w, log) => (None, w, log)
              | (Some _, w, log) =>
                  match row_number test_case with
                  | None | Some O => (Some false, w, log)
                  | Some row_num =>
                      match report_row env w row_num result with
                      | (r, w', log') => (r, w', log ++ log')
                      end
                  end
              end
          end
      end
  end.

(** [for row in range(start_row, end_row + 1)], three writes a row. *)
Definition clearing (start_row end_row : nat) : list write :=
  flat_map (fun row => [(row, 6, []); (row, 7, []); (row, 8, [])])
    (seq start_row (end_row + 1 - start_row)).

(** [ResultReporter.clear_results] *)
Definition clear_results (env : Remote) (worksheet : Worksheet)
  (start_row end_row : nat) : option bool * Worksheet * list write :=
  match access env with
  | Raise (Exception _) => (Some false, worksheet, [])
  | Raise BaseException_ => (None, worksheet, [])
  | Ret (false, _) => (Some false, worksheet, [])
  | Ret (true, _) =>
      match worksheet_found env with
      | Raise (Exception _) => (Some false, worksheet, [])
      | Raise BaseException_ => (None, worksheet, [])
      | Ret _ =>
          match _ensure_result_columns worksheet with
          | (None, w, log) => (None, w, log)
          | (Some _, w, log) =>
              match apply_updates w log (clearing start_row end_row) with
              | (Ret _, w', log') => (Some true, w', log')
              | (Raise (Exception _), w', log') => (Some false, w', log')
              | (Raise BaseException_, w', log') => (None, w', log')
              end
          end
      end
  end.

(** The loop of [batch_report_results]; every call meets the service
    and the file system anew. *)
Fixpoint batch_loop (worksheet : Worksheet)
  (test_results : list (Remote * Case * Report)) (success_count fail_count : Z)
  : option (Z * Z) * Worksheet :=
  match test_results with
  | [] => (Some (success_count, fail_count), worksheet)
  | (env, test_case, result) :: rest =>
      match report_result env worksheet test_case result with
      | (Some true, w, _) => batch_loop w rest (success_count + 1)%Z fail_count
      | (Some false, w, _) => batch_loop w rest success_count (fail_count + 1)%Z
      | (None, w, _) => (None, w)
      end
  end.

(** [ResultReporter.batch_report_results] *)
Definition batch_report_results (worksheet : Worksheet)
  (test_results : list (Remote * Case * Report)) : option (Z * Z) * Worksheet :=
  batch_loop worksheet test_results 0 0.

End Reporter.

(** The cells [report_result] may write for a row: the two result
    headers and the three result cells of the row. *)
Definition result_cell (row_num : nat) (x : write) : Prop :=
  (fst (fst x) = 3 /\ (snd (fst x) = 7 \/ snd (fst x) = 8)) \/
  (fst (fst x) = row_num /\
   (snd (fst x) = 6 \/ snd (fst x) = 7 \/ snd (fst x) = 8)).

(** A write inside the grid of [w]. *)
Definition inside (w : Worksheet) (x : write) : Prop :=
  in_grid w (fst (fst x)) (snd (fst x)) = true.

(** What a success of [report_result] has written, after the writes
    [before] of the header step; [status] is the text stored in
    column 6. *)
Definition row_written (env : Remote) (result : Report) (row_num : nat)
  (status : str) (before log : list write) : Prop :=
  exists tail,
    log = before
          ++ [(row_num, 6, status);
              (row_num, 7, error_cell (error_message result))] ++ tail /\
    Forall (fun x => fst x = (row_num, 8)) tail /\
    ((forall p, screenshot_path result = Some p ->
                truthy p && path_exists env = false) ->
     tail = [(row_num, 8, [])]).

(** The cells a call may write, for the test case it is given. *)
Definition may_write (test_case : Case) (x : write) : Prop :=
  result_cell 0 x \/
  exists row_num, row_number test_case = Some row_num /\ result_cell row_num x.

End Reporting.
(* ================================================================= *)
(** * playwright_runner.py: the login *)
(* ================================================================= *)

Module Login.
Import Py.

(** One attempt on a selector: [wait_for_selector], then [fill] or
    [click]. *)
Inductive action : Type :=
| Fill (selector value : str)
| Click (selector : str).

(** The page as [login] meets it; what it answers may depend on
    everything tried so far. *)
Record Page : Type := mkPage {
  goto : outcome unit;                          (* page.goto(...), then the sleep *)
  url_on_arrival : str;                         (* page.url *)
  attempt : list action -> action -> bool;      (* both calls of the attempt return *)
  wait_for_load_state : list action -> outcome unit;   (* then the sleep *)
  url_after : list action -> str                (* page.url after the click *)
}.

Definition username_selectors : list str :=
  [ py"input[name='username']";
    py"#usernameHook";
    py"input[id*='username' i]";
    py"input[type='text']" ].

Definition password_selectors : list str :=
  [ py"input[name='password']";
    py"input[type='password']";
    py"#password" ].

Definition login_button_selectors : list str :=
  [ py"button:has-text('Đăng nhập')";
    py"button[type='submit']";
    py"input[type='submit']" ].

Section Login.

Variable lower : str -> str.                (* str.lower *)
Variable w : PlaywrightRunner.World.        (* for the screenshot *)
Variable page : Page.
Variable TEST_USERNAME TEST_PASSWORD : str. (* Config *)

(** [for selector in selectors: try: ...; break; except: continue]:
    whether an attempt went through, and everything tried. *)
Fixpoint try_selectors (make : str -> action) (selectors : list str)
  (tried : list action) : bool * list action :=
  match selectors with
  | [] => (false, tried)
  | selector :: rest =>
      if attempt page tried (make selector) then (true, tried ++ [make selector])
      else try_selectors make rest (tried ++ [make selector])
  end.

(** [PlaywrightRunner.login]: what it returns, and the attempts made
    on the page. *)
Definition login : outcome (bool * option str) * list action :=
  match goto page with
  | Raise (Exception msg) => (Ret (false, Some (py"Login error: " ++ msg)), [])
  | Raise BaseException_ => (Raise BaseException_, [])
  | Ret _ =>
      if negb (contains (py"login") (lower (url_on_arrival page))) then
        (Ret (true, None), [])
      else
        let (username_filled, tried) :=
          try_selectors (fun selector => Fill selector TEST_USERNAME)
            username_selectors [] in
        if negb username_filled then
          (Ret (false, Some (py"Could not find username input field")), tried)
        else
          let (password_filled, tried) :=
            try_selectors (fun selector => Fill selector TEST_PASSWORD)
              password_selectors tried in
          if negb password_filled then
            (Ret (false, Some (py"Could not find password input field")), tried)
          else
            let (login_clicked, tried) :=
              try_selectors Click login_button_selectors tried in
            if negb login_clicked then
              (Ret (false, Some (py"Could not find login button")), tried)
            else
              match wait_for_load_state page tried with
              | Raise (Exception msg) =>
                  (Ret (false, Some (py"Login timeout: " ++ msg)), tried)
              | Raise BaseException_ => (Raise BaseException_, tried)
              | Ret _ =>
                  if contains (py"login") (lower (url_after page tried)) then
                    match PlaywrightRunner._capture_screenshot w (py"LOGIN")
                            (py"still_on_login_page") with
                    | Ret _ =>
                        (Ret (false, Some (py"Login failed - still on login page")),
                         tried)
                    | Raise (Exception msg) =>
                        (Ret (false, Some (py"Login timeout: " ++ msg)), tried)
                    | Raise BaseException_ => (Raise BaseException_, tried)
                    end
                  else (Ret (true, None), tried)
              end
  end.

End Login.

End Login.
(* ================================================================= *)
(** * code_generator.py: generating the code of a test case *)
(* ================================================================= *)

Module CodeGeneration.
Import Py URLManager CodeGenerator.

(** [test_case[key]]: the value, or the [KeyError] of a missing key,
    whose text is the key between quotes. *)
Fixpoint getitem (test_case : test_case_dict) (key : str) : outcome str :=
  match test_case with
  | [] => Raise (Exception (py"'" ++ key ++ py"'"))
  | (k, v) :: rest => if eqb k key then Ret v else getitem rest key
  end.

(** What [_create_prompt] puts into the prompt text, the fixed wording
    and the [Config] values apart. *)
Record prompt : Type := mkPrompt {
  p_test_id : str;
  p_description : str;
  p_steps : str;
  p_expected_result : str;
  p_priority : str;
  p_module : str;
  p_module_urls : str;       (* json.dumps(module_urls, ...) *)
  p_locators : str;          (* json.dumps(locators, ...) *)
  p_function_name : str      (* test_{test_id.lower()} *)
}.

(** One entry of the list [generate_batch] returns. *)
Record batch_result : Type := mkBatchResult {
  test_case : test_case_dict;
  success : bool;
  code : option str;
  error : option str
}.

(** The removal of the Markdown fence around the generated code. *)
Definition clean_code (content : str) : str :=
  let generated_code := strip content in
  let generated_code :=
    if startswith generated_code (py"```python")
    then strip (slice_from 9 generated_code)
    else generated_code in
  let generated_code :=
    if startswith generated_code (py"```")
    then strip (slice_from 3 generated_code)
    else generated_code in
  let generated_code :=
    if endswith generated_code (py"```")
    then strip (slice_to (List.length generated_code - 3) generated_code)
    else generated_code in
  generated_code.

(** [test_cases[:max_count]] *)
Definition slice_to_int (A : Type) (max_count : Z) (l : list A) : list A :=
  if (0 <=? max_count)%Z then firstn (Z.to_nat max_count) l
  else firstn (List.length l - Z.to_nat (- max_count)) l.

(** Sequencing of steps that may raise. *)
Definition and_then (A B : Type) (c : outcome A) (k : A -> outcome B) : outcome B :=
  match c with
  | Ret a => k a
  | Raise e => Raise e
  end.

Notation "x <-- c ;; k" := (and_then c (fun x => k))
  (at level 61, c at next level, right associativity).

Section Generator.

Variable lower : str -> str.                           (* str.lower *)
Variable repr_map : list (str * yaml) -> str.          (* str of a mapping *)
Variable attribute_error : yaml -> str -> str.         (* str(e) of the AttributeError: value, attribute *)
Variable dumps_urls : list (str * str) -> str.         (* json.dumps of a dict of str *)
Variable dumps_locators : yaml -> outcome str.         (* json.dumps of the locators *)

(** The two managers, as loaded. *)
Variable locators : yaml.
Variable url_manager : URLManager.t.

(** The model service: its answer to a prompt, after the prompts sent
    before; [Ret content] is a completion ([content] may be [None]). *)
Variable client : list prompt -> prompt -> outcome (option str).

(** [self.locator_manager.get_all(category)] *)
Definition locators_of (category : str) : outcome yaml :=
  match LocatorManager.get_all locators category with
  | Some v => Ret v
  | None => Raise (Exception (attribute_error locators (py"get")))
  end.

(** [self.url_manager.get_all_urls(module)] *)
Definition urls_of (module : str) : outcome (list (str * str)) :=
  match URLPaths.get_all_urls repr_map url_manager module with
  | Some table => Ret table
  | None =>
      Raise (Exception
               (match urls url_manager with
                | YMap entries =>
                    attribute_error
                      (match dict_get module entries with
                       | Some v => v
                       | None => YMap []
                       end) (py"items")
                | v => attribute_error v (py"get")
                end))
  end.

(** [x or {}] *)
Definition or_empty (v : yaml) : yaml :=
  if yaml_truthy v then v else YMap [].

(** The [locators] dict of [generate_code]. *)
Definition locator_bundle (module : str) : outcome yaml :=
  login <-- locators_of (py"login") ;;
  contract <-- locators_of (py"contract") ;;
  common <-- locators_of (py"common") ;;
  let base := [ (py"login", login); (py"contract", contract);
                (py"common", common) ] in
  if eqb module (py"lead") then
    lead <-- locators_of (py"lead") ;;
    Ret (YMap (base ++ [(py"lead", or_empty lead)]))
  else if eqb module (py"product") then
    product <-- locators_of (py"product") ;;
    Ret (YMap (base ++ [(py"product", or_empty product)]))
  else Ret (YMap base).

(** [CodeGenerator._create_prompt] *)
Definition _create_prompt (test_case : test_case_dict) (locators : yaml)
  : outcome prompt :=
  let module := _detect_module lower test_case in
  module_urls <-- (if truthy module then urls_of module else Ret []) ;;
  test_id <-- getitem test_case (py"test_id") ;;
  description <-- getitem test_case (py"description") ;;
  steps <-- getitem test_case (py"steps") ;;
  expected_result <-- getitem test_case (py"expected_result") ;;
  priority <-- getitem test_case (py"priority") ;;
  locators_text <-- dumps_locators locators ;;
  Ret {| p_test_id := test_id;
         p_description := description;
         p_steps := steps;
         p_expected_result := expected_result;
         p_priority := priority;
         p_module := if truthy module then module else py"contract (default)";
         p_module_urls := dumps_urls module_urls;
         p_locators := locators_text;
         p_function_name := py"test_" ++ lower test_id |}.

(** The part of [generate_code] before the request. *)
Definition prepare (test_case : test_case_dict) : outcome prompt :=
  _ <-- getitem test_case (py"test_id") ;;          (* the two prints *)
  _ <-- getitem test_case (py"description") ;;
  let module := _detect_module lower test_case in
  locators <-- locator_bundle module ;;
  _create_prompt test_case locators.

(** [CodeGenerator.generate_code]: the tuple
    [(success, generated_code, error_message)] and the prompts sent so
    far; [None] when an exception that [except Exception] does not
    catch leaves the method. *)
Definition generate_code (test_case : test_case_dict) (sent : list prompt)
  : option (bool * option str * option str) * list prompt :=
  let failed (msg : str) :=
    Some (false, @None str, Some (py"Error generating code: " ++ msg)) in
  match prepare test_case with
  | Raise (Exception msg) => (failed msg, sent)
  | Raise BaseException_ => (None, sent)
  | Ret p =>
      match client sent p with
      | Ret (Some content) =>
          (Some (true, Some (clean_code content), None), sent ++ [p])
      | Ret None =>
          (failed (py"'NoneType' object has no attribute 'strip'"), sent ++ [p])
      | Raise (Exception msg) => (failed msg, sent ++ [p])
      | Raise BaseException_ => (None, sent ++ [p])
      end
  end.

(** The loop of [generate_batch]. *)
Fixpoint batch_loop (test_cases : list test_case_dict)
  (results : list batch_result) (success_count : Z) (sent : list prompt)
  : option (Z * list batch_result) * list prompt :=
  match test_cases with
  | [] => (Some (success_count, results), sent)
  | test_case :: rest =>
      match getitem test_case (py"test_id") with     (* the print, outside any try *)
      | Raise _ => (None, sent)
      | Ret _ =>
          match generate_code test_case sent with
          | (None, sent') => (None, sent')
          | (Some (success, code, error), sent') =>
              batch_loop rest
                (results ++ [{| test_case := test_case; success := success;
                                code := code; error := error |}])
                (if success then success_count + 1 else success_count)%Z
                sent'
          end
      end
  end.

(** [CodeGenerator.generate_batch] *)
Definition generate_batch (test_cases : list test_case_dict) (max_count : Z)
  (sent : list prompt) : option (Z * list batch_result) * list prompt :=
  batch_loop (slice_to_int max_count test_cases) [] 0 sent.

End Generator.

(** A text without white space at either end. *)
Definition trimmed (s : str) : Prop := strip s = s.

(** A text of white space only. *)
Definition blank (s : str) : Prop := forallb isspace s = true.

End CodeGeneration.

(* ================================================================= *)
(** * Concrete inputs *)
(* ================================================================= *)

(** A run whose test function times out, and whose screenshot fails. *)
Definition timeout_world : PlaywrightRunner.World :=
  {| PlaywrightRunner.start_browser := Ret (true, None);
     PlaywrightRunner.login := Ret (true, None);
     PlaywrightRunner.page_screenshot :=
       fun _ _ => Raise (Exception (py"Target closed"));
     PlaywrightRunner.filepath := fun test_id reason => test_id ++ py"_" ++ reason;
     PlaywrightRunner.file_exists := true;
     PlaywrightRunner.load_module := Ret true;
     PlaywrightRunner.run_test := PlaywrightRunner.TimeoutError;
     PlaywrightRunner.elapsed := PyFloat.f100_0 |}.

(** A worksheet whose header row stops at the result column. *)
Definition fresh_sheet : ResultReporter.Worksheet :=
  {| ResultReporter.cells :=
       [ [py"BRD.pdf"]; [];
         [py"Test ID"; py"Description"; py"Steps"; py"Expected Result";
          py"Priority"; py"Result"];
         [py"TC001"; py"desc"; py"steps"; py"expected"; py"High"] ];
     ResultReporter.row_count := 100;
     ResultReporter.col_count := 26;
     ResultReporter.pending := [] |}.

(** The same sheet on a service that answers the read and the first
    write and fails the second write. *)
Definition interrupted_sheet : ResultReporter.Worksheet :=
  {| ResultReporter.cells := ResultReporter.cells fresh_sheet;
     ResultReporter.row_count := 100;
     ResultReporter.col_count := 26;
     ResultReporter.pending :=
       [None; None; Some (Exception (py"Quota exceeded"))] |}.

(** The sheet once both headers are there, on a service that fails the
    next call. *)
Definition unread_sheet : ResultReporter.Worksheet :=
  {| ResultReporter.cells :=
       ResultReporter.cells
         (ResultReporter.sheet_after
            (ResultReporter._ensure_result_columns fresh_sheet));
     ResultReporter.row_count := 100;
     ResultReporter.col_count := 26;
     ResultReporter.pending := [Some (Exception (py"Quota exceeded"))] |}.

(** A URL mapping with the edit path of the contract module. *)
Definition contract_urls : URLManager.t :=
  {| URLManager.urls :=
       URLManager.YMap
         [ (py"base_url", URLManager.YStr (py"https://agency-uat.affina.com.vn"));
           (py"contract",
            URLManager.YMap
              [ (py"list", URLManager.YStr (py"/account/contract"));
                (py"edit", URLManager.YStr (py"/account/contract/edit/{id}"));
                (py"view", URLManager.YStr (py"/account/contract/{id}/tab/{tab}")) ]) ];
     URLManager.base_url := py"https://agency-uat.affina.com.vn" |}.

Definition edit_template : list URLManager.segment :=
  [URLManager.Text (py"/account/contract/edit/"); URLManager.Hole (py"id")].

Definition view_template : list URLManager.segment :=
  [URLManager.Text (py"/account/contract/"); URLManager.Hole (py"id");
   URLManager.Text (py"/tab/"); URLManager.Hole (py"tab")].

(** Instances of the interpreter functions, enough to run the service
    on the responses below. *)
Definition capitalize_ascii (s : Py.str) : Py.str :=
  match Py.lower_ascii s with
  | [] => []
  | c :: rest => (if (97 <=? c)%N && (c <=? 122)%N then (c - 32)%N else c) :: rest
  end.

Definition repr_scalar (v : ChatGPTService.json) : Py.str :=
  match v with
  | ChatGPTService.JNull => py"None"
  | ChatGPTService.JBool true => py"True"
  | ChatGPTService.JBool false => py"False"
  | _ => py"..."
  end.

Definition error_text_plain (v : ChatGPTService.json) : Py.str :=
  py"argument is not iterable or not subscriptable".

Definition quoted (s : Py.str) : Py.str := [34%N] ++ s ++ [34%N].

(** A response holding one complete record. *)
Definition one_record_text : Py.str :=
  py"[{" ++ quoted (py"description") ++ py": " ++ quoted (py"Verify login button")
  ++ py", " ++ quoted (py"steps") ++ py": " ++ quoted (py"1. Open the page")
  ++ py", " ++ quoted (py"expected_result") ++ py": " ++ quoted (py"Button is shown")
  ++ py", " ++ quoted (py"priority") ++ py": " ++ quoted (py"high") ++ py"}]".

Definition one_record_json : ChatGPTService.json :=
  ChatGPTService.JArr
    [ ChatGPTService.JObj
        [ (py"description", ChatGPTService.JStr (py"Verify login button"));
          (py"steps", ChatGPTService.JStr (py"1. Open the page"));
          (py"expected_result", ChatGPTService.JStr (py"Button is shown"));
          (py"priority", ChatGPTService.JStr (py"high")) ] ].

(** [json.loads] on that response; any other text is taken as not
    being JSON. *)
Definition loads_one_record (s : Py.str) : ChatGPTService.loads_result :=
  if Py.eqb s one_record_text then ChatGPTService.Loaded one_record_json
  else ChatGPTService.JSONDecodeError (py"Expecting value: line 1 column 1 (char 0)").

(** The record [_parse_test_cases] makes of it. *)
Definition one_record : ChatGPTService.record :=
  [ (py"description", ChatGPTService.JStr (py"Verify login button"));
    (py"steps", ChatGPTService.JStr (py"1. Open the page"));
    (py"expected_result", ChatGPTService.JStr (py"Button is shown"));
    (py"priority", ChatGPTService.JStr (py"High")) ].

(** A service that answers the [n]-th prompt with the [n]-th entry of a
    script, and raises once the script is over. *)
Definition scripted (script : list (outcome (option Py.str)))
  (sent : list ChatGPTService.prompt) (p : ChatGPTService.prompt)
  : outcome (option Py.str) :=
  nth (List.length sent) script (Raise (Exception (py"Connection error."))).

Definition run_generate (script : list (outcome (option Py.str)))
  (brd_content : Py.str) (target_count : Z) (batch_mode : bool) :=
  ChatGPTService.generate_test_cases capitalize_ascii repr_scalar loads_one_record
    error_text_plain (scripted script) brd_content target_count batch_mode [].

(** The value of an ASCII decimal digit. *)
Definition digit_ascii (c : Py.char) : option Z :=
  if (48 <=? c)%N && (c <=? 57)%N then Some (Z.of_N c - 48)%Z else None.

Definition sample_brd : Py.str :=
  py"The form has a Submit button and an input field.".

(** A test case that mentions a report and a link. *)
Definition link_and_report : CodeGenerator.test_case_dict :=
  [ (py"test_id", py"TC001");
    (py"description", py"Open the Report DASHBOARD");
    (py"steps", py"Click the LINK") ].

(** A file that does not hold a mapping, and one that cannot be read. *)
Definition list_file : URLPaths.url_file :=
  {| URLPaths.file_exists := true;
     URLPaths.safe_load := Ret (URLManager.YOther true (py"['a', 'b']"));
     URLPaths.keys_are_str := true |}.

Definition missing_file : URLPaths.url_file :=
  {| URLPaths.file_exists := false;
     URLPaths.safe_load := Raise (Exception (py"No such file or directory"));
     URLPaths.keys_are_str := true |}.

(** The text of a mapping, left out. *)
Definition repr_map_dots (entries : list (Py.str * URLManager.yaml)) : Py.str :=
  py"{...}".

(** Locators of two categories. *)
Definition sample_locators : URLManager.yaml :=
  URLManager.YMap
    [ (py"login",
       URLManager.YMap
         [ (py"username_input", URLManager.YStr (py"input[name='username']"));
           (py"remember_me", URLManager.YNull) ]);
      (py"common", URLManager.YMap []) ].

(** The worksheets of a spreadsheet: the default sheet, one with two
    test cases, one without any, and one whose column cannot be read. *)
Definition sample_sheets : list ExecutorRoutes.Sheet :=
  [ ExecutorRoutes.mkSheet (py"Trang tính1") 1000 (Ret []) (py"u0");
    ExecutorRoutes.mkSheet (py"BRD_Portal") 100
      (Ret [py"BRD.pdf"; []; py"Test ID"; py"TC001"; py" TC002"; py"note"])
      (py"u1");
    ExecutorRoutes.mkSheet (py"Notes") 50 (Ret [py"todo"]) (py"u2");
    ExecutorRoutes.mkSheet (py"Busy") 40 (Raise (Exception (py"Quota exceeded")))
      (py"u3") ].

Definition sample_listing : list ExecutorRoutes.worksheet_info :=
  [ ExecutorRoutes.mkInfo (py"BRD_Portal") 2 100 (py"u1");
    ExecutorRoutes.mkInfo (py"Busy") 37 40 (py"u3") ].
(** A service and a file system that answer, and no screenshot file. *)
Definition quiet_remote : Reporting.Remote :=
  {| Reporting.access := Ret (true, None);
     Reporting.worksheet_found := Ret tt;
     Reporting.none_cell := fun text => text;
     Reporting.path_exists := false;
     Reporting.basename := py"TC001_error.png";
     Reporting.relpath := Ret (py"screenshots/TC001_error.png");
     Reporting.getsize := Ret 2048%Z |}.

Definition tc001_case : Reporting.Case :=
  {| Reporting.test_id := Some (py"TC001"); Reporting.row_number := Some 4 |}.

Definition failed_report : Reporting.Report :=
  {| Reporting.status := Some (Some (py"FAIL"));
     Reporting.error_message := Some (py"Test assertions failed");
     Reporting.screenshot_path := None |}.

Definition passed_report : Reporting.Report :=
  {| Reporting.status := Some (Some (py"PASS"));
     Reporting.error_message := None;
     Reporting.screenshot_path := None |}.

(** A rendering of [f"{x:.0f}"] that is enough where no screenshot is
    written. *)
Definition format_0f_dots (x : PyFloat.float) : Py.str := py"...".

(** A login page whose first username field does not exist, and which
    lets the user in. *)
Definition login_page : Login.Page :=
  {| Login.goto := Ret tt;
     Login.url_on_arrival := py"https://agency-uat.affina.com.vn/Login";
     Login.attempt :=
       fun tried a =>
         match a with
         | Login.Fill selector _ =>
             negb (Py.eqb selector (py"input[name='username']"))
         | Login.Click _ => true
         end;
     Login.wait_for_load_state := fun _ => Ret tt;
     Login.url_after := fun _ => py"https://agency-uat.affina.com.vn/account" |}.

(** What is tried on that page. *)
Definition login_attempts : list Login.action :=
  [ Login.Fill (py"input[name='username']") (py"qa");
    Login.Fill (py"#usernameHook") (py"qa");
    Login.Fill (py"input[name='password']") (py"secret");
    Login.Click (py"button:has-text('Đăng nhập')") ].

(** A test case as the reader builds it, and a setting in which the
    model answers every request with the same fenced code. *)
Definition full_case : CodeGenerator.test_case_dict :=
  CodeGenerator.of_test_case
    (SheetReader.mkTestCase (py"TC001") (py"Open the contract list")
       (py"1. Go to the list") (py"The list is shown") (py"High") 4 [] [] []).

Definition fenced_code : Py.str :=
  py"```python" ++ [10%N] ++ py"async def test_tc001(page: Page):" ++ [10%N]
  ++ py"```".

Definition attribute_error_plain (v : URLManager.yaml) (attribute : Py.str)
  : Py.str :=
  py"object has no attribute '" ++ attribute ++ py"'".

Definition run_generate_code (test_case : CodeGenerator.test_case_dict) :=
  CodeGeneration.generate_code Py.lower_ascii repr_map_dots attribute_error_plain
    (fun _ => py"{...}") (fun _ => Ret (py"{...}")) sample_locators contract_urls
    (fun _ _ => Ret (Some fenced_code)) test_case [].

Definition run_generate_batch (test_cases : list CodeGenerator.test_case_dict)
  (max_count : Z) :=
  CodeGeneration.generate_batch Py.lower_ascii repr_map_dots attribute_error_plain
    (fun _ => py"{...}") (fun _ => Ret (py"{...}")) sample_locators contract_urls
    (fun _ _ => Ret (Some fenced_code)) test_cases max_count [].

(** The results of a batch of two over three test cases. *)
Definition two_results : list CodeGeneration.batch_result :=
  match fst (run_generate_batch [full_case; full_case; full_case] 2) with
  | Some (_, results) => results
  | None => []
  end.

(** The result of the run that times out, and the sheet once it is
    reported. *)
Definition timeout_result : PlaywrightRunner.Result :=
  match PlaywrightRunner.run_single_test Py.lower_ascii timeout_world false
          (py"TC001") (py"tests/generated/test_tc001.py") with
  | Some r => r
  | None => PlaywrightRunner.mkResult [] [] None None (Int 0)
  end.

Definition timeout_reported : ResultReporter.Worksheet :=
  snd (fst (Reporting.report_result format_0f_dots quiet_remote fresh_sheet
              tc001_case (Reporting.of_result timeout_result))).

(* ================================================================= *)
(** * Properties *)
(* ================================================================= *)

(** ** Strings *)

Section StripFacts.
Import Py.

Lemma lstrip_blank (s : str) : forallb isspace s = true -> lstrip s = [].
Proof.
  induction s as [|c s IH]; simpl; [reflexivity|].
  intros H. apply andb_true_iff in H as [Hc Hs]. rewrite Hc. auto.
Qed.

Lemma strip_blank (s : str) : forallb isspace s = true -> strip s = [].
Proof.
  intros H. unfold strip, rstrip. rewrite (lstrip_blank _ H). reflexivity.
Qed.

Lemma strip_nil : strip [] = [].
Proof. reflexivity. Qed.

Example literal_code_points :
  py"hợp đồng" = [104; 7907; 112; 32; 273; 7891; 110; 103]%N /\
  strip (py"  TC001 ") = py"TC001" /\
  count (py"form") (py"form, FORM and platform") = 2 /\
  replace (py"{id}") (py"7") (py"/a/{id}/b/{id}") = py"/a/7/b/7" /\
  find (py"[") (py"Here: [1]") = Some 6 /\
  rfind_char 93%N (py"[1] and [2]") = Some 10.
Proof. repeat split; vm_compute; reflexivity. Qed.

End StripFacts.

(** ** The sheet reader *)

Section ReaderFacts.
Import Py SheetReader.

Lemma cell_or_field (row : list str) (i : nat) (d : str) :
  cell_or row i d = field row i d.
Proof.
  unfold cell_or, field.
  destruct (Nat.ltb_spec i (List.length row)) as [Hlt|Hge].
  - rewrite (nth_error_nth' row [] Hlt). reflexivity.
  - apply nth_error_None in Hge. rewrite Hge. reflexivity.
Qed.

Lemma field_0 (c0 : str) (rest : list str) (d : str) :
  field (c0 :: rest) 0 d = strip c0.
Proof. reflexivity. Qed.

(** The loop body keeps exactly the accepted rows and builds the
    expected dict for them. *)
Lemma parse_row_accepted (row_idx : nat) (row : list str) :
  parse_row row_idx row =
  if accepted row then Some (expected_test_case row (row_idx + 1)) else None.
Proof.
  destruct row as [|c0 rest]; [reflexivity|].
  unfold parse_row, accepted.
  rewrite !cell_or_field, field_0.
  destruct c0 as [|c c0'].
  - reflexivity.
  - cbn [truthy negb orb].
    destruct (truthy (strip (c :: c0'))); cbn [negb andb]; [|reflexivity].
    destruct (startswith (strip (c :: c0')) (py"TC")); reflexivity.
Qed.

Lemma read_rows_In (rows : list (list str)) :
  forall (k : nat) (tc : TestCase),
    In tc (read_rows k rows) <->
    exists j row, nth_error rows j = Some row /\ parse_row (k + j) row = Some tc.
Proof.
  induction rows as [|r rows IH]; intros k tc; simpl.
  - split; [tauto|]. intros (j & row & H & _). destruct j; discriminate.
  - assert (Hstep :
      In tc (read_rows (S k) rows) <->
      exists j row, nth_error rows j = Some row /\ parse_row (k + S j) row = Some tc).
    { rewrite IH. split; intros (j & row & H1 & H2); exists j, row; split; auto;
        now replace (k + S j) with (S k + j) in * by lia. }
    split.
    + intros H.
      assert (Hcases : parse_row k r = Some tc \/ In tc (read_rows (S k) rows)).
      { destruct (parse_row k r) as [t|]; [destruct H as [->|H]|]; auto. }
      destruct Hcases as [H0|H1].
      * exists 0, r. rewrite Nat.add_0_r. auto.
      * apply Hstep in H1 as (j & row & H1 & H2). exists (S j), row. auto.
    + intros (j & row & H1 & H2). destruct j as [|j].
      * simpl in H1. injection H1 as ->. rewrite Nat.add_0_r in H2.
        rewrite H2. left. reflexivity.
      * simpl in H1.
        assert (In tc (read_rows (S k) rows)) by (apply Hstep; eauto).
        destruct (parse_row k r); [right|]; assumption.
Qed.

(** What the reader returns on a sheet of four rows or more. *)
Lemma read_all_values_In (all_values : list (list str)) :
  4 <= List.length all_values ->
  exists tcs,
    read_all_values all_values = (true, tcs, None) /\
    forall tc,
      In tc tcs <->
      exists i row, 3 <= i /\ nth_error all_values i = Some row /\
                    accepted row = true /\
                    tc = expected_test_case row (i + 1).
Proof.
  intros Hlen. unfold read_all_values.
  destruct (Nat.ltb_spec (List.length all_values) 4) as [Hlt|_]; [lia|].
  eexists. split; [reflexivity|].
  intros tc. rewrite read_rows_In. split.
  - intros (j & row & H1 & H2). exists (3 + j), row.
    rewrite nth_error_skipn in H1. rewrite parse_row_accepted in H2.
    destruct (accepted row); [|discriminate]. injection H2 as <-.
    repeat split; auto; lia.
  - intros (i & row & Hi & H1 & H2 & ->). exists (i - 3), row.
    rewrite nth_error_skipn, parse_row_accepted, H2.
    replace (3 + (i - 3)) with i by lia. auto.
Qed.

(** The method, once the worksheet is found and its values are read. *)
Lemma read_test_cases_found
  (worksheets : list (str * outcome (list (list str)))) (worksheet_name : str)
  (all_values : list (list str)) :
  worksheet worksheets worksheet_name = Some (Ret all_values) ->
  read_test_cases (Connected worksheets) worksheet_name
  = Some (read_all_values all_values).
Proof. unfold read_test_cases. intros ->. reflexivity. Qed.

End ReaderFacts.

Section ReaderClaims.
Import Py SheetReader.

(** C4, as amended.  On the worksheet of the scenario (header at row 3,
    the row [TC001, desc, steps, expected, High] at row 4) the reader
    returns exactly one test case, with id [TC001], priority [High] and
    row number 4.  On any worksheet of at least four rows, the test
    cases returned are exactly those of the rows from row 4 on whose
    first cell, with surrounding whitespace stripped, is not empty and
    starts with [TC]; each has the stripped cells of its row, the empty
    string for a missing trailing cell, and [Medium] as priority when
    the row has fewer than five cells. *)
Theorem reader_keeps_stripped_prefix_rows
  (title second : list str) (all_values : list (list str))
  (Hrows : 4 <= List.length all_values) :
  (exists tc,
     read_all_values (scenario_sheet title second) = (true, [tc], None) /\
     test_id tc = py"TC001" /\ priority tc = py"High" /\ row_number tc = 4) /\
  (exists tcs,
     read_all_values all_values = (true, tcs, None) /\
     forall tc,
       In tc tcs <->
       exists i row, 3 <= i /\ nth_error all_values i = Some row /\
                     accepted row = true /\
                     tc = expected_test_case row (i + 1)).
Proof.
  split.
  - eexists. split; [|split; [|split]].
    + unfold read_all_values, scenario_sheet. cbn [List.length Nat.ltb Nat.leb skipn].
      cbn [read_rows]. rewrite parse_row_accepted.
      replace (accepted _) with true by (vm_compute; reflexivity).
      reflexivity.
    + vm_compute. reflexivity.
    + vm_compute. reflexivity.
    + reflexivity.
  - apply read_all_values_In. exact Hrows.
Qed.

Lemma reader_keeps_stripped_prefix_rows_witness :
  4 <= List.length (scenario_sheet [py"BRD.pdf"] []) /\
  exists tcs,
    read_all_values (scenario_sheet [py"BRD.pdf"] []) = (true, tcs, None) /\
    forall tc,
      In tc tcs <->
      exists i row, 3 <= i /\
                    nth_error (scenario_sheet [py"BRD.pdf"] []) i = Some row /\
                    accepted row = true /\
                    tc = expected_test_case row (i + 1).
Proof.
  split.
  - apply le_n.
  - exact (proj2 (@reader_keeps_stripped_prefix_rows [] []
                    (scenario_sheet [py"BRD.pdf"] []) (le_n 4))).
Defined.

(** C4, as written, fails: a first cell with a leading space does not
    start with [TC], yet the row is read, because the prefix is tested
    on the stripped cell. *)
Lemma exclusion_rule_as_written_fails : ~ exclusion_rule_as_written.
Proof.
  intros H.
  apply (H [[]; []; []; [py" TC001"; py"desc"]] 3 [py" TC001"; py"desc"]
           (le_n 3) eq_refl eq_refl
           (expected_test_case [py" TC001"; py"desc"] 4)).
  - vm_compute. left. reflexivity.
  - reflexivity.
Qed.

(** C10.  For a test case the reader produces from a row: when the row
    has five cells or more the priority is the stripped fifth cell, so
    an empty or whitespace-only fifth cell gives the empty string and
    not [Medium]; [Medium] is what a row of fewer than five cells
    gets. *)
Theorem priority_default_only_for_absent_cell
  (all_values : list (list str)) (i : nat) (row : list str) (tc : TestCase)
  (Hrow : nth_error all_values i = Some row)
  (Hin : In tc (snd (fst (read_all_values all_values))))
  (Hnum : row_number tc = i + 1) :
  (5 <= List.length row -> priority tc = strip (nth 4 row [])) /\
  (5 <= List.length row -> forallb isspace (nth 4 row []) = true ->
   priority tc = [] /\ priority tc <> py"Medium") /\
  (List.length row < 5 -> priority tc = py"Medium").
Proof.
  assert (Hlen : 4 <= List.length all_values).
  { unfold read_all_values in Hin.
    destruct (Nat.ltb_spec (List.length all_values) 4); [destruct Hin | assumption]. }
  destruct (read_all_values_In all_values Hlen) as (tcs & Heq & Hchar).
  rewrite Heq in Hin. cbn [fst snd] in Hin.
  apply Hchar in Hin as (i' & row' & _ & Hrow' & _ & ->).
  cbn [row_number expected_test_case] in Hnum.
  assert (i' = i) by lia. subst i'.
  rewrite Hrow in Hrow'. injection Hrow' as <-.
  cbn [priority expected_test_case]. unfold field.
  assert (Hfive : 5 <= List.length row -> priority (expected_test_case row (i + 1))
                                          = strip (nth 4 row [])).
  { intros H5. cbn [priority expected_test_case]. unfold field.
    destruct (Nat.ltb_spec 4 (List.length row)); [reflexivity | lia]. }
  cbn [priority expected_test_case] in Hfive. unfold field in Hfive.
  split; [exact Hfive|]. split.
  - intros H5 Hblank. rewrite (Hfive H5), (strip_blank _ Hblank).
    split; [reflexivity | discriminate].
  - intros Hlt. destruct (Nat.ltb_spec 4 (List.length row)); [lia | reflexivity].
Qed.

Lemma priority_default_only_for_absent_cell_witness :
  let sheet := [[]; []; []; [py"TC007"; py"d"; py"s"; py"e"; py"  "]] in
  let row := [py"TC007"; py"d"; py"s"; py"e"; py"  "] in
  let tc := expected_test_case row 4 in
  nth_error sheet 3 = Some row /\
  In tc (snd (fst (read_all_values sheet))) /\
  row_number tc = 3 + 1 /\
  (5 <= List.length row -> forallb isspace (nth 4 row []) = true ->
   priority tc = [] /\ priority tc <> py"Medium").
Proof.
  intros sheet row tc.
  assert (H1 : nth_error sheet 3 = Some row) by reflexivity.
  assert (H2 : In tc (snd (fst (read_all_values sheet))))
    by (vm_compute; left; reflexivity).
  assert (H3 : row_number tc = 3 + 1) by reflexivity.
  split; [exact H1|]. split; [exact H2|]. split; [exact H3|].
  exact (proj1 (proj2 (@priority_default_only_for_absent_cell sheet 3 row tc H1 H2 H3))).
Defined.

End ReaderClaims.

(** ** The module classifier *)

Section ClassifierClaims.
Import Py CodeGenerator.

Lemma find_first (A : Type) (f : A -> bool) (pre : list A) (g : A) (post : list A) :
  (forall h, In h pre -> f h = false) -> f g = true ->
  List.find f (pre ++ g :: post) = Some g.
Proof.
  induction pre as [|h pre IH]; intros Hpre Hg; simpl.
  - rewrite Hg. reflexivity.
  - rewrite (Hpre h (or_introl eq_refl)). apply IH; auto.
    intros h' Hin. apply Hpre. right. exact Hin.
Qed.

Lemma find_nothing (A : Type) (f : A -> bool) (l : list A) :
  (forall h, In h l -> f h = false) -> List.find f l = None.
Proof.
  induction l as [|h l IH]; intros Hl; simpl; [reflexivity|].
  rewrite (Hl h (or_introl eq_refl)). apply IH.
  intros h' Hin. apply Hl. right. exact Hin.
Qed.

(** C5.  [_detect_module] is a function of the description and steps
    of the test case alone: it lower-cases both, and its result is the
    tag of the first of the seven groups contract, lead, product,
    deeplink, report, settings, profile (in this order) one of whose
    keywords occurs in either field; it is [contract] when no group
    matches. *)
Theorem detect_module_first_match
  (lower : str -> str) (test_case : test_case_dict) :
  let description := lower (get_or_empty test_case (py"description")) in
  let steps := lower (get_or_empty test_case (py"steps")) in
  _detect_module lower test_case
  = first_match_spec lower (get_or_empty test_case (py"description"))
      (get_or_empty test_case (py"steps"))
  /\ map fst keyword_groups
     = [py"contract"; py"lead"; py"product"; py"deeplink"; py"report";
        py"settings"; py"profile"]
  /\ (forall pre g post,
        keyword_groups = pre ++ g :: post ->
        (forall h, In h pre -> group_matches description steps h = false) ->
        group_matches description steps g = true ->
        _detect_module lower test_case = fst g)
  /\ ((forall g, In g keyword_groups -> group_matches description steps g = false) ->
      _detect_module lower test_case = py"contract").
Proof.
  intros description steps.
  assert (Hrefine : _detect_module lower test_case
                    = first_match_spec lower (get_or_empty test_case (py"description"))
                        (get_or_empty test_case (py"steps"))).
  { unfold _detect_module, first_match_spec, keyword_groups.
    cbn [List.find]. unfold group_matches, any_word. cbn [fst snd].
    repeat match goal with
           | |- context [if ?b then _ else _] => destruct b
           end; reflexivity. }
  split; [exact Hrefine|]. split; [reflexivity|]. split.
  - intros pre g post Hsplit Hpre Hg. rewrite Hrefine. unfold first_match_spec.
    rewrite Hsplit. fold description steps.
    rewrite (find_first _ pre g post Hpre Hg). reflexivity.
  - intros Hnone. rewrite Hrefine. unfold first_match_spec.
    fold description steps. rewrite (find_nothing _ _ Hnone). reflexivity.
Qed.

(** A test case mentioning both a link and a report: the deeplink group
    comes first. *)
Lemma detect_module_first_match_witness :
  let description := lower_ascii (get_or_empty link_and_report (py"description")) in
  let steps := lower_ascii (get_or_empty link_and_report (py"steps")) in
  keyword_groups
  = firstn 3 keyword_groups ++ nth 3 keyword_groups ([], []) :: skipn 4 keyword_groups /\
  (forall h, In h (firstn 3 keyword_groups) ->
             group_matches description steps h = false) /\
  group_matches description steps (nth 3 keyword_groups ([], [])) = true /\
  _detect_module lower_ascii link_and_report = py"deeplink".
Proof.
  intros description steps.
  assert (H1 : keyword_groups
               = firstn 3 keyword_groups ++ nth 3 keyword_groups ([], [])
                 :: skipn 4 keyword_groups) by reflexivity.
  assert (H2 : forall h, In h (firstn 3 keyword_groups) ->
                         group_matches description steps h = false).
  { intros h [<-|[<-|[<-|[]]]]; vm_compute; reflexivity. }
  assert (H3 : group_matches description steps (nth 3 keyword_groups ([], [])) = true)
    by (vm_compute; reflexivity).
  split; [exact H1|]. split; [exact H2|]. split; [exact H3|].
  exact (proj1 (proj2 (proj2 (detect_module_first_match lower_ascii link_and_report)))
           _ _ _ H1 H2 H3).
Defined.

(** Keywords in upper case, Vietnamese keywords, a missing key, and no
    keyword at all. *)
Example detect_module_runs :
  _detect_module lower_ascii [(py"description", py"Kiểm tra báo cáo tháng")]
  = py"report" /\
  _detect_module lower_ascii
    [(py"description", py"Open LEAD list"); (py"steps", py"view the contract")]
  = py"contract" /\
  _detect_module lower_ascii [(py"test_id", py"TC009")] = py"contract" /\
  _detect_module lower_ascii (of_test_case
    (SheetReader.expected_test_case [py"TC001"; py"Update KPI"; py"Open Settings"] 4))
  = py"settings".
Proof. repeat split; vm_compute; reflexivity. Qed.

End ClassifierClaims.

(** ** The execution engine *)

Section RunnerClaims.
Import Py PlaywrightRunner.

Variable lower : str -> str.
Variable w : World.

Lemma terminal_set_error_message (v : option str) (r : Result) :
  terminal r -> terminal (set_error_message v r).
Proof. exact (fun H => H). Qed.

Lemma terminal_set_screenshot_path (v : option str) (r : Result) :
  terminal r -> terminal (set_screenshot_path v r).
Proof. exact (fun H => H). Qed.

Lemma terminal_set_execution_time (v : number) (r : Result) :
  terminal r -> terminal (set_execution_time v r).
Proof. exact (fun H => H). Qed.

Lemma terminal_pass (r : Result) : terminal (set_status (py"PASS") r).
Proof. left. reflexivity. Qed.

Lemma terminal_fail (r : Result) : terminal (set_status (py"FAIL") r).
Proof. right. reflexivity. Qed.

Create HintDb runner.

Hint Resolve terminal_set_error_message terminal_set_screenshot_path
  terminal_set_execution_time terminal_pass terminal_fail : runner.

(** When the execution step ends without an exception it has set the
    status. *)
Lemma execute_step_terminal (test_id code_file : str) (result r : Result) :
  execute_step lower w test_id code_file result = (r, None) -> terminal r.
Proof.
  unfold execute_step.
  destruct (execute_test_code lower w test_id code_file) as [[[success error] shot]|e];
    [|discriminate].
  destruct success; intros H; injection H as <-; auto with runner.
Qed.

(** The same for the whole [try] block. *)
Lemma try_block_terminal (browser : bool) (test_id code_file : str)
  (result r : Result) :
  try_block lower w browser test_id code_file result = (r, None) -> terminal r.
Proof.
  unfold try_block.
  destruct browser; cbn [negb]; [apply execute_step_terminal|].
  destruct (start_browser w) as [[success error]|e]; [|discriminate].
  destruct success; cbn [negb].
  - destruct (login w) as [[success' error']|e]; [|discriminate].
    destruct success'; cbn [negb]; [apply execute_step_terminal|].
    destruct (_capture_screenshot w test_id (py"login_failed")); [|discriminate].
    intros H; injection H as <-; auto with runner.
  - intros H; injection H as <-; auto with runner.
Qed.

(** C7.  Every record [run_single_test] returns has status [PASS] or
    [FAIL], never the initial [PENDING], whether the browser was
    already started or not and whatever the browser start, the login,
    the loading and the run of the test come to. *)
Theorem run_single_test_status_terminal
  (browser : bool) (test_id code_file : str) (r : Result)
  (Hret : run_single_test lower w browser test_id code_file = Some r) :
  (status r = py"PASS" \/ status r = py"FAIL") /\ status r <> py"PENDING".
Proof.
  assert (Hterm : terminal r).
  { unfold run_single_test in Hret.
    destruct (try_block lower w browser test_id code_file _) as [r' [[msg|]|]] eqn:Htry.
    - injection Hret as <-. auto with runner.
    - discriminate.
    - injection Hret as <-. apply try_block_terminal in Htry. auto with runner. }
  split; [exact Hterm|].
  destruct Hterm as [H|H]; rewrite H; discriminate.
Qed.

(** The method returns a record unless an exception that
    [except Exception] does not catch went through it. *)
Lemma run_single_test_returns (browser : bool) (test_id code_file : str) :
  run_single_test lower w browser test_id code_file = None ->
  exists r, try_block lower w browser test_id code_file
              {| test_id := test_id; status := py"PENDING"; error_message := None;
                 screenshot_path := None; execution_time := Int 0 |}
            = (r, Some BaseException_).
Proof.
  unfold run_single_test.
  destruct (try_block lower w browser test_id code_file _) as [r' [[msg|]|]];
    try discriminate.
  intros _. exists r'. reflexivity.
Qed.

End RunnerClaims.

Lemma run_single_test_status_terminal_witness :
  let r := {| PlaywrightRunner.test_id := py"TC001";
              PlaywrightRunner.status := py"FAIL";
              PlaywrightRunner.error_message :=
                Some (py"Test execution timeout (120s)");
              PlaywrightRunner.screenshot_path := None;
              PlaywrightRunner.execution_time := Float PyFloat.f100_0 |} in
  PlaywrightRunner.run_single_test Py.lower_ascii timeout_world false
    (py"TC001") (py"tests/generated/test_tc001.py") = Some r /\
  (PlaywrightRunner.status r = py"PASS" \/ PlaywrightRunner.status r = py"FAIL") /\
  PlaywrightRunner.status r <> py"PENDING".
Proof.
  intros r.
  assert (H : PlaywrightRunner.run_single_test Py.lower_ascii timeout_world false
                (py"TC001") (py"tests/generated/test_tc001.py") = Some r)
    by (vm_compute; reflexivity).
  split; [exact H|].
  exact (@run_single_test_status_terminal Py.lower_ascii timeout_world false
           (py"TC001") (py"tests/generated/test_tc001.py") r H).
Defined.

(** ** The result reporter *)

Section ReporterFacts.
Import Py ResultReporter.






Lemma nth_set_nth_eq (A : Type) (pad v : A) (l : list A) :
  forall i, nth i (set_nth pad i v l) pad = v.
Proof.
  intros i. revert l.
  induction i as [|i IH]; intros [|x l]; cbn [set_nth nth]; auto.
Qed.

Lemma nth_set_nth_neq (A : Type) (pad v : A) (l : list A) :
  forall i j, i <> j -> nth j (set_nth pad i v l) pad = nth j l pad.
Proof.
  intros i. revert l.
  induction i as [|i IH]; intros [|x l] [|j] Hij; cbn [set_nth nth];
    try congruence; try reflexivity.
  - destruct j; reflexivity.
  - rewrite IH by congruence. destruct j; reflexivity.
  - apply IH. congruence.
Qed.


Lemma in_grid_put (w : Worksheet) (r c : nat) (v : str) (r' c' : nat) :
  in_grid (put w r c v) r' c' = in_grid w r' c'.
Proof. reflexivity. Qed.




Lemma same_grid_refl (w : Worksheet) : same_grid w w.
Proof. repeat split. Qed.

Lemma same_grid_sym (a b : Worksheet) : same_grid a b -> same_grid b a.
Proof. intros (H1 & H2 & H3). repeat split; auto. Qed.

Lemma same_grid_trans (a b c : Worksheet) :
  same_grid a b -> same_grid b c -> same_grid a c.
Proof.
  intros (H1 & H2 & H3) (K1 & K2 & K3). repeat split; congruence.
Qed.

Lemma same_grid_put (a b : Worksheet) (row col : nat) (v : str) :
  same_grid a b -> same_grid (put a row col v) (put b row col v).
Proof.
  intros (H1 & H2 & H3). unfold same_grid, put. cbn [cells row_count col_count].
  rewrite H1, H2, H3. repeat split.
Qed.

Lemma in_grid_same (a b : Worksheet) (row col : nat) :
  same_grid a b -> in_grid a row col = in_grid b row col.
Proof. intros (_ & H2 & H3). unfold in_grid. rewrite H2, H3. reflexivity. Qed.


(** A call leaves the grid as it is and takes the first of the calls
    to come. *)
Lemma next_call_grid (w : Worksheet) :
  same_grid (snd (next_call w)) w /\
  pending (snd (next_call w)) = tl (pending w) /\
  (pending w = [] -> next_call w = (None, w)).
Proof.
  unfold next_call.
  destruct (pending w) as [|answer rest] eqn:E; cbn [fst snd pending tl];
    repeat split; try reflexivity; try discriminate; exact E.
Qed.

(** The two ways of [update_cell]: the value is stored in a cell of the
    grid, or the call raises and the grid is as it was. *)
Lemma update_cell_outcome (w : Worksheet) (row col : nat) (v : str) :
  (exists w',
     update_cell w row col v = (Ret tt, w') /\
     same_grid w' (put w row col v) /\ in_grid w row col = true) \/
  (exists e w',
     update_cell w row col v = (Raise e, w') /\ same_grid w' w).
Proof.
  unfold update_cell.
  destruct (next_call_grid w) as (G & _ & _).
  destruct (next_call w) as [[e|] w1]; cbn [snd] in G.
  - right. eauto.
  - rewrite (in_grid_same row col G).
    destruct (in_grid w row col).
    + left. eexists. split; [reflexivity|]. split; [|reflexivity].
      apply same_grid_put. exact G.
    + right. eauto.
Qed.





End ReporterFacts.

Section ReporterClaims.
Import Py ResultReporter.



(** C9, as written, fails.  The service fails the second write of a
    first run on a fresh sheet: that run returns [False] with the
    [Error Message] header alone; the second run, which the service
    answers, adds the [Screenshot] header, and the header row is not
    the one the first run left. *)
Lemma idempotence_as_written_fails : ~ idempotence_as_written.
Proof.
  intros H.
  pose proof (proj2 (H interrupted_sheet)) as H2.
  vm_compute in H2. discriminate H2.
Qed.

(** What the two runs leave on that sheet. *)
Example interrupted_then_repaired :
  let once := _ensure_result_columns interrupted_sheet in
  let twice := _ensure_result_columns (sheet_after once) in
  returned once = Some false /\
  writes once = [(3, 7, py"Error Message")] /\
  nth 7 (stored_row (sheet_after once) 3) [] = [] /\
  returned twice = Some true /\
  writes twice = [(3, 8, py"Screenshot")] /\
  nth 7 (stored_row (sheet_after twice) 3) [] = py"Screenshot".
Proof. cbv zeta. repeat split; vm_compute; reflexivity. Qed.

(** A worksheet that holds both headers, on a service that fails the
    read: nothing is written and the step returns [False]. *)
Example unanswered_read_returns_false :
  header_present (stored_row unread_sheet 3) 7 /\
  header_present (stored_row unread_sheet 3) 8 /\
  _ensure_result_columns unread_sheet
  = (Some false, sheet_after (_ensure_result_columns fresh_sheet), []).
Proof.
  split; [split; [vm_compute; repeat constructor | vm_compute; discriminate]|].
  split; [split; [vm_compute; repeat constructor | vm_compute; discriminate]|].
  vm_compute. reflexivity.
Qed.

End ReporterClaims.

(** ** URL templates *)

Section ReplaceFacts.
Import Py URLManager.

Lemma char_eqb_eq (a b : char) : char_eqb a b = true <-> a = b.
Proof. apply N.eqb_eq. Qed.

Lemma eqb_eq (a b : str) : eqb a b = true <-> a = b.
Proof.
  revert b. induction a as [|x a IH]; intros [|y b]; cbn [eqb];
    try (split; [discriminate | discriminate]); [tauto|].
  rewrite andb_true_iff, char_eqb_eq, IH. split.
  - intros [-> ->]. reflexivity.
  - intros H. injection H as -> ->. auto.
Qed.

Lemma eqb_neq (a b : str) : eqb a b = false -> a <> b.
Proof. intros H E. apply eqb_eq in E. congruence. Qed.

Lemma placeholder_cons (key : str) : placeholder key = 123%N :: key ++ [125%N].
Proof. reflexivity. Qed.

Lemma brace_free_app (a b : str) :
  brace_free (a ++ b) = brace_free a && brace_free b.
Proof. apply forallb_app. Qed.

Lemma brace_free_cons (c : char) (s : str) :
  brace_free (c :: s) = true ->
  (c =? 123)%N = false /\ (c =? 125)%N = false /\ brace_free s = true.
Proof.
  unfold brace_free. cbn [forallb]. intros H.
  apply andb_true_iff in H as [Hc Hs].
  apply negb_true_iff in Hc. unfold is_brace in Hc.
  apply orb_false_iff in Hc as [H1 H2]. auto.
Qed.

(** A placeholder never starts where another name is written. *)
Lemma startswith_other_name (n k rest : str) :
  brace_free n = true -> brace_free k = true -> n <> k ->
  startswith (n ++ 125%N :: rest) (k ++ [125%N]) = false.
Proof.
  revert k. induction n as [|c n IH]; intros [|d k] Hn Hk Hne;
    cbn [app startswith]; unfold char_eqb.
  - congruence.
  - apply brace_free_cons in Hk as (_ & Hd & _). rewrite Hd. reflexivity.
  - apply brace_free_cons in Hn as (_ & Hc & _).
    rewrite N.eqb_sym, Hc. reflexivity.
  - apply brace_free_cons in Hn as (_ & _ & Hn).
    apply brace_free_cons in Hk as (_ & _ & Hk).
    destruct (N.eqb_spec d c) as [->|]; [|reflexivity].
    cbn [andb]. apply IH; auto. congruence.
Qed.

(** Text without an opening brace is copied. *)
Lemma replace_from_copy (key new s rest : str) :
  forallb (fun c => negb (c =? 123)%N) s = true ->
  replace_from (placeholder key) new 0 (s ++ rest)
  = s ++ replace_from (placeholder key) new 0 rest.
Proof.
  induction s as [|c s IH]; intros Hs; [reflexivity|].
  cbn in Hs. apply andb_true_iff in Hs as [Hc Hs].
  rewrite placeholder_cons in *.
  cbn [app replace_from startswith]. unfold char_eqb at 1.
  rewrite N.eqb_sym. apply negb_true_iff in Hc. rewrite Hc. cbn [andb].
  f_equal. apply IH. exact Hs.
Qed.

Lemma brace_free_no_open (s : str) :
  brace_free s = true -> forallb (fun c => negb (c =? 123)%N) s = true.
Proof.
  unfold brace_free. intros H. rewrite forallb_forall in *.
  intros c Hc. specialize (H c Hc). unfold is_brace in H.
  apply negb_true_iff in H. apply orb_false_iff in H as [H _].
  rewrite H. reflexivity.
Qed.

(** The characters of an occurrence are passed over. *)
Lemma replace_from_skip (old new x rest : str) :
  replace_from old new (List.length x) (x ++ rest) = replace_from old new 0 rest.
Proof.
  induction x as [|c x IH]; [destruct rest; reflexivity|].
  cbn [List.length app replace_from]. exact IH.
Qed.

Lemma startswith_refl_app (p rest : str) : startswith (p ++ rest) p = true.
Proof.
  induction p as [|c p IH]; [destruct rest; reflexivity|].
  cbn. unfold char_eqb. rewrite N.eqb_refl. exact IH.
Qed.

(** At a placeholder of the name sought, the value is written. *)
Lemma replace_from_hit (key new rest : str) :
  replace_from (placeholder key) new 0 (placeholder key ++ rest)
  = new ++ replace_from (placeholder key) new 0 rest.
Proof.
  assert (Hsw : startswith (placeholder key ++ rest) (placeholder key) = true)
    by apply startswith_refl_app.
  assert (Hlen : List.length (placeholder key) - 1 = List.length (key ++ [125%N]))
    by (rewrite placeholder_cons; cbn [List.length]; lia).
  remember (placeholder key) as old eqn:Hold.
  rewrite placeholder_cons in Hold.
  assert (Hshape : old ++ rest = 123%N :: (key ++ [125%N]) ++ rest)
    by (rewrite Hold; reflexivity).
  rewrite Hshape in *. cbn [replace_from]. rewrite Hsw, Hlen.
  rewrite replace_from_skip. reflexivity.
Qed.

(** At a placeholder of another name, the text is copied. *)
Lemma replace_from_miss (key name new rest : str) :
  brace_free key = true -> brace_free name = true -> name <> key ->
  replace_from (placeholder key) new 0 (placeholder name ++ rest)
  = placeholder name ++ replace_from (placeholder key) new 0 rest.
Proof.
  intros Hk Hn Hne.
  assert (Hsw : startswith (placeholder name ++ rest) (placeholder key) = false).
  { rewrite !placeholder_cons. cbn [app startswith].
    unfold char_eqb at 1. rewrite N.eqb_refl. cbn [andb].
    rewrite <- app_assoc. cbn [app]. apply startswith_other_name; auto. }
  assert (Hcopy : replace_from (placeholder key) new 0 ((name ++ [125%N]) ++ rest)
                  = (name ++ [125%N]) ++ replace_from (placeholder key) new 0 rest).
  { apply replace_from_copy. rewrite forallb_app. apply andb_true_iff.
    split; [apply brace_free_no_open; exact Hn | reflexivity]. }
  remember (placeholder key) as old eqn:Hold.
  rewrite (placeholder_cons name) in *.
  change ((123%N :: name ++ [125%N]) ++ rest)
    with (123%N :: (name ++ [125%N]) ++ rest) in *.
  cbn [replace_from]. rewrite Hsw, Hcopy. reflexivity.
Qed.

Lemma render_cons (g : segment) (template : list segment) :
  render (g :: template) = render_segment g ++ render template.
Proof. reflexivity. Qed.

(** One [replace] over a rendered template fills the placeholders of
    that name and nothing else. *)
Lemma replace_render (key new : str) (template : list segment) :
  brace_free key = true ->
  well_formed template = true ->
  replace (placeholder key) new (render template)
  = render (fill_one key new template).
Proof.
  intros Hk Hwf.
  replace (replace (placeholder key) new (render template))
    with (replace_from (placeholder key) new 0 (render template))
    by (rewrite placeholder_cons; reflexivity).
  induction template as [|g template IH]; [reflexivity|].
  unfold well_formed in Hwf. cbn [forallb] in Hwf.
  apply andb_true_iff in Hwf as [Hg Hwf].
  specialize (IH Hwf).
  cbn [fill_one map]. rewrite !render_cons.
  destruct g as [s|name]; cbn [render_segment segment_brace_free] in *.
  - rewrite replace_from_copy by (apply brace_free_no_open; exact Hg).
    rewrite IH. reflexivity.
  - destruct (eqb key name) eqn:E.
    + apply eqb_eq in E. subst name. cbn [render_segment].
      rewrite replace_from_hit, IH. reflexivity.
    + apply eqb_neq in E. cbn [render_segment].
      rewrite replace_from_miss by (auto; congruence).
      rewrite IH. reflexivity.
Qed.

End ReplaceFacts.

Section URLClaims.
Import Py URLManager.

Variable V : Type.
Variable str_of : V -> str.
Variable repr_map : list (str * yaml) -> str.

Lemma fill_nil (template : list segment) :
  fill str_of [] template = render template.
Proof.
  unfold fill, render. apply flat_map_ext. intros [s|name]; reflexivity.
Qed.

Lemma fill_fill_one (key : str) (value : V) (rest : list (str * V))
  (template : list segment) :
  fill str_of rest (fill_one key (str_of value) template)
  = fill str_of ((key, value) :: rest) template.
Proof.
  unfold fill, fill_one.
  induction template as [|g template IH]; [reflexivity|].
  cbn [map flat_map]. rewrite IH. f_equal.
  destruct g as [s|name]; [reflexivity|].
  cbn [lookup]. destruct (eqb key name); reflexivity.
Qed.

Lemma well_formed_fill_one (key text : str) (template : list segment) :
  brace_free text = true -> well_formed template = true ->
  well_formed (fill_one key text template) = true.
Proof.
  intros Ht. unfold well_formed, fill_one.
  induction template as [|g template IH]; [reflexivity|].
  cbn [map forallb]. intros H. apply andb_true_iff in H as [Hg H].
  rewrite (IH H), andb_true_r.
  destruct g as [s|name]; [exact Hg|].
  destruct (eqb key name); [exact Ht | exact Hg].
Qed.

(** The loop over the supplied pairs comes to one pass over the
    template, when neither names nor values hold a brace. *)
Lemma substitute_render (kwargs : list (str * V)) :
  forall template,
    well_formed template = true ->
    forallb (fun kv => brace_free (fst kv) && brace_free (str_of (snd kv))) kwargs
    = true ->
    substitute str_of (render template) kwargs = fill str_of kwargs template.
Proof.
  induction kwargs as [|[key value] rest IH]; intros template Hwf Hkw.
  - cbn [substitute]. symmetry. apply fill_nil.
  - cbn [forallb fst snd] in Hkw.
    apply andb_true_iff in Hkw as [Hkv Hrest].
    apply andb_true_iff in Hkv as [Hk Hv].
    cbn [substitute]. rewrite replace_render by assumption.
    rewrite IH by (auto using well_formed_fill_one).
    apply fill_fill_one.
Qed.

Lemma get_resolved (self : t) (module action path : str) (kwargs : list (str * V)) :
  resolves self module action path ->
  get str_of repr_map self module action kwargs
  = Some (base_url self ++ substitute str_of path kwargs).
Proof.
  intros (entries & actions & Hu & Hm & Ha & Hp).
  unfold get. rewrite Hu, Hm.
  assert (Ht : yaml_truthy (YMap actions) = true).
  { destruct actions; [discriminate Ha | reflexivity]. }
  rewrite Ht. cbn [negb]. rewrite Ha.
  assert (Ht' : yaml_truthy (YStr path) = true).
  { destruct path; [congruence | reflexivity]. }
  rewrite Ht'. reflexivity.
Qed.

(** C8, as amended.  When the module and action resolve to a path made
    of literal text and [{name}] placeholders, and no supplied name or
    value holds a brace, [get] returns the base URL followed by the
    path in which every placeholder whose name is among the supplied
    pairs is replaced by the corresponding value and every other
    placeholder is left as written; no error is raised. *)
Theorem get_fills_placeholders
  (self : t) (module action : str) (template : list segment)
  (kwargs : list (str * V))
  (Hres : resolves self module action (render template))
  (Hwf : well_formed template = true)
  (Hkw : forallb (fun kv => brace_free (fst kv) && brace_free (str_of (snd kv)))
           kwargs = true) :
  get str_of repr_map self module action kwargs
  = Some (base_url self ++ fill str_of kwargs template).
Proof.
  rewrite (get_resolved kwargs Hres).
  rewrite substitute_render by assumption. reflexivity.
Qed.

End URLClaims.

Section URLExamples.
Import Py URLManager.

Lemma contract_view_resolves :
  resolves contract_urls (py"contract") (py"view") (render view_template).
Proof.
  eexists _, _. split; [reflexivity|]. split; [vm_compute; reflexivity|].
  split; [vm_compute; reflexivity | vm_compute; discriminate].
Qed.

Lemma contract_edit_resolves :
  resolves contract_urls (py"contract") (py"edit") (render edit_template).
Proof.
  eexists _, _. split; [reflexivity|]. split; [vm_compute; reflexivity|].
  split; [vm_compute; reflexivity | vm_compute; discriminate].
Qed.

(** With [id] supplied and [tab] not, [{id}] is replaced and [{tab}]
    stays. *)
Lemma get_fills_placeholders_witness :
  resolves contract_urls (py"contract") (py"view") (render view_template) /\
  well_formed view_template = true /\
  get (fun v : str => v) (fun _ => py"{...}") contract_urls (py"contract") (py"view")
    [(py"id", py"123")]
  = Some (py"https://agency-uat.affina.com.vn/account/contract/123/tab/{tab}").
Proof.
  split; [exact contract_view_resolves|]. split; [reflexivity|].
  exact (@get_fills_placeholders str (fun v => v) (fun _ => py"{...}") contract_urls
           (py"contract") (py"view") view_template [(py"id", py"123")]
           contract_view_resolves eq_refl eq_refl).
Defined.

(** C8, as written, fails: a value that holds the placeholder of a pair
    supplied after it is rewritten by that later pair, so [{id}] does
    not end as its value. *)
Lemma substitution_as_written_fails : ~ substitution_as_written.
Proof.
  intros H.
  specialize (H contract_urls (py"contract") (py"edit") edit_template
                [(py"x", py"1"); (py"id", py"{x}-{z}"); (py"z", py"2")]
                contract_edit_resolves eq_refl eq_refl (fun _ => py"{...}")).
  vm_compute in H. discriminate H.
Qed.

(** On that input the value [{x}-{z}] of [id] ends as [{x}-2]: its
    [{z}] is rewritten by the pair supplied after it, its [{x}] is not
    by the pair supplied before it. *)
Example get_rewrites_later_names_only :
  get (fun v : str => v) (fun _ => py"{...}") contract_urls (py"contract") (py"edit")
    [(py"x", py"1"); (py"id", py"{x}-{z}"); (py"z", py"2")]
  = Some (py"https://agency-uat.affina.com.vn/account/contract/edit/{x}-2").
Proof. vm_compute. reflexivity. Qed.

End URLExamples.

(** ** The batch generation engine *)

Section GenerationFacts.
Import Py ChatGPTService.

Variable capitalize : str -> str.
Variable repr : json -> str.
Variable json_loads : str -> loads_result.
Variable error_text : json -> str.
Variable service : list prompt -> prompt -> outcome (option str).

#[local] Abbreviation parse :=
  (_parse_test_cases capitalize repr json_loads error_text).
#[local] Abbreviation generate :=
  (generate_test_cases capitalize repr json_loads error_text service).

(** A parse either succeeds with at least one record and no message, or
    fails with no record and a message. *)
Lemma parse_shape (response_text : option str) :
  (exists r rs, parse response_text = (true, r :: rs, None)) \/
  (exists msg, parse response_text = (false, [], Some msg)).
Proof.
  unfold _parse_test_cases.
  destruct response_text as [text|]; [|right; eauto].
  destruct (find _ _); [|right; eauto].
  destruct (rfind_char _ _); [|right; eauto].
  destruct (json_loads _) as [v|msg|msg]; [|right; eauto|right; eauto].
  destruct v; try solve [right; eauto].
  destruct (validate _ _ _ _) as [[|r rs]|msg]; [right|left|right]; eauto.
Qed.

Lemma parse_success (response_text : option str) (l : list record)
  (e : option str) :
  parse response_text = (true, l, e) -> l <> [] /\ e = None.
Proof.
  destruct (parse_shape response_text) as [(r & rs & H)|(msg & H)];
    rewrite H; intros E.
  - injection E as <- <-. split; [discriminate | reflexivity].
  - discriminate E.
Qed.

Lemma parse_failure (response_text : option str) :
  fst (fst (parse response_text)) = false ->
  exists msg, parse response_text = (false, [], Some msg).
Proof.
  destruct (parse_shape response_text) as [(r & rs & H)|(msg & H)];
    rewrite H; cbn [fst]; [discriminate | eauto].
Qed.

Lemma call_returns (p : prompt) (sent : list prompt) (response_text : option str) :
  service sent p = Ret response_text ->
  _call_chatgpt service p sent = (Some (true, response_text, None), sent ++ [p]).
Proof. unfold _call_chatgpt. intros ->. reflexivity. Qed.

Lemma call_raises (p : prompt) (sent : list prompt) (msg : str) :
  service sent p = Raise (Exception msg) ->
  _call_chatgpt service p sent
  = (Some (false, Some [], Some (py"ChatGPT API error: " ++ msg)), sent ++ [p]).
Proof. unfold _call_chatgpt. intros ->. reflexivity. Qed.

End GenerationFacts.

Section GenerationClaims.
Import Py ChatGPTService.

Variable capitalize : str -> str.
Variable repr : json -> str.
Variable json_loads : str -> loads_result.
Variable error_text : json -> str.
Variable service : list prompt -> prompt -> outcome (option str).

#[local] Abbreviation parse :=
  (_parse_test_cases capitalize repr json_loads error_text).
#[local] Abbreviation generate :=
  (generate_test_cases capitalize repr json_loads error_text service).
#[local] Abbreviation fails :=
  (batch_fails capitalize repr json_loads error_text service).
#[local] Abbreviation gives :=
  (batch_gives capitalize repr json_loads error_text service).
#[local] Abbreviation call := (_call_chatgpt service).

(** What one batch comes to: the call and the parse together. *)
Lemma batch_failure (sent : list prompt) (p : prompt) :
  fails sent p ->
  exists text error,
    call p sent = (Some (false, text, Some error), sent ++ [p]) \/
    (call p sent = (Some (true, text, None), sent ++ [p]) /\
     parse text = (false, [], Some error)).
Proof.
  intros [(msg & H)|(response_text & H & Hp)].
  - eexists _, _. left. apply call_raises. exact H.
  - apply parse_failure in Hp as (msg & Hp).
    exists response_text, msg. right. split; [apply call_returns; exact H | exact Hp].
Qed.

Lemma batch_success (sent : list prompt) (p : prompt) (cases : list record) :
  gives sent p cases ->
  exists text,
    call p sent = (Some (true, text, None), sent ++ [p]) /\
    parse text = (true, cases, None) /\ cases <> [].
Proof.
  intros (response_text & e & H & Hp).
  destruct (parse_success _ _ _ _ _ Hp) as [Hne ->].
  exists response_text. split; [apply call_returns; exact H | auto].
Qed.

(** C1.  In 3-batch generation, when batch 1 comes through and batch 2
    fails (the call raises, or its response does not parse into at
    least one valid record), [generate_test_cases] returns success, the
    records of batch 1, which are not empty, and a breakdown where
    batch 1 has percentage 100.0 and batches 2 and 3 have count 0 and
    percentage 0.0; the two prompts of batches 1 and 2 are the only
    ones sent. *)
Theorem batch2_failure_returns_batch1
  (brd_content : str) (target_count : Z) (sent : list prompt)
  (happy_cases : list record)
  (Htarget : (70 <= target_count)%Z)
  (Hbatch1 : gives sent (Generate UIHappyPath brd_content 30) happy_cases)
  (Hbatch2 : fails (sent ++ [Generate UIHappyPath brd_content 30])
               (Generate UIValidation brd_content 30)) :
  exists error batch_breakdown,
    generate brd_content target_count true sent
    = (Some (true, happy_cases, Some error, Some batch_breakdown),
       sent ++ [Generate UIHappyPath brd_content 30;
                Generate UIValidation brd_content 30]) /\
    happy_cases <> [] /\
    count (batch1_happy_path batch_breakdown) = len happy_cases /\
    percentage (batch1_happy_path batch_breakdown) = Float PyFloat.f100_0 /\
    count (batch2_validation batch_breakdown) = 0%Z /\
    percentage (batch2_validation batch_breakdown) = Float PyFloat.f0_0 /\
    count (batch3_edge_cases batch_breakdown) = 0%Z /\
    percentage (batch3_edge_cases batch_breakdown) = Float PyFloat.f0_0.
Proof.
  apply batch_success in Hbatch1 as (text1 & Hcall1 & Hparse1 & Hne).
  apply batch_failure in Hbatch2 as (text2 & error2 & Hbatch2).
  unfold generate_test_cases.
  apply Z.leb_le in Htarget. rewrite Htarget. cbn [andb].
  unfold _create_prompt_ui_happy_path, _create_prompt_ui_validation.
  unfold bind at 1. rewrite Hcall1. cbn [negb]. rewrite Hparse1. cbn [negb].
  unfold bind at 1.
  destruct Hbatch2 as [Hcall2|[Hcall2 Hparse2]]; rewrite Hcall2; cbn [negb].
  - unfold ret. rewrite <- app_assoc. cbn [app].
    eexists _, _. split; [reflexivity|]. repeat split; auto.
  - rewrite Hparse2. cbn [negb]. unfold ret. rewrite <- app_assoc. cbn [app].
    eexists _, _. split; [reflexivity|]. repeat split; auto.
Qed.

(** C2.  In 3-batch generation, when batch 1 fails (the call raises, or
    its response does not parse into at least one valid record),
    [generate_test_cases] returns failure: success flag false, no
    record, an error message, no breakdown, and nothing more is sent.
    When batch 1 comes through, whatever batches 2 and 3 do, a tuple
    that is returned has the success flag true and a breakdown. *)
Theorem batch1_failure_is_the_fatal_one
  (brd_content : str) (target_count : Z) (sent : list prompt)
  (Htarget : (70 <= target_count)%Z) :
  (fails sent (Generate UIHappyPath brd_content 30) ->
   exists error,
     generate brd_content target_count true sent
     = (Some (false, [], Some error, None),
        sent ++ [Generate UIHappyPath brd_content 30])) /\
  (forall happy_cases,
     gives sent (Generate UIHappyPath brd_content 30) happy_cases ->
     forall success test_cases error batch_breakdown sent',
       generate brd_content target_count true sent
       = (Some (success, test_cases, error, batch_breakdown), sent') ->
       success = true /\ batch_breakdown <> None).
Proof.
  apply Z.leb_le in Htarget.
  split.
  - intros Hbatch1.
    apply batch_failure in Hbatch1 as (text1 & error1 & Hbatch1).
    unfold generate_test_cases. rewrite Htarget. cbn [andb].
    unfold _create_prompt_ui_happy_path. unfold bind at 1.
    destruct Hbatch1 as [Hcall1|[Hcall1 Hparse1]]; rewrite Hcall1; cbn [negb].
    + unfold ret. eauto.
    + rewrite Hparse1. cbn [negb]. unfold ret. eauto.
  - intros happy_cases Hbatch1.
    apply batch_success in Hbatch1 as (text1 & Hcall1 & Hparse1 & Hne).
    intros success test_cases error batch_breakdown sent'.
    unfold generate_test_cases. rewrite Htarget. cbn [andb].
    unfold _create_prompt_ui_happy_path, _create_prompt_ui_validation,
      _create_prompt_ui_edge_cases.
    unfold bind at 1. rewrite Hcall1. cbn [negb]. rewrite Hparse1. cbn [negb].
    unfold bind at 1.
    destruct (call (Generate UIValidation brd_content 30) _)
      as [[[[success2 response2] error2]|] sent2]; [|discriminate].
    destruct success2; cbn [negb].
    2:{ unfold ret. intros E. injection E as <- _ _ <- _.
        split; [reflexivity | discriminate]. }
    destruct (parse response2) as [[success_parse2 validation_cases] parse_error2].
    destruct success_parse2; cbn [negb].
    2:{ unfold ret. intros E. injection E as <- _ _ <- _.
        split; [reflexivity | discriminate]. }
    unfold bind at 1.
    destruct (call (Generate UIEdgeCases brd_content (target_count - 60)) _)
      as [[[[success3 response3] error3]|] sent3]; [|discriminate].
    destruct success3; cbn [negb].
    2:{ unfold bind, lift, ret. destruct (breakdown_batch12 _ _); [|discriminate].
        intros E. injection E as <- _ _ <- _. split; [reflexivity | discriminate]. }
    destruct (parse response3) as [[success_parse3 edge_cases] parse_error3].
    destruct success_parse3; cbn [negb].
    + unfold bind, lift, ret. destruct (breakdown_all _ _ _); [|discriminate].
      intros E. injection E as <- _ _ <- _. split; [reflexivity | discriminate].
    + unfold bind, lift, ret. destruct (breakdown_batch12 _ _); [|discriminate].
      intros E. injection E as <- _ _ <- _. split; [reflexivity | discriminate].
Qed.

(** C3.  [generate_test_cases] follows the 3-batch protocol exactly
    when [batch_mode] is set and [target_count >= 70].  Then the
    prompts it sends are the first one, two or three of: happy path
    for 30, validation for 30, edge cases for [target_count - 60], sizes
    that add up to [target_count]; all three are sent when the first
    two batches come through.  In every other case it sends one prompt,
    the happy-path template for [target_count]. *)
Theorem generation_protocol_choice
  (brd_content : str) (target_count : Z) (batch_mode : bool)
  (sent : list prompt) :
  let sent' := snd (generate brd_content target_count batch_mode sent) in
  if batch_mode && (70 <=? target_count)%Z then
    (exists n, 1 <= n <= 3 /\
               sent' = sent ++ firstn n (three_batches brd_content target_count)) /\
    map requested (three_batches brd_content target_count)
    = [30; 30; target_count - 60]%Z /\
    (30 + 30 + (target_count - 60) = target_count)%Z /\
    (forall happy_cases validation_cases,
       gives sent (Generate UIHappyPath brd_content 30) happy_cases ->
       gives (sent ++ [Generate UIHappyPath brd_content 30])
         (Generate UIValidation brd_content 30) validation_cases ->
       sent' = sent ++ three_batches brd_content target_count)
  else
    sent' = sent ++ [Generate UIHappyPath brd_content target_count].
Proof.
  cbv zeta. unfold generate_test_cases.
  destruct (batch_mode && (70 <=? target_count)%Z).
  - unfold _create_prompt_ui_happy_path, _create_prompt_ui_validation,
      _create_prompt_ui_edge_cases.
    assert (Hcall : forall p s, snd (call p s) = s ++ [p]).
    { intros p s. unfold _call_chatgpt.
      destruct (service s p) as [?|[?|]]; reflexivity. }
    assert (Hlift : forall (A B : Type) (o : option A) (k : A -> M B) s,
               (forall a, snd (k a s) = s) -> snd (bind (lift o) k s) = s).
    { intros A B o k s Hk. unfold bind, lift. destruct o; [apply Hk | reflexivity]. }
    split; [|split; [reflexivity|split; [lia|]]].
    + unfold bind at 1.
      pose proof (Hcall (Generate UIHappyPath brd_content 30) sent) as H1.
      destruct (call (Generate UIHappyPath brd_content 30) sent)
        as [[[[success1 response1] error1]|] sent1]; cbn [snd] in H1; subst sent1.
      2:{ exists 1. split; [lia | reflexivity]. }
      destruct success1; cbn [negb]; [|exists 1; split; [lia | reflexivity]].
      destruct (parse response1) as [[success_parse1 happy_cases] parse_error1].
      destruct success_parse1; cbn [negb]; [|exists 1; split; [lia | reflexivity]].
      unfold bind at 1.
      pose proof (Hcall (Generate UIValidation brd_content 30)
                    (sent ++ [Generate UIHappyPath brd_content 30])) as H2.
      destruct (call (Generate UIValidation brd_content 30) _)
        as [[[[success2 response2] error2]|] sent2]; cbn [snd] in H2; subst sent2.
      2:{ exists 2. split; [lia | rewrite <- app_assoc; reflexivity]. }
      destruct success2; cbn [negb];
        [|exists 2; split; [lia | rewrite <- app_assoc; reflexivity]].
      destruct (parse response2) as [[success_parse2 validation_cases] parse_error2].
      destruct success_parse2; cbn [negb];
        [|exists 2; split; [lia | rewrite <- app_assoc; reflexivity]].
      unfold bind at 1.
      pose proof (Hcall (Generate UIEdgeCases brd_content (target_count - 60))
                    ((sent ++ [Generate UIHappyPath brd_content 30])
                     ++ [Generate UIValidation brd_content 30])) as H3.
      destruct (call (Generate UIEdgeCases brd_content (target_count - 60)) _)
        as [[[[success3 response3] error3]|] sent3]; cbn [snd] in H3; subst sent3.
      2:{ exists 3. split; [lia | rewrite <- !app_assoc; reflexivity]. }
      exists 3. split; [lia|].
      destruct success3; cbn [negb].
      * destruct (parse response3) as [[success_parse3 edge_cases] parse_error3].
        destruct success_parse3; cbn [negb];
          rewrite Hlift by reflexivity; rewrite <- !app_assoc; reflexivity.
      * rewrite Hlift by reflexivity. rewrite <- !app_assoc. reflexivity.
    + intros happy_cases validation_cases Hb1 Hb2.
      apply batch_success in Hb1 as (text1 & Hcall1 & Hparse1 & _).
      apply batch_success in Hb2 as (text2 & Hcall2 & Hparse2 & _).
      unfold bind at 1. rewrite Hcall1. cbn [negb]. rewrite Hparse1. cbn [negb].
      unfold bind at 1. rewrite Hcall2. cbn [negb]. rewrite Hparse2. cbn [negb].
      unfold bind at 1.
      pose proof (Hcall (Generate UIEdgeCases brd_content (target_count - 60))
                    ((sent ++ [Generate UIHappyPath brd_content 30])
                     ++ [Generate UIValidation brd_content 30])) as H3.
      destruct (call (Generate UIEdgeCases brd_content (target_count - 60)) _)
        as [[[[success3 response3] error3]|] sent3]; cbn [snd] in H3; subst sent3.
      2:{ rewrite <- !app_assoc; reflexivity. }
      destruct success3; cbn [negb].
      * destruct (parse response3) as [[success_parse3 edge_cases] parse_error3].
        destruct success_parse3; cbn [negb];
          rewrite Hlift by reflexivity; rewrite <- !app_assoc; reflexivity.
      * rewrite Hlift by reflexivity. rewrite <- !app_assoc. reflexivity.
  - unfold _create_prompt_ui_happy_path. unfold bind, _call_chatgpt.
    destruct (service sent _) as [response|[msg|]]; cbn [negb]; try reflexivity.
    destruct (parse response) as [[success_parse test_cases] parse_error].
    destruct success_parse; reflexivity.
Qed.

End GenerationClaims.

Section GenerationExamples.
Import Py ChatGPTService.

Example parse_one_record :
  _parse_test_cases capitalize_ascii repr_scalar loads_one_record error_text_plain
    (Some (py"```json" ++ [10%N] ++ one_record_text ++ [10%N] ++ py"```"))
  = (true, [one_record], None).
Proof. vm_compute. reflexivity. Qed.

(** Batch 1 answers with one record, batch 2 times out. *)
Lemma batch2_failure_returns_batch1_witness :
  let script := [Ret (Some one_record_text);
                 Raise (Exception (py"Request timed out."))] in
  let brd := py"The login page has a button." in
  batch_gives capitalize_ascii repr_scalar loads_one_record error_text_plain
    (scripted script) [] (Generate UIHappyPath brd 30) [one_record] /\
  batch_fails capitalize_ascii repr_scalar loads_one_record error_text_plain
    (scripted script) ([] ++ [Generate UIHappyPath brd 30])
    (Generate UIValidation brd 30) /\
  exists error batch_breakdown,
    run_generate script brd 90 true
    = (Some (true, [one_record], Some error, Some batch_breakdown),
       [] ++ [Generate UIHappyPath brd 30; Generate UIValidation brd 30]) /\
    [one_record] <> [] /\
    count (batch1_happy_path batch_breakdown) = len [one_record] /\
    percentage (batch1_happy_path batch_breakdown) = Float PyFloat.f100_0 /\
    count (batch2_validation batch_breakdown) = 0%Z /\
    percentage (batch2_validation batch_breakdown) = Float PyFloat.f0_0 /\
    count (batch3_edge_cases batch_breakdown) = 0%Z /\
    percentage (batch3_edge_cases batch_breakdown) = Float PyFloat.f0_0.
Proof.
  intros script brd.
  assert (H1 : batch_gives capitalize_ascii repr_scalar loads_one_record
                 error_text_plain (scripted script) []
                 (Generate UIHappyPath brd 30) [one_record]).
  { exists (Some one_record_text), None. split; vm_compute; reflexivity. }
  assert (H2 : batch_fails capitalize_ascii repr_scalar loads_one_record
                 error_text_plain (scripted script)
                 ([] ++ [Generate UIHappyPath brd 30])
                 (Generate UIValidation brd 30)).
  { left. eexists. vm_compute. reflexivity. }
  split; [exact H1|]. split; [exact H2|].
  exact (@batch2_failure_returns_batch1 capitalize_ascii repr_scalar
           loads_one_record error_text_plain (scripted script) brd 90 []
           [one_record] ltac:(lia) H1 H2).
Defined.

Example batch2_failure_run :
  run_generate [Ret (Some one_record_text);
                Raise (Exception (py"Request timed out."))]
    (py"The login page has a button.") 90 true
  = (Some (true, [one_record], Some (py"Batch 2 failed but Batch 1 succeeded"),
           Some (breakdown_batch1_only 1)),
     [Generate UIHappyPath (py"The login page has a button.") 30;
      Generate UIValidation (py"The login page has a button.") 30]).
Proof. vm_compute. reflexivity. Qed.

(** Batch 1 answers with text that is not JSON. *)
Lemma batch1_failure_is_the_fatal_one_witness :
  let script := [Ret (Some (py"Sorry, I cannot help with that."))] in
  let brd := py"The login page has a button." in
  batch_fails capitalize_ascii repr_scalar loads_one_record error_text_plain
    (scripted script) [] (Generate UIHappyPath brd 30) /\
  exists error,
    run_generate script brd 90 true
    = (Some (false, [], Some error, None), [] ++ [Generate UIHappyPath brd 30]).
Proof.
  intros script brd.
  assert (H1 : batch_fails capitalize_ascii repr_scalar loads_one_record
                 error_text_plain (scripted script) []
                 (Generate UIHappyPath brd 30)).
  { right. exists (Some (py"Sorry, I cannot help with that.")).
    split; vm_compute; reflexivity. }
  split; [exact H1|].
  exact (proj1 (@batch1_failure_is_the_fatal_one capitalize_ascii repr_scalar
                  loads_one_record error_text_plain (scripted script) brd 90 []
                  ltac:(lia)) H1).
Defined.

(** Batches 1 and 2 come through: the third prompt asks for
    [100 - 60 = 40] test cases. *)
Lemma generation_protocol_choice_witness :
  let script := [Ret (Some one_record_text); Ret (Some one_record_text)] in
  let brd := py"The login page has a button." in
  batch_gives capitalize_ascii repr_scalar loads_one_record error_text_plain
    (scripted script) [] (Generate UIHappyPath brd 30) [one_record] /\
  batch_gives capitalize_ascii repr_scalar loads_one_record error_text_plain
    (scripted script) ([] ++ [Generate UIHappyPath brd 30])
    (Generate UIValidation brd 30) [one_record] /\
  snd (run_generate script brd 100 true)
  = [] ++ [Generate UIHappyPath brd 30; Generate UIValidation brd 30;
           Generate UIEdgeCases brd (100 - 60)].
Proof.
  intros script brd.
  assert (H1 : batch_gives capitalize_ascii repr_scalar loads_one_record
                 error_text_plain (scripted script) []
                 (Generate UIHappyPath brd 30) [one_record]).
  { exists (Some one_record_text), None. split; vm_compute; reflexivity. }
  assert (H2 : batch_gives capitalize_ascii repr_scalar loads_one_record
                 error_text_plain (scripted script)
                 ([] ++ [Generate UIHappyPath brd 30])
                 (Generate UIValidation brd 30) [one_record]).
  { exists (Some one_record_text), None. split; vm_compute; reflexivity. }
  split; [exact H1|]. split; [exact H2|].
  exact (proj2 (proj2 (proj2
           (generation_protocol_choice capitalize_ascii repr_scalar loads_one_record
              error_text_plain (scripted script) brd 100 true [])))
           [one_record] [one_record] H1 H2).
Defined.

(** Single batch mode: below 70, or with batch mode off. *)
Example single_batch_below_70 :
  snd (run_generate [Ret (Some one_record_text)] (py"brd") 69 true)
  = [Generate UIHappyPath (py"brd") 69] /\
  snd (run_generate [Ret (Some one_record_text)] (py"brd") 90 false)
  = [Generate UIHappyPath (py"brd") 90] /\
  fst (run_generate [Ret (Some one_record_text)] (py"brd") 69 true)
  = Some (true, [one_record], None, Some (breakdown_single 1)).
Proof. repeat split; vm_compute; reflexivity. Qed.

End GenerationExamples.

(** ** Binary64 arithmetic *)

Section FloatFacts.
Open Scope Z_scope.
Unset Implicit Arguments.



















End FloatFacts.

(** ** The estimate *)

Section EstimateClaims.
Import Py ChatGPTService.
Open Scope Z_scope.

Variable lower : str -> str.
Variable digit_value : char -> option Z.
Variable service : list prompt -> prompt -> outcome (option str).



End EstimateClaims.

Section EstimateExamples.
Import Py ChatGPTService.
Open Scope Z_scope.


(** The model answers [About 12 test cases] when 20 exist already; then
    it fails and the heuristic answers. *)
Example estimate_model_path :
  fst (estimate_required_test_cases lower_ascii digit_ascii
         (scripted [Ret (Some (py"About 12 test cases"))]) sample_brd 20 [])
  = Some 20 /\
  fst (estimate_required_test_cases lower_ascii digit_ascii
         (scripted []) sample_brd 20 [])
  = Some 33.
Proof. split; vm_compute; reflexivity. Qed.

(** Six occurrences in a long text: [100 * 1.15] is just below 115 in
    binary64, and the estimate is 114. *)
Example scaled_estimate_rounds_down :
  scaled_estimate 100 6 = Some 114 /\ scaled_estimate 30 4 = Some 33 /\
  scaled_estimate 60 40 = Some 120 /\ scaled_estimate 60 1000 = Some 120.
Proof. repeat split; vm_compute; reflexivity. Qed.

(** The constants and the percentages of the breakdown: 100.0 and 0.0,
    and [round((1 / 3) * 100, 1) = 33.3], [round((1 / 16) * 100, 1) = 6.2]
    (6.25 is a tie and goes to the even digit). *)
Example breakdown_numbers :
  PyFloat.f100_0 = S754_finite false 7036874417766400 (-46) /\
  PyFloat.to_int PyFloat.f100_0 = Some 100 /\
  PyFloat.to_int PyFloat.f0_0 = Some 0 /\
  share 30 30 = Some (Float PyFloat.f100_0) /\
  share 1 3 = Some (Float (S754_finite false 4686558362232422 (-47))) /\
  share 1 16 = Some (Float (S754_finite false 6980579422424269 (-50))) /\
  share 0 0 = Some (Int 0).
Proof. repeat split; vm_compute; reflexivity. Qed.

End EstimateExamples.

(* ================================================================= *)
(** * Further properties of the sources *)
(* ================================================================= *)

Set Implicit Arguments.

(** ** More on [strip] *)

Section StripAlgebra.
Import Py.

Lemma lstrip_app (a b : str) :
  lstrip (a ++ b) = match lstrip a with
                    | [] => lstrip b
                    | r => r ++ b
                    end.
Proof.
  induction a as [|c a IH]; simpl.
  - destruct (lstrip b); reflexivity.
  - destruct (isspace c); [exact IH|reflexivity].
Qed.

(** [rstrip] read from the left. *)
Lemma rstrip_cons (c : char) (s : str) :
  rstrip (c :: s) = match rstrip s with
                    | [] => if isspace c then [] else [c]
                    | r => c :: r
                    end.
Proof.
  unfold rstrip. simpl rev. rewrite lstrip_app.
  destruct (lstrip (rev s)) as [|x r] eqn:E.
  - simpl. destruct (isspace c); reflexivity.
  - simpl rev at 2.
    destruct (rev r ++ [x]) as [|y t] eqn:E'.
    + destruct (rev r); discriminate.
    + rewrite <- E'. change (x :: r) with ([x] ++ r).
      rewrite <- app_assoc. rewrite rev_app_distr. simpl.
      rewrite rev_app_distr. reflexivity.
Qed.

Lemma rstrip_nil : rstrip [] = [].
Proof. reflexivity. Qed.

Lemma rstrip_idempotent (s : str) : rstrip (rstrip s) = rstrip s.
Proof.
  induction s as [|c s IH]; [reflexivity|].
  rewrite rstrip_cons.
  destruct (rstrip s) as [|x r] eqn:E.
  - destruct (isspace c) eqn:Ec; [reflexivity|].
    rewrite rstrip_cons, rstrip_nil, Ec. reflexivity.
  - rewrite rstrip_cons, IH. reflexivity.
Qed.

(** A text that starts with a character that is not white space keeps
    it under [rstrip]. *)
Lemma rstrip_keeps_head (c : char) (s : str) :
  isspace c = false -> exists r, rstrip (c :: s) = c :: r.
Proof.
  intros Hc. rewrite rstrip_cons, Hc.
  destruct (rstrip s) as [|x r]; eauto.
Qed.

Lemma lstrip_head (s : str) :
  lstrip s = [] \/ exists c r, lstrip s = c :: r /\ isspace c = false.
Proof.
  induction s as [|c s IH]; simpl; [auto|].
  destruct (isspace c) eqn:Ec; [exact IH|]. right. eauto.
Qed.

Lemma lstrip_rstrip_lstrip (s : str) :
  lstrip (rstrip (lstrip s)) = rstrip (lstrip s).
Proof.
  destruct (lstrip_head s) as [->|(c & r & -> & Hc)]; [reflexivity|].
  destruct (@rstrip_keeps_head c r Hc) as (r' & ->). simpl. rewrite Hc. reflexivity.
Qed.

(** [s.strip().strip() == s.strip()] *)
Lemma strip_idempotent (s : str) : strip (strip s) = strip s.
Proof.
  unfold strip at 1. unfold strip.
  rewrite lstrip_rstrip_lstrip. apply rstrip_idempotent.
Qed.

Lemma strip_head (s : str) :
  strip s = [] \/ exists c r, strip s = c :: r /\ isspace c = false.
Proof.
  unfold strip.
  destruct (lstrip_head s) as [->|(c & r & -> & Hc)]; [auto|].
  destruct (@rstrip_keeps_head c r Hc) as (r' & ->). right. eauto.
Qed.

End StripAlgebra.

(** ** The sheet reader and its queries *)

Section ReaderInvariants.
Import Py SheetReader SheetQueries.

Lemma read_rows_Forall (P : TestCase -> Prop) (rows : list (list str)) :
  forall k,
    (forall j row tc, nth_error rows j = Some row ->
                      parse_row (k + j) row = Some tc -> P tc) ->
    Forall P (read_rows k rows).
Proof.
  intros k H. apply Forall_forall. intros tc Hin.
  apply read_rows_In in Hin as (j & row & H1 & H2). eauto.
Qed.

Lemma read_rows_lower_bound (rows : list (list str)) :
  forall k, Forall (fun tc => k < row_number tc) (read_rows k rows).
Proof.
  intros k. apply read_rows_Forall. intros j row tc _ H.
  rewrite parse_row_accepted in H. destruct (accepted row); [|discriminate].
  injection H as <-. simpl. lia.
Qed.

Lemma read_rows_sorted (rows : list (list str)) :
  forall k, StronglySorted lt (map row_number (read_rows k rows)).
Proof.
  induction rows as [|row rows IH]; intros k; simpl; [constructor|].
  rewrite parse_row_accepted. destruct (accepted row); [|apply IH].
  simpl. constructor; [apply IH|].
  apply Forall_map. eapply Forall_impl; [|apply read_rows_lower_bound].
  simpl. intros tc. lia.
Qed.

Lemma read_rows_upper_bound (rows : list (list str)) :
  forall k, Forall (fun tc => row_number tc <= k + List.length rows)
              (read_rows k rows).
Proof.
  intros k. apply read_rows_Forall. intros j row tc Hj H.
  rewrite parse_row_accepted in H. destruct (accepted row); [|discriminate].
  injection H as <-. simpl.
  assert (j < List.length rows) by (apply nth_error_Some; congruence). lia.
Qed.

Lemma read_rows_ids (rows : list (list str)) :
  forall k,
    Forall (fun tc => startswith (test_id tc) (py"TC") = true /\
                      strip (test_id tc) = test_id tc)
      (read_rows k rows).
Proof.
  intros k. apply read_rows_Forall. intros j row tc _ H.
  rewrite parse_row_accepted in H. destruct (accepted row) eqn:Ha; [|discriminate].
  injection H as <-. destruct row as [|c0 rest]; [discriminate|].
  unfold expected_test_case. cbn [test_id]. rewrite field_0.
  unfold accepted in Ha. apply andb_true_iff in Ha as [_ Ha].
  split; [exact Ha|apply strip_idempotent].
Qed.

(** Every return of the reader is one of these shapes. *)
Lemma read_test_cases_shape (c : connection) (worksheet_name : str)
  (success : bool) (test_cases : list TestCase) (error : option str) :
  read_test_cases c worksheet_name = Some (success, test_cases, error) ->
  (success = false /\ test_cases = [] /\ error <> None) \/
  (success = true /\ error = None /\
   exists all_values,
     4 <= List.length all_values /\
     test_cases = read_rows 3 (skipn 3 all_values)).
Proof.
  unfold read_test_cases.
  destruct c as [worksheets|err].
  - destruct (worksheet worksheets worksheet_name) as [[all_values|[msg|]]|].
    + unfold read_all_values.
      destruct (Nat.ltb_spec (List.length all_values) 4) as [Hlt|Hge];
        intros [= <- <- <-].
      * left. repeat split; congruence.
      * right. repeat split. exists all_values. auto.
    + intros [= <- <- <-]. left. repeat split; congruence.
    + discriminate.
    + intros [= <- <- <-]. left. repeat split; congruence.
  - intros [= <- <- <-]. left. repeat split; congruence.
Qed.

(** X1.  Whatever the spreadsheet answers, a return of
    [read_test_cases] is all or nothing: a failure carries no test case
    and always an error text; a success carries no error text, and the
    id of every test case it lists starts with [TC] and has no
    surrounding white space left. *)
Theorem read_test_cases_all_or_nothing
  (c : connection) (worksheet_name : str)
  (success : bool) (test_cases : list TestCase) (error : option str) :
  read_test_cases c worksheet_name = Some (success, test_cases, error) ->
  (success = false -> test_cases = [] /\ error <> None) /\
  (success = true -> error = None) /\
  Forall (fun tc => startswith (test_id tc) (py"TC") = true /\
                    strip (test_id tc) = test_id tc) test_cases.
Proof.
  intros H. apply read_test_cases_shape in H
    as [(-> & -> & He)|(-> & -> & all_values & _ & ->)].
  - repeat split; auto; discriminate.
  - repeat split; try discriminate. apply read_rows_ids.
Qed.

Lemma read_test_cases_all_or_nothing_witness :
  let c := Connected [(py"BRD_Portal", Ret (scenario_sheet [py"BRD.pdf"] []))] in
  exists test_cases,
    read_test_cases c (py"BRD_Portal") = Some (true, test_cases, None) /\
    Forall (fun tc => startswith (test_id tc) (py"TC") = true /\
                      strip (test_id tc) = test_id tc) test_cases.
Proof.
  eexists. split; [vm_compute; reflexivity|].
  eapply (@read_test_cases_all_or_nothing
            (Connected [(py"BRD_Portal", Ret (scenario_sheet [py"BRD.pdf"] []))])
            (py"BRD_Portal") true _ None).
  vm_compute. reflexivity.
Defined.

(** X2.  The row numbers of the test cases read are strictly
    increasing, start at 4 and stay within the rows of the worksheet:
    no two test cases of a result point at the same row, and none
    points at the title or header rows. *)
Theorem read_all_values_row_numbers (all_values : list (list str)) :
  let test_cases := snd (fst (read_all_values all_values)) in
  StronglySorted lt (map row_number test_cases) /\
  Forall (fun tc => 4 <= row_number tc <= List.length all_values) test_cases.
Proof.
  unfold read_all_values.
  destruct (Nat.ltb_spec (List.length all_values) 4) as [Hlt|Hge]; simpl.
  - split; constructor.
  - split; [apply read_rows_sorted|].
    apply Forall_forall. intros tc Hin. split.
    + pose proof (read_rows_lower_bound (skipn 3 all_values) 3) as H.
      rewrite Forall_forall in H. specialize (H tc Hin). simpl in H. lia.
    + pose proof (read_rows_upper_bound (skipn 3 all_values) 3) as H.
      rewrite Forall_forall in H. specialize (H tc Hin).
      rewrite length_skipn in H. lia.
Qed.

(** X3.  [get_test_case_by_id] answers with the first test case of the
    list that carries the id, and with [None] exactly when no test case
    carries it. *)
Theorem get_test_case_by_id_first (test_cases : list TestCase) (id : str) :
  match get_test_case_by_id test_cases id with
  | Some tc =>
      test_id tc = id /\
      exists before after,
        test_cases = before ++ tc :: after /\
        Forall (fun t => test_id t <> id) before
  | None => Forall (fun t => test_id t <> id) test_cases
  end.
Proof.
  induction test_cases as [|tc rest IH]; simpl; [constructor|].
  destruct (eqb (test_id tc) id) eqn:E.
  - split; [apply eqb_eq; exact E|]. exists [], rest. split; [reflexivity|constructor].
  - assert (Hne : test_id tc <> id).
    { intros Heq. apply eqb_eq in Heq. congruence. }
    destruct (get_test_case_by_id rest id) as [found|].
    + destruct IH as (Hid & before & after & -> & Hb).
      split; [exact Hid|]. exists (tc :: before), after.
      split; [reflexivity|constructor; assumption].
    + constructor; assumption.
Qed.

Section FilterFacts.
Variable lower : str -> str.

(** X4.  [filter_by_priority] keeps exactly the test cases whose
    priority equals the one asked for once both are lower-cased, in
    their order, and filtering a second time changes nothing. *)
Theorem filter_by_priority_selects (test_cases : list TestCase) (priority : str) :
  (forall tc, In tc (filter_by_priority lower test_cases priority) <->
              In tc test_cases /\ lower (SheetReader.priority tc) = lower priority) /\
  filter_by_priority lower (filter_by_priority lower test_cases priority) priority
  = filter_by_priority lower test_cases priority /\
  (StronglySorted lt (map row_number test_cases) ->
   StronglySorted lt
     (map row_number (filter_by_priority lower test_cases priority))).
Proof.
  unfold filter_by_priority. split; [|split].
  - intros tc. rewrite filter_In. split; intros [H1 H2]; split; auto.
    + apply eqb_eq. exact H2.
    + apply eqb_eq. exact H2.
  - induction test_cases as [|tc rest IH]; simpl; [reflexivity|].
    destruct (eqb (lower (SheetReader.priority tc)) (lower priority)) eqn:E; simpl.
    + rewrite E, IH. reflexivity.
    + exact IH.
  - induction test_cases as [|tc rest IH]; simpl; intros Hs; [constructor|].
    inversion Hs as [|? ? Hs' Hall]; subst.
    destruct (eqb (lower (SheetReader.priority tc)) (lower priority)); simpl.
    + constructor; [apply IH; exact Hs'|].
      rewrite Forall_map in *. rewrite Forall_forall in *.
      intros t Ht. apply filter_In in Ht as [Ht _]. auto.
    + apply IH; exact Hs'.
Qed.

End FilterFacts.

End ReaderInvariants.
(** ** The worksheet list of the executor *)

Section RoutesFacts.
Import Py SheetReader SheetQueries ExecutorRoutes.

Lemma worksheet_list_listed (worksheets : list Sheet) :
  forall l,
    worksheet_list worksheets = Ret l ->
    List.length l <= List.length worksheets /\
    Forall (fun info =>
              (1 <= test_count info)%Z /\ (3 < info_row_count info)%Z /\
              exists ws, In ws worksheets /\ name info = title ws /\
                         info_row_count info = row_count ws /\
                         title ws <> py"Trang tính1") l.
Proof.
  induction worksheets as [|ws rest IH]; simpl; intros l H.
  - injection H as <-. split; [simpl; lia|constructor].
  - assert (Hweak :
      forall l', Forall (fun info =>
              (1 <= test_count info)%Z /\ (3 < info_row_count info)%Z /\
              exists ws, In ws rest /\ name info = title ws /\
                         info_row_count info = row_count ws /\
                         title ws <> py"Trang tính1") l' ->
        Forall (fun info =>
              (1 <= test_count info)%Z /\ (3 < info_row_count info)%Z /\
              exists ws', (ws = ws' \/ In ws' rest) /\ name info = title ws' /\
                         info_row_count info = row_count ws' /\
                         title ws' <> py"Trang tính1") l').
    { intros l'. apply Forall_impl. intros info (H1 & H2 & w & H3 & H4).
      repeat split; auto. exists w. tauto. }
    destruct (eqb (title ws) (py"Trang tính1")) eqn:Et; simpl in H.
    { destruct (worksheet_list rest) as [l0|e]; [|discriminate].
      injection H as <-. destruct (IH l0 eq_refl) as [Hl Hf]. split; [lia|auto]. }
    apply eqb_neq in Et.
    destruct (Z.leb_spec (row_count ws) 3) as [Hle|Hgt].
    { destruct (worksheet_list rest) as [l0|e]; [|discriminate].
      injection H as <-. destruct (IH l0 eq_refl) as [Hl Hf]. split; [lia|auto]. }
    destruct (col_values_1 ws) as [col_a_values|[msg|]]; [| |discriminate].
    + destruct (Z.eqb_spec (actual_test_count col_a_values) 0) as [Hz|Hnz];
        (destruct (worksheet_list rest) as [l0|e]; [|discriminate]);
        injection H as <-; destruct (IH l0 eq_refl) as [Hl Hf].
      * split; [lia|auto].
      * split; [simpl; lia|]. constructor; [|auto]. simpl.
        repeat split; [unfold actual_test_count in *; lia|lia|].
        exists ws. auto.
    + destruct (worksheet_list rest) as [l0|e]; [|discriminate].
      injection H as <-. destruct (IH l0 eq_refl) as [Hl Hf].
      split; [simpl; lia|]. constructor; [|auto]. simpl.
      repeat split; [lia|lia|]. exists ws. auto.
Qed.

(** X5.  Every worksheet [get_worksheets] lists has more than three
    rows, is not the default sheet, and is given a test count of at
    least one; [total] is the length of the list, which has at most one
    entry per worksheet. *)
Theorem get_worksheets_lists_only_test_sheets
  (access : outcome (bool * option str)) (worksheets : list Sheet)
  (listed : list worksheet_info) (total : Z) :
  get_worksheets access (Ret worksheets) = Some (Listed listed total) ->
  total = Z.of_nat (List.length listed) /\
  List.length listed <= List.length worksheets /\
  Forall (fun info =>
            (1 <= test_count info)%Z /\ (3 < info_row_count info)%Z /\
            exists ws, In ws worksheets /\ name info = title ws /\
                       info_row_count info = row_count ws /\
                       title ws <> py"Trang tính1") listed.
Proof.
  unfold get_worksheets.
  destruct access as [[[|] error]|[msg|]]; try discriminate.
  destruct (worksheet_list worksheets) as [l|[msg|]] eqn:E; try discriminate.
  intros [= <- <-]. split; [reflexivity|].
  apply worksheet_list_listed. exact E.
Qed.

Lemma get_worksheets_lists_only_test_sheets_witness :
  get_worksheets (Ret (true, None)) (Ret sample_sheets)
  = Some (Listed sample_listing 2) /\
  Forall (fun info => (1 <= test_count info)%Z /\ (3 < info_row_count info)%Z)
    sample_listing.
Proof.
  split; [vm_compute; reflexivity|].
  assert (H : get_worksheets (Ret (true, None)) (Ret sample_sheets)
              = Some (Listed sample_listing 2)) by (vm_compute; reflexivity).
  destruct (get_worksheets_lists_only_test_sheets _ _ H) as (_ & _ & Hall).
  eapply Forall_impl; [|exact Hall]. simpl. tauto.
Defined.

Lemma counted_is_accepted (row : list str) :
  (truthy (first_cell row) && startswith (strip (first_cell row)) (py"TC"))%bool
  = accepted row.
Proof.
  destruct row as [|c0 rest]; [reflexivity|]. simpl first_cell. unfold accepted.
  destruct (startswith (strip c0) (py"TC")) eqn:E.
  - rewrite !andb_true_r.
    replace (truthy (strip c0)) with true
      by (destruct (strip c0); [discriminate|reflexivity]).
    destruct c0; [discriminate|reflexivity].
  - rewrite !andb_false_r. reflexivity.
Qed.

Lemma filter_drop_trailing_empty (P : str -> bool) (l : list str) :
  P [] = false ->
  filter P (ResultReporter.drop_trailing_empty l) = filter P l.
Proof.
  intros HP. induction l as [|c l IH]; [reflexivity|].
  cbn [ResultReporter.drop_trailing_empty].
  destruct (ResultReporter.drop_trailing_empty l) as [|x r] eqn:E.
  - cbn [filter] in IH. cbn [filter]. rewrite <- IH.
    destruct c; simpl; [rewrite HP; reflexivity|].
    destruct (P (_ :: _)); reflexivity.
  - cbn [filter]. rewrite <- IH. reflexivity.
Qed.

Lemma read_rows_length (rows : list (list str)) :
  forall k, List.length (read_rows k rows) = List.length (filter accepted rows).
Proof.
  induction rows as [|row rows IH]; intros k; simpl; [reflexivity|].
  rewrite parse_row_accepted. destruct (accepted row); simpl; rewrite IH; reflexivity.
Qed.

(** X6.  On a worksheet of four rows or more, the test count shown for
    it (the cells of column A that start with [TC] once stripped) is
    the number of test cases the reader returns plus the number of such
    cells in the first three rows; it is never smaller than what the
    reader returns. *)
Theorem test_count_covers_reader (all_values : list (list str)) :
  4 <= List.length all_values ->
  let col_a_values :=
    ResultReporter.drop_trailing_empty (map first_cell all_values) in
  let test_cases := snd (fst (read_all_values all_values)) in
  actual_test_count col_a_values
  = (Z.of_nat (List.length (filter accepted (firstn 3 all_values)))
     + Z.of_nat (List.length test_cases))%Z.
Proof.
  intros Hlen. cbv zeta. unfold actual_test_count, read_all_values.
  destruct (Nat.ltb_spec (List.length all_values) 4) as [Hlt|_]; [lia|].
  cbn [fst snd]. rewrite filter_drop_trailing_empty by reflexivity.
  rewrite read_rows_length.
  rewrite <- (firstn_skipn 3 all_values) at 1.
  rewrite map_app, filter_app, length_app, Nat2Z.inj_add.
  assert (Hf : forall l, List.length
                 (filter (fun val => truthy val && startswith (strip val) (py"TC"))
                    (map first_cell l))
               = List.length (filter accepted l)).
  { induction l as [|row l IH]; [reflexivity|]. cbn [map filter].
    rewrite counted_is_accepted. destruct (accepted row); simpl; rewrite IH; reflexivity. }
  rewrite !Hf. reflexivity.
Qed.

Lemma test_count_covers_reader_witness :
  let sheet := [ [py"TC plan"]; []; [py"Test ID"];
                 [py"TC001"; py"d"]; [py"note"]; [py" TC002"] ] in
  4 <= List.length sheet /\
  actual_test_count (ResultReporter.drop_trailing_empty (map first_cell sheet))
  = (Z.of_nat (List.length (filter accepted (firstn 3 sheet)))
     + Z.of_nat (List.length (snd (fst (read_all_values sheet)))))%Z.
Proof.
  split; [simpl; lia|].
  apply (@test_count_covers_reader
           [ [py"TC plan"]; []; [py"Test ID"];
             [py"TC001"; py"d"]; [py"note"]; [py" TC002"] ]).
  simpl; lia.
Defined.

End RoutesFacts.

(** ** The URL table *)

Section URLPathFacts.
Import Py URLManager URLPaths.

Variable V : Type.
Variable str_of : V -> str.
Variable repr_map : list (str * yaml) -> str.

(** X7.  [get] is [get_path] behind the base URL: both answer [None]
    on the same lookups, and otherwise the URL is the base URL followed
    by the path. *)
Theorem get_is_base_url_then_path
  (self : t) (module action : str) (kwargs : list (str * V)) :
  get str_of repr_map self module action kwargs
  = option_map (fun path => base_url self ++ fmt repr_map path)
      (get_path str_of self module action kwargs).
Proof.
  unfold get, get_path.
  destruct (urls self) as [s|entries| |b text]; try reflexivity.
  destruct (dict_get module entries) as [module_urls|]; [|reflexivity].
  destruct (yaml_truthy module_urls); [|reflexivity]. cbn [negb].
  destruct module_urls as [s|actions| |b text]; try reflexivity.
  destruct (dict_get action actions) as [path|]; [|reflexivity].
  destruct (yaml_truthy path); [|reflexivity]. cbn [negb].
  destruct path as [p|m| |b text]; destruct kwargs; reflexivity.
Qed.

Lemma lookup_map_snd (A B : Type) (f : A -> B) (key : str) (l : list (str * A)) :
  lookup key (map (fun kv => (fst kv, f (snd kv))) l)
  = option_map f (lookup key l).
Proof.
  induction l as [|[k v] l IH]; [reflexivity|]. cbn [map lookup fst snd].
  destruct (eqb k key); [reflexivity|exact IH].
Qed.

Lemma lookup_dict_get (key : str) (l : list (str * yaml)) :
  lookup key l = dict_get key l.
Proof.
  induction l as [|[k v] l IH]; [reflexivity|]. cbn [lookup dict_get].
  destruct (eqb k key); [reflexivity|exact IH].
Qed.

(** X8.  [get_all_urls] agrees with [get]: a URL that [get] gives for
    an action, without variables, is the entry of that action in the
    table of the module; an action the table lacks has no URL, whatever
    the variables; and a module the mapping lacks has an empty table. *)
Theorem get_all_urls_agrees_with_get (self : t) (module action : str) :
  (forall url,
     get str_of repr_map self module action [] = Some url ->
     exists table,
       get_all_urls repr_map self module = Some table /\
       lookup action table = Some url) /\
  (forall table kwargs,
     get_all_urls repr_map self module = Some table ->
     lookup action table = None ->
     get str_of repr_map self module action kwargs = None) /\
  (forall entries,
     urls self = YMap entries -> dict_get module entries = None ->
     get_all_urls repr_map self module = Some []).
Proof.
  unfold get, get_all_urls. repeat split.
  - intros url.
    destruct (urls self) as [s|entries| |b text]; try discriminate.
    destruct (dict_get module entries) as [module_urls|]; [|discriminate].
    destruct (yaml_truthy module_urls); [|discriminate]. cbn [negb].
    destruct module_urls as [s|actions| |b text]; try discriminate.
    destruct (dict_get action actions) as [path|] eqn:Ea; [|discriminate].
    destruct (yaml_truthy path); [|discriminate]. cbn [negb].
    intros H. eexists. split; [reflexivity|].
    rewrite lookup_map_snd with (f := fun p => base_url self ++ fmt repr_map p).
    rewrite lookup_dict_get, Ea. cbn [option_map].
    destruct path; cbn [substitute fmt] in *; exact H.
  - intros table kwargs.
    destruct (urls self) as [s|entries| |b text]; try reflexivity.
    destruct (dict_get module entries) as [module_urls|]; [|reflexivity].
    destruct (yaml_truthy module_urls); [|reflexivity]. cbn [negb].
    destruct module_urls as [s|actions| |b text]; try reflexivity.
    intros [= <-].
    rewrite lookup_map_snd with (f := fun p => base_url self ++ fmt repr_map p).
    rewrite lookup_dict_get.
    destruct (dict_get action actions); [discriminate|reflexivity].
  - intros entries -> ->. reflexivity.
Qed.

(** A file without a mapping to load: missing, unreadable, or holding
    something else. *)
Lemma load_urls_without_mapping (f : url_file) :
  (file_exists f = false \/
   (exists msg, safe_load f = Raise (Exception msg)) \/
   (exists v, safe_load f = Ret v /\ forall entries, v <> YMap entries)) ->
  exists self,
    init repr_map f = Some self /\
    forall entries, urls self = YMap entries -> entries = [].
Proof.
  unfold init, load_urls. intros [H|[(msg & H)|(v & H & Hv)]].
  - rewrite H. cbn [negb]. eexists. split; [reflexivity|].
    cbn [urls]. intros entries [= <-]. reflexivity.
  - rewrite H. destruct (file_exists f); cbn [negb];
      (eexists; split; [reflexivity|]); cbn [urls]; intros entries [= <-]; reflexivity.
  - rewrite H. destruct (file_exists f); cbn [negb].
    + destruct v as [s|entries| |b text];
        try (eexists; split; [reflexivity|]; cbn [urls]; discriminate).
      exfalso. exact (Hv entries eq_refl).
    + eexists. split; [reflexivity|]. cbn [urls]. intros entries [= <-]. reflexivity.
Qed.

(** X9.  A manager built on a mapping file that is missing, cannot be
    read or parsed, or does not hold a mapping, is built all the same,
    and answers [None] to every [get] and every [get_path].  When the
    file is missing or cannot be read, the manager keeps the empty
    mapping and [get_all_urls] gives the empty table for every module;
    when the file is there and holds something that is not a mapping,
    the manager holds that value and [get_all_urls] raises for every
    module. *)
Theorem init_without_mapping_resolves_nothing (f : url_file) :
  (file_exists f = false \/
   (exists msg, safe_load f = Raise (Exception msg)) \/
   (exists v, safe_load f = Ret v /\ forall entries, v <> YMap entries)) ->
  exists self,
    init repr_map f = Some self /\
    (forall (module action : str) (kwargs : list (str * V)),
       get str_of repr_map self module action kwargs = None /\
       get_path str_of self module action kwargs = None) /\
    (file_exists f = false \/ (exists msg, safe_load f = Raise (Exception msg)) ->
     urls self = YMap [] /\
     forall module, get_all_urls repr_map self module = Some []) /\
    (forall v,
       file_exists f = true -> safe_load f = Ret v ->
       (forall entries, v <> YMap entries) ->
       urls self = v /\
       forall module, get_all_urls repr_map self module = None).
Proof.
  intros H. destruct (@load_urls_without_mapping f H) as (self & Hinit & Hempty).
  exists self. split; [exact Hinit|]. split; [|split].
  - intros module action kwargs. unfold get, get_path.
    destruct (urls self) as [s|entries| |b text]; try (split; reflexivity).
    rewrite (Hempty entries eq_refl). split; reflexivity.
  - intros Hno.
    assert (Hurls : urls self = YMap []).
    { revert Hinit. unfold init, load_urls.
      destruct Hno as [E|(msg & E)]; rewrite E.
      - cbn [negb]. intros [= <-]. reflexivity.
      - destruct (file_exists f); cbn [negb]; intros [= <-]; reflexivity. }
    split; [exact Hurls|].
    intros module. unfold get_all_urls. rewrite Hurls. reflexivity.
  - intros v Hex Hload Hv.
    assert (Hurls : urls self = v).
    { revert Hinit. unfold init, load_urls. rewrite Hex, Hload. cbn [negb].
      destruct v as [s|entries| |b text]; intros [= <-]; reflexivity. }
    split; [exact Hurls|].
    intros module. unfold get_all_urls. rewrite Hurls.
    destruct v as [s|entries| |b text]; try reflexivity.
    exfalso. exact (Hv entries eq_refl).
Qed.

End URLPathFacts.

Lemma init_without_mapping_resolves_nothing_witness :
  exists self,
    URLPaths.init repr_map_dots list_file = Some self /\
    (forall (module action : Py.str) (kwargs : list (Py.str * Py.str)),
       URLManager.get (fun v => v) repr_map_dots self module action kwargs = None /\
       URLPaths.get_path (fun v => v) self module action kwargs = None) /\
    URLManager.urls self = URLManager.YOther true (py"['a', 'b']") /\
    (forall module, URLPaths.get_all_urls repr_map_dots self module = None).
Proof.
  destruct (@init_without_mapping_resolves_nothing Py.str (fun v => v)
              repr_map_dots list_file) as (self & Hinit & Hget & _ & Hother).
  - right. right. eexists. split; [reflexivity|]. discriminate.
  - exists self. split; [exact Hinit|]. split; [exact Hget|].
    apply (Hother (URLManager.YOther true (py"['a', 'b']"))).
    + reflexivity.
    + reflexivity.
    + discriminate.
Defined.

(** ** The locator table *)

Section LocatorFacts.
Import Py URLManager LocatorManager.

Variable contains_other : str -> yaml -> option bool.

(** X10.  A locator that [get] finds is one that [has] reports and that
    [get_all] lists under its element name, and it is never the null
    value. *)
Theorem locator_found_is_listed (locators : yaml) (category element : str)
  (locator : yaml) :
  get locators category element = Some locator ->
  has contains_other locators category element = Some true /\
  locator <> YNull /\
  exists elements,
    get_all locators category = Some (YMap elements) /\
    dict_get element elements = Some locator.
Proof.
  unfold get, has, get_all.
  destruct locators as [s|entries| |b text]; try discriminate.
  destruct (category_or_empty entries category) as [s|elements| |b text];
    try discriminate.
  destruct (dict_get element elements) as [v|] eqn:E; [|discriminate].
  destruct v; try discriminate; intros [= <-];
    (split; [reflexivity|split; [discriminate|eauto]]).
Qed.

(** X11.  A locator manager answers for what it does not hold as for
    an empty category: when it was built on a file that is missing or
    cannot be read, or when the mapping it loaded lacks the category,
    [get] finds nothing, [has] answers [False], and [get_all] gives the
    empty mapping. *)
Theorem locator_manager_without_category (f : URLPaths.url_file)
  (locators : yaml) (category element : str) :
  init f = Some locators ->
  (URLPaths.file_exists f = false \/
   (exists msg, URLPaths.safe_load f = Raise (Exception msg)) \/
   (exists entries, locators = YMap entries /\ dict_get category entries = None)) ->
  get locators category element = None /\
  has contains_other locators category element = Some false /\
  get_all locators category = Some (YMap []).
Proof.
  intros Hinit H.
  assert (Hmissing :
    exists entries, locators = YMap entries /\ dict_get category entries = None).
  { destruct H as [H|[(msg & H)|H]]; [| |exact H];
      revert Hinit; unfold init, load_locators; rewrite H.
    - cbn [negb]. intros [= <-]. exists []. auto.
    - destruct (URLPaths.file_exists f); cbn [negb]; intros [= <-]; exists []; auto. }
  destruct Hmissing as (entries & -> & Hc).
  unfold get, has, get_all, category_or_empty. rewrite Hc. auto.
Qed.

End LocatorFacts.

Lemma locator_found_is_listed_witness :
  LocatorManager.get sample_locators (py"login") (py"username_input")
  = Some (URLManager.YStr (py"input[name='username']")) /\
  LocatorManager.has (fun _ _ => None) sample_locators (py"login")
    (py"username_input") = Some true.
Proof.
  split; [vm_compute; reflexivity|].
  refine (proj1 (@locator_found_is_listed (fun _ _ => None) sample_locators
                   (py"login") (py"username_input") _ _)).
  vm_compute. reflexivity.
Defined.

Lemma locator_manager_without_category_witness :
  LocatorManager.init missing_file = Some (URLManager.YMap []) /\
  LocatorManager.get (URLManager.YMap []) (py"lead") (py"name_input") = None /\
  LocatorManager.has (fun _ _ => None) (URLManager.YMap []) (py"lead")
    (py"name_input") = Some false /\
  LocatorManager.get_all (URLManager.YMap []) (py"lead")
  = Some (URLManager.YMap []).
Proof.
  split; [reflexivity|].
  apply (@locator_manager_without_category (fun _ _ => None) missing_file).
  - reflexivity.
  - left. reflexivity.
Defined.

(** ** Writing results back *)

Section ReportingFacts.
Import Py ResultReporter Reporting.

Variable format_0f : PyFloat.float -> str.

Lemma cell_put (w : Worksheet) (r c : nat) (v : str) (r' c' : nat) :
  cell (put w r c v) r' c'
  = if (r - 1 =? r' - 1) && (c - 1 =? c' - 1) then v else cell w r' c'.
Proof.
  unfold cell, put. cbn [cells].
  destruct (Nat.eqb_spec (r - 1) (r' - 1)) as [<-|Hr].
  - rewrite nth_set_nth_eq.
    destruct (Nat.eqb_spec (c - 1) (c' - 1)) as [<-|Hc]; cbn [andb].
    + apply nth_set_nth_eq.
    + apply nth_set_nth_neq. exact Hc.
  - cbn [andb]. rewrite nth_set_nth_neq by exact Hr. reflexivity.
Qed.

Lemma replay_app (a b : list write) (w : Worksheet) :
  replay (a ++ b) w = replay b (replay a w).
Proof. unfold replay. apply fold_left_app. Qed.

Lemma replay_cons (x : write) (log : list write) (w : Worksheet) :
  replay (x :: log) w = replay log (put w (fst (fst x)) (snd (fst x)) (snd x)).
Proof. reflexivity. Qed.

Lemma in_grid_replay (log : list write) :
  forall w row col, in_grid (replay log w) row col = in_grid w row col.
Proof.
  induction log as [|x log IH]; intros w row col; [reflexivity|].
  rewrite replay_cons, IH. reflexivity.
Qed.

Lemma replay_grid (log : list write) :
  forall w, row_count (replay log w) = row_count w /\
            col_count (replay log w) = col_count w.
Proof.
  induction log as [|x log IH]; intros w; [split; reflexivity|].
  rewrite replay_cons.
  destruct (IH (put w (fst (fst x)) (snd (fst x)) (snd x))) as [-> ->].
  split; reflexivity.
Qed.

Lemma inside_bounds (w : Worksheet) (x : write) :
  inside w x ->
  1 <= fst (fst x) <= row_count w /\ 1 <= snd (fst x) <= col_count w.
Proof.
  unfold inside, in_grid. intros H.
  repeat (apply andb_true_iff in H as [H ?]).
  repeat match goal with H : (_ <=? _) = true |- _ => apply Nat.leb_le in H end.
  lia.
Qed.

Lemma inside_replay (log : list write) (w : Worksheet) (x : write) :
  inside (replay log w) x <-> inside w x.
Proof. unfold inside. rewrite in_grid_replay. tauto. Qed.

(** Cells no write of the log targets read as before. *)
Lemma cell_replay_frame (row col : nat) (log : list write) :
  1 <= row -> 1 <= col ->
  forall w0,
    Forall (inside w0) log ->
    Forall (fun x => ~ (fst (fst x) = row /\ snd (fst x) = col)) log ->
    forall w, cell (replay log w) row col = cell w row col.
Proof.
  intros Hr Hc w0. induction log as [|[[r c] v] log IH]; intros Hpos Hoff w;
    [reflexivity|].
  inversion Hpos as [|? ? Hin Hpos']; subst.
  inversion Hoff as [|? ? Hx Hoff']; subst.
  apply inside_bounds in Hin. cbn [fst snd] in *.
  rewrite replay_cons. cbn [fst snd].
  rewrite IH by assumption. rewrite cell_put.
  destruct (Nat.eqb_spec (r - 1) (row - 1)); [|reflexivity].
  destruct (Nat.eqb_spec (c - 1) (col - 1)); [|reflexivity].
  exfalso. apply Hx. lia.
Qed.

(** After a log whose writes all store [v], a cell it targets reads [v]. *)
Lemma cell_replay_const (v : str) (row col : nat) (log : list write) :
  forall w0,
    Forall (inside w0) log ->
    Forall (fun x => snd x = v) log ->
    forall w,
      cell w row col = v \/ (1 <= row /\ 1 <= col /\ In (row, col, v) log) ->
      cell (replay log w) row col = v.
Proof.
  intros w0.
  induction log as [|[[r c] v'] log IH]; intros Hpos Hv w H.
  - destruct H as [H|(_ & _ & [])]. exact H.
  - inversion Hpos as [|? ? Hin Hpos']; subst.
    inversion Hv as [|? ? Hx Hv']; subst.
    apply inside_bounds in Hin. cbn [fst snd] in *.
    rewrite replay_cons. cbn [fst snd].
    apply IH; [assumption|assumption|]. rewrite cell_put.
    destruct ((r - 1 =? row - 1) && (c - 1 =? col - 1)) eqn:E; [left; reflexivity|].
    destruct H as [H|(Hr & Hc & [Heq|Hin'])].
    + left. exact H.
    + injection Heq as -> ->. rewrite !Nat.eqb_refl in E. discriminate.
    + right. auto.
Qed.

Lemma cell_same_grid (a b : Worksheet) (row col : nat) :
  same_grid a b -> cell a row col = cell b row col.
Proof. intros (H & _). unfold cell. rewrite H. reflexivity. Qed.

Lemma inside_same_grid (a b : Worksheet) (x : write) :
  same_grid a b -> inside a x -> inside b x.
Proof. intros G. unfold inside. rewrite (in_grid_same _ _ G). tauto. Qed.

Lemma replay_same_grid (log : list write) :
  forall a b, same_grid a b -> same_grid (replay log a) (replay log b).
Proof.
  induction log as [|x log IH]; intros a b G; [exact G|].
  rewrite !replay_cons. apply IH. apply same_grid_put. exact G.
Qed.

(** The loop of writes: the log grows by the writes that went
    through, the grid is the replay of these, and a loop that ends
    has gone through all of them. *)
Lemma apply_updates_replay (updates : list write) :
  forall w done r w' log,
    apply_updates w done updates = (r, w', log) ->
    exists applied rest,
      updates = applied ++ rest /\
      log = done ++ applied /\
      same_grid w' (replay applied w) /\
      Forall (inside w) applied /\
      (r = Ret tt -> rest = []).
Proof.
  induction updates as [|[[row col] v] updates IH]; intros w done r w' log H.
  - injection H as <- <- <-. exists [], [].
    repeat split; rewrite ?app_nil_r; auto.
  - cbn [apply_updates] in H.
    destruct (update_cell_outcome w row col v)
      as [(w1 & E & G & I)|(e & w1 & E & G)]; rewrite E in H.
    + apply IH in H as (applied & rest & -> & -> & Hg & Hpos & Hret).
      exists ((row, col, v) :: applied), rest.
      rewrite <- app_assoc. split; [reflexivity|]. split; [reflexivity|].
      split; [|split; [|exact Hret]].
      * rewrite replay_cons. cbn [fst snd].
        apply (same_grid_trans Hg). apply replay_same_grid. exact G.
      * apply Forall_cons; [exact I|].
        eapply Forall_impl; [|exact Hpos]. intros x Hx.
        apply (inside_same_grid (same_grid_trans G (same_grid_refl _))) in Hx.
        exact Hx.
    + injection H as <- <- <-. exists [], ((row, col, v) :: updates).
      repeat split; rewrite ?app_nil_r; auto; try apply G; discriminate.
Qed.

Lemma ensure_result_columns_replay (w : Worksheet) (r : option bool)
  (w' : Worksheet) (log : list write) :
  _ensure_result_columns w = (r, w', log) ->
  same_grid w' (replay log w) /\
  Forall (inside w) log /\
  Forall (result_cell 0) log.
Proof.
  unfold _ensure_result_columns, row_values.
  destruct (next_call_grid w) as (G & _ & _).
  destruct (next_call w) as [[[msg|]|] w1]; cbn [snd] in G;
    try (intros [= <- <- <-]; repeat split; auto; apply G).
  destruct (apply_updates w1 [] (updates_needed (stored_row w1 3)))
    as [[r0 w0] log0] eqn:E.
  pose proof E as E'.
  apply apply_updates_replay in E' as (applied & rest & Hups & -> & Hg & Hpos & _).
  cbn [app].
  assert (Hcells : Forall (result_cell 0) applied).
  { assert (Hall : Forall (result_cell 0) (updates_needed (stored_row w1 3))).
    { unfold updates_needed.
      destruct (header_missing (stored_row w1 3) 7),
               (header_missing (stored_row w1 3) 8); cbn [app];
        repeat (apply Forall_cons || apply Forall_nil);
        unfold result_cell; cbn [fst snd]; auto. }
    rewrite Hups in Hall. apply Forall_app in Hall. tauto. }
  assert (Hshape :
    same_grid w0 (replay applied w) /\ Forall (inside w) applied /\
    Forall (result_cell 0) applied).
  { split; [|split; [|exact Hcells]].
    - apply (same_grid_trans Hg). apply replay_same_grid. exact G.
    - eapply Forall_impl; [|exact Hpos]. intros x. apply inside_same_grid. exact G. }
  destruct r0 as [u|[msg|]]; intros [= <- <- <-]; exact Hshape.
Qed.

Lemma add_screenshot_info_replay (env : Remote) (w : Worksheet)
  (row_num : nat) (r : option bool) (w' : Worksheet) (log : list write) :
  _add_screenshot_info format_0f env w row_num 8 = (r, w', log) ->
  same_grid w' (replay log w) /\
  Forall (inside w) log /\
  Forall (fun x => fst x = (row_num, 8)) log.
Proof.
  unfold _add_screenshot_info.
  assert (Hfallback :
    forall text w0,
      same_grid w0 w ->
      match update_cell w0 row_num 8 text with
      | (Ret _, w1) => (Some true, w1, [(row_num, 8, text)])
      | (Raise _, w1) => (Some false, w1, [])
      end = (r, w', log) ->
      same_grid w' (replay log w) /\ Forall (inside w) log /\
      Forall (fun x => fst x = (row_num, 8)) log).
  { intros text w0 G0.
    destruct (update_cell_outcome w0 row_num 8 text)
      as [(w1 & E & G & I)|(e & w1 & E & G)]; rewrite E;
      intros [= <- <- <-].
    - split; [|split].
      + rewrite replay_cons. cbn [fst snd replay fold_left].
        apply (same_grid_trans G). apply same_grid_put. exact G0.
      + apply Forall_cons; [|apply Forall_nil].
        apply (inside_same_grid G0). exact I.
      + apply Forall_cons; [reflexivity|apply Forall_nil].
    - split; [exact (same_grid_trans G G0)|]. split; apply Forall_nil. }
  destruct (screenshot_text format_0f env) as [text|[msg|]].
  - destruct (update_cell_outcome w row_num 8 text)
      as [(w1 & E & G & I)|(e & w1 & E & G)]; rewrite E.
    + intros [= <- <- <-]. split; [|split].
      * rewrite replay_cons. exact G.
      * apply Forall_cons; [exact I|apply Forall_nil].
      * apply Forall_cons; [reflexivity|apply Forall_nil].
    + destruct e as [msg|].
      * apply Hfallback. exact G.
      * intros [= <- <- <-]. split; [exact G|]. split; apply Forall_nil.
  - apply Hfallback. apply same_grid_refl.
  - intros [= <- <- <-]. split; [apply same_grid_refl|]. split; apply Forall_nil.
Qed.

(** The writes of a row, and what a success has written. *)
Lemma report_row_replay (env : Remote) (w : Worksheet) (row_num : nat)
  (result : Report) (r : option bool) (w' : Worksheet) (log : list write) :
  report_row format_0f env w row_num result = (r, w', log) ->
  same_grid w' (replay log w) /\
  Forall (inside w) log /\
  Forall (result_cell row_num) log /\
  (r = Some true ->
   row_written env result row_num (status_text env w row_num result) [] log).
Proof.
  unfold report_row, row_written.
  set (status6 := status_text env w row_num result).
  set (error7 := error_cell (error_message result)).
  assert (Hcell : forall col v, col = 6 \/ col = 7 \/ col = 8 ->
                                result_cell row_num (row_num, col, v)).
  { intros col v H. right. cbn [fst snd]. auto. }
  destruct (update_cell_outcome w row_num 6 status6)
    as [(w6 & E6 & G6 & I6)|(e & w6 & E6 & G6)]; rewrite E6;
    [|destruct e as [msg|]; intros [= <- <- <-];
      (split; [exact G6|]); repeat split; auto; discriminate].
  destruct (update_cell_outcome w6 row_num 7 error7)
    as [(w7 & E7 & G7 & I7)|(e & w7 & E7 & G7)]; rewrite E7.
  2:{ destruct e as [msg|]; intros [= <- <- <-];
        (split; [rewrite replay_cons; exact (same_grid_trans G7 G6)|]);
        (split; [apply Forall_cons; [exact I6|apply Forall_nil]|]);
        (split; [apply Forall_cons; [apply Hcell; auto|apply Forall_nil]|]);
        discriminate. }
  assert (G7w : same_grid w7 (replay [(row_num, 6, status6); (row_num, 7, error7)] w)).
  { rewrite !replay_cons. cbn [fst snd replay fold_left].
    apply (same_grid_trans G7). apply same_grid_put. exact G6. }
  assert (I7w : inside w (row_num, 7, error7)).
  { unfold inside. cbn [fst snd].
    rewrite (in_grid_same row_num 7 G6) in I7. exact I7. }
  assert (Hdone :
    Forall (inside w) [(row_num, 6, status6); (row_num, 7, error7)] /\
    Forall (result_cell row_num) [(row_num, 6, status6); (row_num, 7, error7)]).
  { split; repeat (apply Forall_cons || apply Forall_nil); auto. }
  destruct Hdone as [Hin2 Hcell2].
  assert (Hw7 : forall x, inside w7 x -> inside w x).
  { intros x. unfold inside.
    rewrite (in_grid_same _ _ G7w), in_grid_replay. tauto. }
  destruct (match screenshot_path result with
            | Some p => truthy p && path_exists env
            | None => false
            end) eqn:Ews.
  - destruct (_add_screenshot_info format_0f env w7 row_num 8)
      as [[r8 w8] log8] eqn:E8.
    apply add_screenshot_info_replay in E8 as (G8 & Hpos8 & Hcol8).
    assert (Hshape :
      same_grid w8
        (replay ([(row_num, 6, status6); (row_num, 7, error7)] ++ log8) w) /\
      Forall (inside w)
        ([(row_num, 6, status6); (row_num, 7, error7)] ++ log8) /\
      Forall (result_cell row_num)
        ([(row_num, 6, status6); (row_num, 7, error7)] ++ log8)).
    { split; [|split].
      - rewrite replay_app. apply (same_grid_trans G8).
        apply replay_same_grid. exact G7w.
      - apply Forall_app. split; [exact Hin2|].
        eapply Forall_impl; [|exact Hpos8]. exact Hw7.
      - apply Forall_app. split; [exact Hcell2|].
        eapply Forall_impl; [|exact Hcol8]. intros [[r0 c0] v0] [= -> ->].
        apply Hcell. auto. }
    destruct Hshape as (H1 & H2 & H3).
    destruct r8 as [b|]; intros [= <- <- <-]; repeat split; auto;
      try apply H1; try discriminate.
    intros _. exists log8. repeat split; auto.
    intros Hno. exfalso. destruct (screenshot_path result) as [p|]; [|discriminate].
    rewrite (Hno p eq_refl) in Ews. discriminate.
  - destruct (update_cell_outcome w7 row_num 8 [])
      as [(w8 & E8 & G8 & I8)|(e & w8 & E8 & G8)]; rewrite E8.
    + intros [= <- <- <-].
      assert (I8w : inside w (row_num, 8, @nil char)) by (apply Hw7; exact I8).
      cbn [app]. split; [|split; [|split]].
      * rewrite !replay_cons. cbn [fst snd replay fold_left].
        apply (same_grid_trans G8). apply same_grid_put.
        rewrite !replay_cons in G7w. exact G7w.
      * repeat (apply Forall_cons || apply Forall_nil); auto.
      * repeat (apply Forall_cons || apply Forall_nil); auto.
      * intros _. exists [(row_num, 8, [])]. split; [reflexivity|].
        split; [|reflexivity].
        apply Forall_cons; [reflexivity|apply Forall_nil].
    + destruct e as [msg|]; intros [= <- <- <-];
        (split; [exact (same_grid_trans G8 G7w)|]);
        (split; [exact Hin2|]); (split; [exact Hcell2|]); discriminate.
Qed.

(** Every return of [report_result], by the writes it made. *)
Lemma report_result_replay (env : Remote) (w : Worksheet) (test_case : Case)
  (result : Report) (r : option bool) (w' : Worksheet) (log : list write) :
  report_result format_0f env w test_case result = (r, w', log) ->
  same_grid w' (replay log w) /\
  Forall (inside w) log /\
  Forall (may_write test_case) log /\
  (r = Some true ->
   exists row_num before,
     row_number test_case = Some row_num /\
     row_written env result row_num (status_text env w row_num result)
       before log).
Proof.
  unfold report_result.
  assert (Hnone :
    forall b : option bool, b <> Some true ->
    (b, w, @nil write) = (r, w', log) ->
    same_grid w' (replay log w) /\ Forall (inside w) log /\
    Forall (may_write test_case) log /\
    (r = Some true ->
     exists row_num before,
       row_number test_case = Some row_num /\
       row_written env result row_num (status_text env w row_num result)
         before log)).
  { intros b Hb [= <- <- <-]. split; [apply same_grid_refl|].
    repeat split; auto. intros Hr. contradiction. }
  destruct (test_id test_case) as [id|]; [|apply Hnone; discriminate].
  destruct (access env) as [[[|] error]|[msg|]]; try (apply Hnone; discriminate).
  destruct (worksheet_found env) as [u|[msg|]]; try (apply Hnone; discriminate).
  clear Hnone.
  destruct (_ensure_result_columns w) as [[r0 w0] log0] eqn:E0.
  apply ensure_result_columns_replay in E0 as (G0 & Hpos0 & Hcell0).
  assert (Hheader : Forall (may_write test_case) log0).
  { eapply Forall_impl; [|exact Hcell0]. intros x Hx. left. exact Hx. }
  assert (Hstop :
    forall b : option bool, b <> Some true ->
    (b, w0, log0) = (r, w', log) ->
    same_grid w' (replay log w) /\ Forall (inside w) log /\
    Forall (may_write test_case) log /\
    (r = Some true ->
     exists row_num before,
       row_number test_case = Some row_num /\
       row_written env result row_num (status_text env w row_num result)
         before log)).
  { intros b Hb [= <- <- <-]. repeat split; auto; try apply G0.
    intros Hr. contradiction. }
  destruct r0 as [b0|]; [|apply Hstop; discriminate].
  destruct (row_number test_case) as [[|n]|] eqn:Ern;
    try (apply Hstop; discriminate).
  clear Hstop.
  destruct (report_row format_0f env w0 (S n) result)
    as [[r1 w1] log1] eqn:E1.
  apply report_row_replay in E1 as (G1 & Hpos1 & Hcell1 & Hok).
  assert (Hpos1w : Forall (inside w) log1).
  { eapply Forall_impl; [|exact Hpos1]. intros x Hx.
    apply (inside_same_grid G0) in Hx. apply inside_replay in Hx. exact Hx. }
  intros [= <- <- <-]. split; [|split; [|split]].
  - rewrite replay_app. apply (same_grid_trans G1).
    apply replay_same_grid. exact G0.
  - apply Forall_app. split; [exact Hpos0|exact Hpos1w].
  - apply Forall_app. split; [exact Hheader|].
    eapply Forall_impl; [|exact Hcell1]. intros x Hx. right. eauto.
  - intros Hr. destruct (Hok Hr) as (tail & -> & Htail & Hno).
    exists (S n), log0. split; [reflexivity|].
    assert (Hsame : status_text env w0 (S n) result
                    = status_text env w (S n) result).
    { unfold status_text. destruct (status_cell result); [reflexivity|].
      f_equal. rewrite (cell_same_grid (S n) 6 G0).
      apply cell_replay_frame with (w0 := w); try lia; [exact Hpos0|].
      eapply Forall_impl; [|exact Hcell0].
      intros [[r0 c0] v0] Hx [Hrow Hcol]. cbn [fst snd] in *.
      unfold result_cell in Hx. cbn [fst snd] in Hx.
      destruct Hx as [[_ [Hx|Hx]]|[Hx _]]; lia. }
    rewrite <- Hsame. exists tail. auto.
Qed.

(** X12.  [report_result] writes nowhere but in the two result headers
    of row 3 and in columns 6 to 8 of the row of the test case: every
    other cell of the worksheet reads afterwards as it did before, and
    the grid keeps its size, whatever the call returns. *)
Theorem report_result_frame (env : Remote) (w : Worksheet) (test_case : Case)
  (result : Report) (row col : nat) :
  1 <= row -> 1 <= col ->
  ~ (row = 3 /\ (col = 7 \/ col = 8)) ->
  ~ (row_number test_case = Some row /\ (col = 6 \/ col = 7 \/ col = 8)) ->
  let w' := snd (fst (report_result format_0f env w test_case result)) in
  cell w' row col = cell w row col /\
  row_count w' = row_count w /\ col_count w' = col_count w.
Proof.
  intros Hrow Hcol Hheader Hdata.
  destruct (report_result format_0f env w test_case result) as [[r w'] log] eqn:E.
  cbn [fst snd].
  apply report_result_replay in E as (G & Hpos & Hcells & _).
  split; [|destruct G as (_ & -> & ->); apply replay_grid].
  rewrite (cell_same_grid row col G).
  apply cell_replay_frame with (w0 := w); auto.
  rewrite Forall_forall in *. intros [[r0 c0] v0] Hx [Hr Hc].
  pose proof (inside_bounds (Hpos _ Hx)) as Hb.
  cbn [fst snd] in *. subst.
  destruct (Hcells _ Hx) as [Hc|(row_num & Hn & Hc)];
    unfold result_cell in Hc; cbn [fst snd] in Hc.
  - destruct Hc as [[-> Hc]|[-> Hc]]; [apply Hheader; auto|lia].
  - destruct Hc as [[-> Hc]|[-> Hc]]; [apply Hheader; auto|apply Hdata; auto].
Qed.

Lemma error_cell_length (error_message : option str) :
  List.length (error_cell error_message) <= 1015 /\
  (forall error_msg,
     error_message = Some error_msg -> List.length error_msg <= 1000 ->
     error_cell error_message = error_msg).
Proof.
  unfold error_cell. destruct error_message as [e|]; [|split; [simpl; lia|discriminate]].
  destruct e as [|c e]; [split; [simpl; lia|intros ? [= <-]; reflexivity]|].
  cbn [truthy].
  destruct (Nat.ltb_spec 1000 (List.length (c :: e))) as [Hlt|Hge].
  - split.
    + rewrite length_app. unfold slice_to. rewrite length_firstn.
      change (List.length (py"... (truncated)")) with 15. lia.
    + intros ? [= <-] H. lia.
  - split; [lia|]. intros ? [= <-] _. reflexivity.
Qed.

(** The three result cells of the row, after a success. *)
Lemma report_result_cells (env : Remote) (w : Worksheet) (test_case : Case)
  (result : Report) (w' : Worksheet) (log : list write) :
  report_result format_0f env w test_case result = (Some true, w', log) ->
  exists row_num,
    row_number test_case = Some row_num /\ 1 <= row_num <= row_count w /\
    cell w' row_num 6 = status_text env w row_num result /\
    cell w' row_num 7 = error_cell (error_message result) /\
    ((forall p, screenshot_path result = Some p ->
                truthy p && path_exists env = false) ->
     cell w' row_num 8 = []).
Proof.
  intros E.
  apply report_result_replay in E as (G & Hpos & _ & Hok).
  destruct (Hok eq_refl) as (row_num & before & Hn & tail & -> & Htail & Hno).
  exists row_num. split; [exact Hn|].
  apply Forall_app in Hpos as [_ Hpos]. apply Forall_app in Hpos as [Hpos2 Hpos3].
  inversion Hpos2 as [|? ? P6 Hpos2']; subst.
  apply inside_bounds in P6. cbn [fst snd] in P6.
  split; [lia|].
  rewrite !(cell_same_grid row_num _ G).
  rewrite !replay_app. rewrite !replay_cons. cbn [fst snd].
  set (w0 := replay before w).
  set (status6 := status_text env w row_num result).
  assert (H6 : cell (replay tail
                      (put (put w0 row_num 6 status6) row_num 7
                         (error_cell (error_message result)))) row_num 6
               = status6).
  { rewrite cell_replay_frame with (w0 := w); auto; try lia.
    - rewrite !cell_put. rewrite !Nat.eqb_refl. cbn [Nat.sub Nat.eqb andb].
      reflexivity.
    - eapply Forall_impl; [|exact Htail]. intros [[r0 c0] v0] [= -> ->] [_ H].
      cbn [fst snd] in H. discriminate. }
  assert (H7 : cell (replay tail
                      (put (put w0 row_num 6 status6) row_num 7
                         (error_cell (error_message result)))) row_num 7
               = error_cell (error_message result)).
  { rewrite cell_replay_frame with (w0 := w); auto; try lia.
    - rewrite cell_put. rewrite !Nat.eqb_refl. reflexivity.
    - eapply Forall_impl; [|exact Htail]. intros [[r0 c0] v0] [= -> ->] [_ H].
      cbn [fst snd] in H. discriminate. }
  split; [exact H6|]. split; [exact H7|].
  intros Hnone. rewrite (Hno Hnone). rewrite replay_cons. cbn [fst snd replay fold_left].
  rewrite cell_put, !Nat.eqb_refl. reflexivity.
Qed.

(** X13.  When [report_result] returns [True], the test case had a row
    number inside the grid, and the row then holds in column 6 the
    status of the result: the text under [status] when the result
    holds one, ['UNKNOWN'] when the result has no such key, and, when
    the key holds [None], what the service makes of [None] written
    over the text the cell had.  Column 7 holds the error text: the
    message as it is when it has at most 1000 characters, otherwise
    its first 1000 characters followed by a marker, and the empty text
    when there is no message.  The text of column 7 never exceeds 1015
    characters. *)
Theorem report_result_written (env : Remote) (w : Worksheet) (test_case : Case)
  (result : Report) (w' : Worksheet) (log : list write) :
  report_result format_0f env w test_case result = (Some true, w', log) ->
  exists row_num,
    row_number test_case = Some row_num /\ 1 <= row_num <= row_count w /\
    cell w' row_num 6
    = match status result with
      | Some (Some s) => s
      | Some None => none_cell env (cell w row_num 6)
      | None => py"UNKNOWN"
      end /\
    cell w' row_num 7
    = match error_message result with
      | Some error_msg =>
          if 1000 <? List.length error_msg
          then firstn 1000 error_msg ++ py"... (truncated)"
          else error_msg
      | None => []
      end /\
    List.length (cell w' row_num 7) <= 1015.
Proof.
  intros E.
  apply report_result_cells in E as (row_num & Hn & Hrow & H6 & H7 & _).
  exists row_num. split; [exact Hn|]. split; [exact Hrow|]. split; [|split].
  - rewrite H6. unfold status_text, status_cell.
    destruct (status result) as [[s|]|]; reflexivity.
  - rewrite H7. unfold error_cell.
    destruct (error_message result) as [[|c e]|]; reflexivity.
  - rewrite H7. apply error_cell_length.
Qed.

Lemma batch_loop_counts (test_results : list (Remote * Case * Report)) :
  forall w success_count fail_count s f w',
    batch_loop format_0f w test_results success_count fail_count
    = (Some (s, f), w') ->
    (s + f = success_count + fail_count + Z.of_nat (List.length test_results))%Z /\
    (success_count <= s)%Z /\ (fail_count <= f)%Z.
Proof.
  induction test_results as [|[[env tc] res] rest IH];
    intros w sc fc s f w' H.
  - injection H as <- <- <-. simpl. repeat split; lia.
  - cbn [batch_loop] in H.
    destruct (report_result format_0f env w tc res) as [[r w1] log] eqn:E.
    destruct r as [[|]|]; [| |discriminate];
      apply IH in H as (H1 & H2 & H3);
      cbn [List.length]; repeat split; lia.
Qed.

(** X14.  When [batch_report_results] returns, the two counts it gives
    are not negative and add up to the number of results it was given:
    every result is counted once, as reported or as failed. *)
Theorem batch_report_results_counts (w : Worksheet)
  (test_results : list (Remote * Case * Report))
  (success_count fail_count : Z) (w' : Worksheet) :
  batch_report_results format_0f w test_results
  = (Some (success_count, fail_count), w') ->
  (success_count + fail_count = Z.of_nat (List.length test_results))%Z /\
  (0 <= success_count)%Z /\ (0 <= fail_count)%Z.
Proof.
  unfold batch_report_results. intros H.
  apply batch_loop_counts in H as (H1 & H2 & H3). repeat split; lia.
Qed.

Lemma clearing_In (start_row end_row row col : nat) :
  start_row <= row <= end_row -> col = 6 \/ col = 7 \/ col = 8 ->
  In (row, col, []) (clearing start_row end_row).
Proof.
  intros Hrow Hcol. unfold clearing. apply in_flat_map. exists row. split.
  - apply in_seq. lia.
  - cbn [In]. destruct Hcol as [->|[->| ->]]; auto.
Qed.

Lemma clearing_empty (start_row end_row : nat) :
  Forall (fun x : write => snd x = []) (clearing start_row end_row).
Proof.
  unfold clearing. apply Forall_flat_map. apply Forall_forall. intros row _.
  repeat constructor.
Qed.

(** X15.  When [clear_results] returns [True], every row from
    [start_row] to [end_row] lies inside the grid, and each of its
    cells in columns 6 to 8 reads as empty. *)
Theorem clear_results_clears (env : Remote) (w : Worksheet)
  (start_row end_row : nat) (w' : Worksheet) (log : list write)
  (row col : nat) :
  clear_results env w start_row end_row = (Some true, w', log) ->
  start_row <= row <= end_row ->
  col = 6 \/ col = 7 \/ col = 8 ->
  cell w' row col = [] /\ 1 <= row <= row_count w.
Proof.
  unfold clear_results. intros H Hrow Hcol.
  destruct (access env) as [[[|] error]|[msg|]]; try discriminate.
  destruct (worksheet_found env) as [u|[msg|]]; try discriminate.
  destruct (_ensure_result_columns w) as [[r0 w0] log0] eqn:E0.
  apply ensure_result_columns_replay in E0 as (G0 & Hpos0 & _).
  destruct r0 as [b0|]; [|discriminate].
  destruct (apply_updates w0 log0 (clearing start_row end_row))
    as [[r1 w1] log1] eqn:E1.
  apply apply_updates_replay in E1 as (applied & rest & Hups & -> & G1 & Hpos & Hret).
  destruct r1 as [[]|[msg|]]; try discriminate. injection H as <- <-.
  rewrite (Hret eq_refl), app_nil_r in Hups. subst applied.
  pose proof (@clearing_In start_row end_row row col Hrow Hcol) as Hin.
  assert (Hp : inside w (row, col, @nil char)).
  { rewrite Forall_forall in Hpos. apply (inside_replay log0 w).
    apply (inside_same_grid G0). apply (Hpos _ Hin). }
  apply inside_bounds in Hp. cbn [fst snd] in Hp.
  split; [|lia].
  rewrite (cell_same_grid row col G1).
  apply cell_replay_const with (w0 := w0); auto using clearing_empty.
  right. repeat split; auto; lia.
Qed.

End ReportingFacts.

Lemma report_result_frame_witness :
  let w' := snd (fst (Reporting.report_result format_0f_dots quiet_remote
                        fresh_sheet tc001_case failed_report)) in
  Reporting.cell w' 4 1 = py"TC001" /\
  ResultReporter.row_count w' = 100 /\ ResultReporter.col_count w' = 26.
Proof.
  refine (@report_result_frame format_0f_dots quiet_remote fresh_sheet tc001_case
            failed_report 4 1 _ _ _ _).
  - lia.
  - lia.
  - intros [H _]. discriminate.
  - intros [_ [H|[H|H]]]; discriminate.
Defined.

Lemma report_result_written_witness :
  let x := Reporting.report_result format_0f_dots quiet_remote fresh_sheet
             tc001_case failed_report in
  exists row_num,
    Reporting.row_number tc001_case = Some row_num /\
    1 <= row_num <= ResultReporter.row_count fresh_sheet /\
    Reporting.cell (snd (fst x)) row_num 6 = py"FAIL" /\
    Reporting.cell (snd (fst x)) row_num 7 = py"Test assertions failed" /\
    List.length (Reporting.cell (snd (fst x)) row_num 7) <= 1015.
Proof.
  cbv zeta.
  apply (@report_result_written format_0f_dots quiet_remote fresh_sheet tc001_case
           failed_report _
           (snd (Reporting.report_result format_0f_dots quiet_remote fresh_sheet
                   tc001_case failed_report))).
  vm_compute. reflexivity.
Defined.

Lemma batch_report_results_counts_witness :
  let batch := [ (quiet_remote, tc001_case, failed_report);
                 (quiet_remote, Reporting.mkCase (Some (py"TC002")) None,
                  passed_report);
                 (quiet_remote, Reporting.mkCase (Some (py"TC003")) (Some 6),
                  passed_report) ] in
  fst (Reporting.batch_report_results format_0f_dots fresh_sheet batch)
  = Some (2, 1)%Z /\
  ((2 + 1 = Z.of_nat (List.length batch))%Z /\ (0 <= 2)%Z /\ (0 <= 1)%Z).
Proof.
  cbv zeta. split; [vm_compute; reflexivity|].
  apply (@batch_report_results_counts format_0f_dots fresh_sheet
           [ (quiet_remote, tc001_case, failed_report);
             (quiet_remote, Reporting.mkCase (Some (py"TC002")) None, passed_report);
             (quiet_remote, Reporting.mkCase (Some (py"TC003")) (Some 6),
              passed_report) ]
           2%Z 1%Z
           (snd (Reporting.batch_report_results format_0f_dots fresh_sheet
                   [ (quiet_remote, tc001_case, failed_report);
                     (quiet_remote, Reporting.mkCase (Some (py"TC002")) None,
                      passed_report);
                     (quiet_remote, Reporting.mkCase (Some (py"TC003")) (Some 6),
                      passed_report) ]))).
  vm_compute. reflexivity.
Defined.

Lemma clear_results_clears_witness :
  let x := Reporting.clear_results quiet_remote fresh_sheet 4 6 in
  Reporting.cell (snd (fst x)) 5 7 = [] /\
  1 <= 5 <= ResultReporter.row_count fresh_sheet.
Proof.
  cbv zeta.
  apply (@clear_results_clears quiet_remote fresh_sheet 4 6 _
           (snd (Reporting.clear_results quiet_remote fresh_sheet 4 6)) 5 7).
  - vm_compute. reflexivity.
  - lia.
  - right. left. reflexivity.
Defined.

(** ** The runner *)

Section RunnerInvariants.
Import Py PlaywrightRunner.

Variable lower : str -> str.
Variable w : World.

Lemma pass_is_not_fail : py"PASS" <> py"FAIL".
Proof. intros H. vm_compute in H. discriminate. Qed.

Lemma execute_test_code_shape (test_id code_file : str)
  (success : bool) (error screenshot_path : option str) :
  execute_test_code lower w test_id code_file
  = Ret (success, error, screenshot_path) ->
  (success = true /\ error = None /\ screenshot_path = None /\
   file_exists w = true /\ load_module w = Ret true /\
   run_test w = Returned true) \/
  (success = false /\ error <> None /\
   (screenshot_path <> None ->
    file_exists w = true /\ load_module w = Ret true)).
Proof.
  unfold execute_test_code, _capture_screenshot.
  destruct (file_exists w); cbn [negb].
  2:{ intros [= <- <- <-]. right. repeat split; congruence. }
  destruct (load_module w) as [[|]|[msg|]]; cbn [negb].
  - destruct (run_test w) as [[|]| |[msg|]].
    + intros [= <- <- <-]. left. auto 10.
    + destruct (page_screenshot w test_id (py"assertion_failed")) as [u|[m|]];
        intros [= <- <- <-]; right; repeat split; congruence.
    + destruct (page_screenshot w test_id (py"timeout")) as [u|[m|]];
        intros [= <- <- <-]; right; repeat split; congruence.
    + destruct (page_screenshot w test_id (py"error")) as [u|[m|]];
        intros [= <- <- <-]; right; repeat split; congruence.
    + discriminate.
  - intros [= <- <- <-]. right. repeat split; congruence.
  - intros [= <- <- <-]. right. repeat split; congruence.
  - discriminate.
Qed.

(** Every result of [run_single_test], by its status. *)
Lemma run_single_test_cases
  (browser : bool) (test_id code_file : str) (r : Result) :
  run_single_test lower w browser test_id code_file = Some r ->
  PlaywrightRunner.test_id r = test_id /\
  execution_time r = Float (elapsed w) /\
  ((status r = py"PASS" /\ error_message r = None /\ screenshot_path r = None /\
    run_test w = Returned true) \/
   (status r = py"FAIL" /\ error_message r <> None)).
Proof.
  unfold run_single_test, try_block, execute_step.
  destruct (execute_test_code lower w test_id code_file)
    as [[[success error] shot]|[msg|]] eqn:E.
  - apply execute_test_code_shape in E
      as [(-> & -> & -> & _ & _ & Hrun)|(-> & Herr & _)];
      destruct browser; cbn [negb];
      try (destruct (start_browser w) as [[[|] e1]|[m1|]]; cbn [negb]);
      try (destruct (login w) as [[[|] e2]|[m2|]]; cbn [negb]);
      try (destruct (_capture_screenshot w test_id (py"login_failed"))
             as [p3|[m3|]]);
      try discriminate; intros [= <-]; cbn;
      (split; [reflexivity|split; [reflexivity|]]);
      try (left; repeat split; auto; fail);
      right; split; try reflexivity; try discriminate; assumption.
  - destruct browser; cbn [negb];
      try (destruct (start_browser w) as [[[|] e1]|[m1|]]; cbn [negb]);
      try (destruct (login w) as [[[|] e2]|[m2|]]; cbn [negb]);
      try (destruct (_capture_screenshot w test_id (py"login_failed"))
             as [p3|[m3|]]);
      try discriminate; intros [= <-]; cbn;
      (split; [reflexivity|split; [reflexivity|]]);
      right; split; try reflexivity; discriminate.
  - destruct browser; cbn [negb];
      try (destruct (start_browser w) as [[[|] e1]|[m1|]]; cbn [negb]);
      try (destruct (login w) as [[[|] e2]|[m2|]]; cbn [negb]);
      try (destruct (_capture_screenshot w test_id (py"login_failed"))
             as [p3|[m3|]]);
      try discriminate; intros [= <-]; cbn;
      (split; [reflexivity|split; [reflexivity|]]);
      right; split; try reflexivity; discriminate.
Qed.

(** X16.  A result of [run_single_test] keeps the test id it was
    called with and carries the elapsed time.  Its status is [PASS] or
    [FAIL]; it is [PASS] exactly when the result has no error message,
    which happens only when the test function returned a true value;
    and a result with a screenshot is a [FAIL]. *)
Theorem run_single_test_pass_iff_no_error
  (browser : bool) (test_id code_file : str) (r : Result) :
  run_single_test lower w browser test_id code_file = Some r ->
  PlaywrightRunner.test_id r = test_id /\
  execution_time r = Float (elapsed w) /\
  (status r = py"PASS" \/ status r = py"FAIL") /\
  (status r = py"PASS" <-> error_message r = None) /\
  (status r = py"PASS" -> run_test w = Returned true) /\
  (screenshot_path r <> None -> status r = py"FAIL").
Proof.
  intros H. apply run_single_test_cases in H as (Hid & Htime & Hcases).
  split; [exact Hid|]. split; [exact Htime|].
  destruct Hcases as [(Hs & He & Hp & Hrun)|(Hs & He)].
  - split; [left; exact Hs|]. split; [tauto|]. split; [auto|]. congruence.
  - assert (Hnp : status r <> py"PASS").
    { rewrite Hs. intros E. symmetry in E. exact (pass_is_not_fail E). }
    split; [right; exact Hs|]. split; [tauto|]. split; [tauto|]. auto.
Qed.

End RunnerInvariants.

Lemma run_single_test_pass_iff_no_error_witness :
  exists r,
    PlaywrightRunner.run_single_test Py.lower_ascii timeout_world false
      (py"TC001") (py"tests/generated/test_tc001.py") = Some r /\
    PlaywrightRunner.test_id r = py"TC001" /\
    PlaywrightRunner.status r = py"FAIL" /\
    PlaywrightRunner.error_message r = Some (py"Test execution timeout (120s)").
Proof.
  eexists. split; [vm_compute; reflexivity|].
  split; [|split; vm_compute; reflexivity].
  refine (proj1 (@run_single_test_pass_iff_no_error Py.lower_ascii
                   timeout_world false (py"TC001")
                   (py"tests/generated/test_tc001.py") _ _)).
  vm_compute. reflexivity.
Defined.

(** ** The login *)

Section LoginFacts.
Import Py Login.

Variable lower : str -> str.
Variable w : PlaywrightRunner.World.
Variable page : Page.
Variable TEST_USERNAME TEST_PASSWORD : str.

Lemma try_selectors_spec (make : str -> action) (selectors : list str) :
  forall tried ok tried',
    try_selectors page make selectors tried = (ok, tried') ->
    exists added,
      tried' = tried ++ added /\
      List.length added <= List.length selectors /\
      (ok = true ->
       exists before selector,
         added = before ++ [make selector] /\
         In selector selectors /\
         attempt page (tried ++ before) (make selector) = true).
Proof.
  induction selectors as [|selector rest IH]; intros tried ok tried' H.
  - injection H as <- <-. exists []. rewrite app_nil_r.
    repeat split; auto. discriminate.
  - cbn [try_selectors] in H.
    destruct (attempt page tried (make selector)) eqn:E.
    + injection H as <- <-. exists [make selector].
      split; [reflexivity|]. split; [simpl; lia|]. intros _.
      exists [], selector. rewrite app_nil_r. repeat split; auto. left. reflexivity.
    + apply IH in H as (added & -> & Hlen & Hok).
      exists (make selector :: added). rewrite <- app_assoc.
      split; [reflexivity|]. split; [simpl; lia|]. intros Ht.
      destruct (Hok Ht) as (before & sel & -> & Hin & Hat).
      exists (make selector :: before), sel. rewrite <- app_assoc in Hat.
      repeat split; auto. right. exact Hin.
Qed.

(** X17.  When [login] reports success it gives no error text, and
    either nothing was tried on the page, which was not a login page on
    arrival, or the page was one and is none after the click: a
    username field and a password field were filled, in that order,
    before the button was clicked, each through a selector of its list,
    and the click was the last thing tried.  When it reports failure it
    gives an error text.  It never tries more than ten selectors. *)
Theorem login_success_means_logged_in
  (ok : bool) (error : option str) (tried : list action) :
  login lower w page TEST_USERNAME TEST_PASSWORD = (Ret (ok, error), tried) ->
  (ok = true ->
   error = None /\
   ((tried = [] /\ contains (py"login") (lower (url_on_arrival page)) = false) \/
    (contains (py"login") (lower (url_on_arrival page)) = true /\
     contains (py"login") (lower (url_after page tried)) = false /\
     exists t1 u t2 p t3 b,
       tried = t1 ++ [Fill u TEST_USERNAME] ++ t2 ++ [Fill p TEST_PASSWORD]
               ++ t3 ++ [Click b] /\
       In u username_selectors /\ In p password_selectors /\
       In b login_button_selectors /\
       attempt page t1 (Fill u TEST_USERNAME) = true /\
       attempt page (t1 ++ [Fill u TEST_USERNAME] ++ t2)
         (Fill p TEST_PASSWORD) = true /\
       attempt page (t1 ++ [Fill u TEST_USERNAME] ++ t2
                     ++ [Fill p TEST_PASSWORD] ++ t3) (Click b) = true))) /\
  (ok = false -> error <> None) /\
  List.length tried <= 10.
Proof.
  unfold login.
  destruct (goto page) as [u0|[msg|]]; [| |discriminate].
  2:{ intros [= <- <- <-]. repeat split; try discriminate. simpl. lia. }
  destruct (contains (py"login") (lower (url_on_arrival page))) eqn:Earr;
    cbn [negb].
  2:{ intros [= <- <- <-]. repeat split; try discriminate; auto. simpl. lia. }
  destruct (try_selectors page (fun selector => Fill selector TEST_USERNAME)
              username_selectors []) as [ok1 tried1] eqn:E1.
  apply try_selectors_spec in E1 as (a1 & -> & Hl1 & Hok1).
  cbn [app] in *. change (List.length username_selectors) with 4 in Hl1.
  destruct ok1; cbn [negb].
  2:{ intros [= <- <- <-]. repeat split; try discriminate. lia. }
  destruct (try_selectors page (fun selector => Fill selector TEST_PASSWORD)
              password_selectors a1) as [ok2 tried2] eqn:E2.
  apply try_selectors_spec in E2 as (a2 & -> & Hl2 & Hok2).
  change (List.length password_selectors) with 3 in Hl2.
  destruct ok2; cbn [negb].
  2:{ intros [= <- <- <-]. repeat split; try discriminate.
      rewrite length_app. lia. }
  destruct (try_selectors page Click login_button_selectors (a1 ++ a2))
    as [ok3 tried3] eqn:E3.
  apply try_selectors_spec in E3 as (a3 & -> & Hl3 & Hok3).
  change (List.length login_button_selectors) with 3 in Hl3.
  assert (Hlen : List.length ((a1 ++ a2) ++ a3) <= 10)
    by (rewrite !length_app; lia).
  destruct ok3; cbn [negb].
  2:{ intros [= <- <- <-]. repeat split; try discriminate. exact Hlen. }
  destruct (wait_for_load_state page ((a1 ++ a2) ++ a3)) as [u1|[msg|]];
    [| |discriminate].
  2:{ intros [= <- <- <-]. repeat split; try discriminate. exact Hlen. }
  destruct (contains (py"login") (lower (url_after page ((a1 ++ a2) ++ a3))))
    eqn:Eafter.
  { destruct (PlaywrightRunner._capture_screenshot w (py"LOGIN")
                (py"still_on_login_page")) as [shot|[msg|]];
      [| |discriminate];
      intros [= <- <- <-]; repeat split; try discriminate; exact Hlen. }
  intros [= <- <- <-]. split; [|split; [discriminate|exact Hlen]].
  intros _. split; [reflexivity|]. right.
  split; [reflexivity|]. split; [exact Eafter|].
  destruct (Hok1 eq_refl) as (t1 & u & -> & Hu & Hat1).
  destruct (Hok2 eq_refl) as (t2 & p & -> & Hp & Hat2).
  destruct (Hok3 eq_refl) as (t3 & b & -> & Hb & Hat3).
  cbn [app] in Hat1.
  exists t1, u, t2, p, t3, b.
  rewrite <- !app_assoc in *. cbn [app] in *.
  repeat split; auto.
Qed.

End LoginFacts.

Lemma login_success_means_logged_in_witness :
  Login.login Py.lower_ascii timeout_world login_page (py"qa") (py"secret")
  = (Ret (true, None), login_attempts) /\
  List.length login_attempts <= 10.
Proof.
  assert (H : Login.login Py.lower_ascii timeout_world login_page (py"qa")
                (py"secret") = (Ret (true, None), login_attempts))
    by (vm_compute; reflexivity).
  split; [exact H|].
  exact (proj2 (proj2 (@login_success_means_logged_in Py.lower_ascii
                         timeout_world login_page (py"qa") (py"secret")
                         true None login_attempts H))).
Defined.
(** ** Markdown fences *)

Section FenceFacts.
Import Py CodeGeneration.

Lemma blank_rev (ws : str) : blank ws -> blank (rev ws).
Proof.
  unfold blank. rewrite !forallb_forall. intros H c Hc. apply H.
  apply in_rev. exact Hc.
Qed.

Lemma lstrip_blank_app (ws s : str) : blank ws -> lstrip (ws ++ s) = lstrip s.
Proof. intros H. rewrite lstrip_app, (lstrip_blank _ H). reflexivity. Qed.

Lemma rstrip_app_blank (s ws : str) : blank ws -> rstrip (s ++ ws) = rstrip s.
Proof.
  intros H. unfold rstrip. rewrite rev_app_distr.
  rewrite lstrip_blank_app by (apply blank_rev; exact H). reflexivity.
Qed.

Lemma lstrip_nonspace (c : char) (s : str) :
  isspace c = false -> lstrip (c :: s) = c :: s.
Proof. intros H. simpl. rewrite H. reflexivity. Qed.

Lemma rstrip_app_nonspace (s : str) (c : char) :
  isspace c = false -> rstrip (s ++ [c]) = s ++ [c].
Proof.
  intros H. unfold rstrip. rewrite rev_app_distr. cbn [rev app].
  rewrite lstrip_nonspace by exact H. cbn [rev]. rewrite rev_involutive.
  reflexivity.
Qed.

(** A trimmed text that is not empty starts with a character that is
    not white space, and neither [lstrip] nor [rstrip] changes it. *)
Lemma trimmed_inv (s : str) :
  trimmed s -> s <> [] ->
  exists c r, s = c :: r /\ isspace c = false /\ lstrip s = s /\ rstrip s = s.
Proof.
  unfold trimmed. intros Ht Hne.
  destruct (strip_head s) as [H|(c & r & H & Hc)]; rewrite Ht in H; [contradiction|].
  exists c, r. split; [exact H|]. split; [exact Hc|].
  assert (Hl : lstrip s = s) by (rewrite H; apply lstrip_nonspace; exact Hc).
  split; [exact Hl|]. unfold strip in Ht. rewrite Hl in Ht. exact Ht.
Qed.

Lemma strip_between_blanks (pre s post : str) :
  blank pre -> blank post -> lstrip s = s -> rstrip s = s ->
  strip (pre ++ s ++ post) = s.
Proof.
  intros Hpre Hpost Hl Hr. unfold strip.
  rewrite lstrip_blank_app by exact Hpre.
  rewrite lstrip_app, Hl.
  destruct s as [|x s'].
  - cbn [app]. rewrite (lstrip_blank _ Hpost). reflexivity.
  - rewrite rstrip_app_blank by exact Hpost. exact Hr.
Qed.

Lemma firstn_length_app (A : Type) (a b : list A) :
  firstn (List.length (a ++ b) - List.length b) (a ++ b) = a.
Proof.
  rewrite length_app. replace (List.length a + List.length b - List.length b)
    with (List.length a) by lia.
  rewrite firstn_app, Nat.sub_diag, firstn_all. cbn [firstn]. apply app_nil_r.
Qed.

Lemma endswith_app (s p : str) : endswith (s ++ p) p = true.
Proof. unfold endswith. rewrite rev_app_distr. apply startswith_refl_app. Qed.

(** What is left of a fenced text once the opening fence is gone: the
    closing fence is found and removed, and the white space before it
    goes with it. *)
Lemma closing_fence (ws1 text ws2 : str) :
  blank ws1 -> blank ws2 -> trimmed text -> text <> [] ->
  let rest := text ++ ws2 ++ py"```" in
  strip (ws1 ++ rest) = rest /\
  endswith rest (py"```") = true /\
  strip (slice_to (List.length rest - 3) rest) = text.
Proof.
  intros H1 H2 Ht Hne.
  destruct (trimmed_inv Ht Hne) as (c & r & -> & Hc & Hl & Hr).
  cbv zeta. split; [|split].
  - assert (HS : lstrip ((c :: r) ++ ws2 ++ py"```") = (c :: r) ++ ws2 ++ py"```" ->
                 rstrip ((c :: r) ++ ws2 ++ py"```") = (c :: r) ++ ws2 ++ py"```" ->
                 strip (ws1 ++ ((c :: r) ++ ws2 ++ py"```") ++ [])
                 = (c :: r) ++ ws2 ++ py"```")
      by (apply strip_between_blanks; [exact H1|reflexivity]).
    rewrite app_nil_r in HS. apply HS.
    + cbn [app]. apply lstrip_nonspace. exact Hc.
    + change (py"```") with ([96; 96]%N ++ [96%N]).
      rewrite !app_assoc. apply rstrip_app_nonspace. reflexivity.
  - rewrite app_assoc. apply endswith_app.
  - rewrite app_assoc. unfold slice_to.
    change 3 with (List.length (py"```")). rewrite firstn_length_app.
    apply (@strip_between_blanks [] (c :: r) ws2); auto. reflexivity.
Qed.

(** X18.  [generate_code] unwraps a fenced answer: when the answer,
    white space around it apart, is a fence opened by three backquotes,
    with or without the [python] tag, white space, a text, optional
    white space and a closing fence, the code kept is that text;
    provided the text is not empty, has no white space at either end
    and does not begin with a backquote. *)
Theorem clean_code_unwraps (pre ws1 text ws2 post : str) (python : bool) :
  blank pre -> blank post -> blank ws1 -> ws1 <> [] -> blank ws2 ->
  trimmed text -> hd 96%N text <> 96%N -> text <> [] ->
  clean_code
    (pre ++ (py"```" ++ (if python then py"python" else []) ++ ws1
             ++ text ++ ws2 ++ py"```") ++ post)
  = text.
Proof.
  intros Hpre Hpost H1 Hne1 H2 Ht Hq Hne.
  destruct (closing_fence H1 H2 Ht Hne) as (Hstrip & Hends & Hslice).
  destruct (trimmed_inv Ht Hne) as (c & r & Hcr & Hc & _ & _).
  unfold clean_code.
  assert (Hfirst :
    strip (pre ++ (py"```" ++ (if python then py"python" else []) ++ ws1
                   ++ text ++ ws2 ++ py"```") ++ post)
    = py"```" ++ (if python then py"python" else []) ++ ws1
      ++ text ++ ws2 ++ py"```").
  { apply strip_between_blanks; auto; try reflexivity.
    replace (py"```" ++ (if python then py"python" else []) ++ ws1
             ++ text ++ ws2 ++ py"```")
      with ((py"```" ++ (if python then py"python" else []) ++ ws1
             ++ text ++ ws2 ++ [96; 96]%N) ++ [96%N])
      by (rewrite <- !app_assoc; reflexivity).
    apply rstrip_app_nonspace. reflexivity. }
  rewrite Hfirst. clear Hfirst.
  assert (Hnotick : startswith (text ++ ws2 ++ py"```") (py"```") = false).
  { rewrite Hcr in *. cbn [hd] in Hq. cbn [app].
    change (py"```") with [96; 96; 96]%N. cbn [startswith]. unfold char_eqb.
    destruct (N.eqb_spec 96 c) as [E|_]; [congruence|reflexivity]. }
  destruct ws1 as [|s1 ws1']; [contradiction|].
  assert (Hs1 : isspace s1 = true).
  { unfold blank in H1. cbn [forallb] in H1. apply andb_true_iff in H1. tauto. }
  destruct python.
  - change (startswith (py"```" ++ py"python" ++ (s1 :: ws1') ++ text ++ ws2 ++ py"```")
              (py"```python"))
      with (startswith (py"```python" ++ (s1 :: ws1') ++ text ++ ws2 ++ py"```")
              (py"```python")).
    rewrite startswith_refl_app.
    change (slice_from 9 (py"```" ++ py"python" ++ (s1 :: ws1') ++ text ++ ws2 ++ py"```"))
      with ((s1 :: ws1') ++ text ++ ws2 ++ py"```").
    rewrite Hstrip, Hnotick, Hends. exact Hslice.
  - change ([] ++ (s1 :: ws1') ++ text ++ ws2 ++ py"```")
      with ((s1 :: ws1') ++ text ++ ws2 ++ py"```").
    assert (Hnopy :
      startswith (py"```" ++ (s1 :: ws1') ++ text ++ ws2 ++ py"```") (py"```python")
      = false).
    { change (py"```python") with ([96; 96; 96]%N ++ 112%N :: py"ython").
      change (py"```") with [96; 96; 96]%N. cbn [app startswith]. unfold char_eqb.
      rewrite !N.eqb_refl. cbn [andb].
      destruct (N.eqb_spec 112 s1) as [E|_]; [|reflexivity].
      subst s1. discriminate Hs1. }
    rewrite Hnopy. rewrite startswith_refl_app.
    change (slice_from 3 (py"```" ++ (s1 :: ws1') ++ text ++ ws2 ++ py"```"))
      with ((s1 :: ws1') ++ text ++ ws2 ++ py"```").
    rewrite Hstrip, Hends. exact Hslice.
Qed.

End FenceFacts.

Lemma clean_code_unwraps_witness :
  CodeGeneration.clean_code
    ([32%N] ++ (py"```" ++ py"python" ++ [10%N]
                ++ py"async def test_tc001(page: Page):" ++ [10%N] ++ py"```")
     ++ [10%N])
  = py"async def test_tc001(page: Page):".
Proof.
  apply (@clean_code_unwraps [32%N] [10%N] (py"async def test_tc001(page: Page):")
           [10%N] [10%N] true);
    try reflexivity; try (intros H; discriminate H).
Defined.
(** ** Code generation *)

Section CodeGenerationFacts.
Import Py URLManager CodeGenerator CodeGeneration.

Variable lower : str -> str.
Variable repr_map : list (str * yaml) -> str.
Variable attribute_error : yaml -> str -> str.
Variable dumps_urls : list (str * str) -> str.
Variable dumps_locators : yaml -> outcome str.
Variable locators : yaml.
Variable url_manager : URLManager.t.
Variable client : list prompt -> prompt -> outcome (option str).

#[local] Abbreviation prepare_ :=
  (prepare lower repr_map attribute_error dumps_urls dumps_locators locators
     url_manager).
#[local] Abbreviation generate_code_ :=
  (generate_code lower repr_map attribute_error dumps_urls dumps_locators locators
     url_manager client).
#[local] Abbreviation generate_batch_ :=
  (generate_batch lower repr_map attribute_error dumps_urls dumps_locators locators
     url_manager client).
#[local] Abbreviation batch_loop_ :=
  (batch_loop lower repr_map attribute_error dumps_urls dumps_locators locators
     url_manager client).

(** The fields of a test case the prompt is made of. *)
Lemma prepare_reads_fields (test_case : test_case_dict) (p : prompt) :
  prepare_ test_case = Ret p ->
  getitem test_case (py"test_id") = Ret (p_test_id p) /\
  getitem test_case (py"description") = Ret (p_description p) /\
  getitem test_case (py"steps") = Ret (p_steps p) /\
  getitem test_case (py"expected_result") = Ret (p_expected_result p) /\
  getitem test_case (py"priority") = Ret (p_priority p) /\
  p_function_name p = py"test_" ++ lower (p_test_id p) /\
  p_module p = _detect_module lower test_case.
Proof.
  unfold prepare, _create_prompt, and_then.
  destruct (getitem test_case (py"test_id")) as [test_id|]; [|discriminate].
  destruct (getitem test_case (py"description")) as [description|]; [|discriminate].
  destruct (locator_bundle _ _ _) as [bundle|]; [|discriminate].
  destruct (truthy (_detect_module lower test_case)) eqn:Em.
  2:{ exfalso. revert Em. unfold _detect_module.
      repeat match goal with
             | |- context [if ?b then _ else _] => destruct b
             end; discriminate. }
  destruct (urls_of _ _ _ _) as [module_urls|]; [|discriminate].
  destruct (getitem test_case (py"steps")) as [steps|]; [|discriminate].
  destruct (getitem test_case (py"expected_result")) as [expected|]; [|discriminate].
  destruct (getitem test_case (py"priority")) as [priority|]; [|discriminate].
  destruct (dumps_locators bundle) as [text|]; [|discriminate].
  intros [= <-]. cbn. auto 10.
Qed.

(** Every return of [generate_code]. *)
Lemma generate_code_cases (test_case : test_case_dict) (sent sent' : list prompt)
  (ok : bool) (generated_code error_message : option str) :
  generate_code_ test_case sent = (Some (ok, generated_code, error_message), sent') ->
  (ok = true /\
   exists p content,
     prepare_ test_case = Ret p /\
     sent' = sent ++ [p] /\
     client sent p = Ret (Some content) /\
     generated_code = Some (clean_code content) /\
     error_message = None) \/
  (ok = false /\
   generated_code = None /\
   (exists msg, error_message = Some (py"Error generating code: " ++ msg)) /\
   (sent' = sent \/ exists p, sent' = sent ++ [p])).
Proof.
  unfold generate_code.
  destruct (prepare_ test_case) as [p|[msg|]] eqn:Ep.
  - destruct (client sent p) as [[content|]|[msg|]] eqn:Ec;
      try discriminate; intros [= <- <- <- <-].
    + left. split; [reflexivity|]. exists p, content. auto.
    + right. split; [reflexivity|]. split; [reflexivity|].
      split; [eexists; reflexivity|eauto].
    + right. split; [reflexivity|]. split; [reflexivity|].
      split; [eexists; reflexivity|eauto].
  - intros [= <- <- <- <-]. right. split; [reflexivity|]. split; [reflexivity|].
    split; [eexists; reflexivity|eauto].
  - discriminate.
Qed.

(** X19.  Every return of [generate_code] is a success that carries
    code and no error, or a failure that carries no code and an error
    text that begins with [Error generating code: ].  A success has
    sent exactly one request, built from the five fields of the test
    case, and its code is the answer with the fence removed; a failure
    has sent at most one. *)
Theorem generate_code_outcome (test_case : test_case_dict) (sent sent' : list prompt)
  (ok : bool) (generated_code error_message : option str) :
  generate_code_ test_case sent = (Some (ok, generated_code, error_message), sent') ->
  (ok = true ->
   exists p content,
     sent' = sent ++ [p] /\
     client sent p = Ret (Some content) /\
     generated_code = Some (clean_code content) /\
     error_message = None /\
     getitem test_case (py"test_id") = Ret (p_test_id p) /\
     getitem test_case (py"description") = Ret (p_description p) /\
     getitem test_case (py"steps") = Ret (p_steps p) /\
     getitem test_case (py"expected_result") = Ret (p_expected_result p) /\
     getitem test_case (py"priority") = Ret (p_priority p)) /\
  (ok = false ->
   generated_code = None /\
   (exists msg, error_message = Some (py"Error generating code: " ++ msg)) /\
   (sent' = sent \/ exists p, sent' = sent ++ [p])).
Proof.
  intros H.
  apply generate_code_cases in H
    as [(-> & p & content & Ep & Hs & Hc & Hg & He)|(-> & Hfail)].
  - split; [|discriminate]. intros _.
    apply prepare_reads_fields in Ep as (H1 & H2 & H3 & H4 & H5 & _).
    exists p, content. auto 10.
  - split; [discriminate|]. intros _. exact Hfail.
Qed.

Lemma getitem_raises (test_case : test_case_dict) (key : str) (e : raised) :
  getitem test_case key = Raise e -> exists msg, e = Exception msg.
Proof.
  induction test_case as [|[k v] rest IH]; cbn [getitem].
  - intros [= <-]. eauto.
  - destruct (eqb k key); [discriminate|exact IH].
Qed.

(** X20.  A test case that lacks one of the keys [test_id],
    [description], [steps], [expected_result] or [priority] never
    reaches the model service: [generate_code] returns a failure and
    sends nothing. *)
Theorem generate_code_needs_all_fields (test_case : test_case_dict) (key : str)
  (e : raised) (sent : list prompt) :
  In key [py"test_id"; py"description"; py"steps"; py"expected_result";
          py"priority"] ->
  getitem test_case key = Raise e ->
  exists msg,
    generate_code_ test_case sent
    = (Some (false, None, Some (py"Error generating code: " ++ msg)), sent).
Proof.
  intros Hkey Hraise. unfold generate_code.
  assert (Hprep : exists msg, prepare_ test_case = Raise (Exception msg)).
  { unfold prepare, _create_prompt, and_then.
    destruct (getitem test_case (py"test_id")) as [test_id|e1] eqn:E1.
    2:{ apply getitem_raises in E1 as (m & ->). eauto. }
    destruct (getitem test_case (py"description")) as [description|e2] eqn:E2.
    2:{ apply getitem_raises in E2 as (m & ->). eauto. }
    assert (Hbundle :
      forall module,
        (exists b, locator_bundle attribute_error locators module = Ret b) \/
        (exists m, locator_bundle attribute_error locators module
                   = Raise (Exception m))).
    { intros module. unfold locator_bundle, and_then, locators_of.
      destruct (LocatorManager.get_all locators (py"login")); [|eauto].
      destruct (LocatorManager.get_all locators (py"contract")); [|eauto].
      destruct (LocatorManager.get_all locators (py"common")); [|eauto].
      destruct (eqb module (py"lead")).
      - destruct (LocatorManager.get_all locators (py"lead")); eauto.
      - destruct (eqb module (py"product")); [|eauto].
        destruct (LocatorManager.get_all locators (py"product")); eauto. }
    destruct (Hbundle (_detect_module lower test_case)) as [(b & ->)|(m & ->)];
      [|eauto].
    destruct (if truthy (_detect_module lower test_case)
              then urls_of repr_map attribute_error url_manager
                     (_detect_module lower test_case)
              else Ret []) as [module_urls|e0] eqn:E0.
    2:{ destruct (truthy (_detect_module lower test_case)); [|discriminate].
        unfold urls_of in E0.
        destruct (URLPaths.get_all_urls repr_map url_manager
                    (_detect_module lower test_case)); [discriminate|].
        injection E0 as <-. eauto. }
    destruct (getitem test_case (py"steps")) as [steps|e3] eqn:E3.
    2:{ apply getitem_raises in E3 as (m & ->). eauto. }
    destruct (getitem test_case (py"expected_result")) as [expected|e4] eqn:E4.
    2:{ apply getitem_raises in E4 as (m & ->). eauto. }
    destruct (getitem test_case (py"priority")) as [priority|e5] eqn:E5.
    2:{ apply getitem_raises in E5 as (m & ->). eauto. }
    exfalso. cbn [In] in Hkey.
    destruct Hkey as [<-|[<-|[<-|[<-|[<-|[]]]]]]; congruence. }
  destruct Hprep as (msg & ->). eauto.
Qed.

Lemma batch_loop_spec (test_cases : list test_case_dict) :
  forall results success_count sent n results' sent',
    batch_loop_ test_cases results success_count sent
    = (Some (n, results'), sent') ->
    exists added,
      results' = results ++ added /\
      map test_case added = test_cases /\
      (n = success_count
           + Z.of_nat (List.length (filter success added)))%Z /\
      Forall (fun r => (success r = true -> code r <> None /\ error r = None) /\
                       (success r = false -> code r = None /\ error r <> None))
        added /\
      List.length sent' <= List.length sent + List.length added.
Proof.
  induction test_cases as [|tc rest IH];
    intros results sc sent n results' sent' H.
  - injection H as <- <- <-. exists []. rewrite app_nil_r.
    split; [reflexivity|]. split; [reflexivity|]. split; [simpl; lia|].
    split; [constructor|simpl; lia].
  - cbn [batch_loop] in H.
    destruct (getitem tc (py"test_id")) as [id|]; [|discriminate].
    destruct (generate_code_ tc sent) as [[[[ok c] e]|] sent1] eqn:E;
      [|discriminate].
    apply IH in H as (added & -> & Hmap & Hn & Hall & Hsent).
    exists ({| test_case := tc; success := ok; code := c; error := e |} :: added).
    rewrite <- app_assoc. split; [reflexivity|].
    split; [cbn [map test_case]; rewrite Hmap; reflexivity|].
    apply generate_code_cases in E
      as [(-> & p & content & _ & -> & _ & -> & ->)
         |(-> & -> & (msg & ->) & Hs)].
    + rewrite length_app in Hsent. cbn [List.length] in Hsent.
      split; [cbn [filter success List.length]; lia|].
      split; [|cbn [List.length]; lia].
      constructor; [|exact Hall]. cbn [success code error].
      split; [intros _; split; [discriminate|reflexivity]|discriminate].
    + assert (Hs1 : List.length sent1 <= List.length sent + 1).
      { destruct Hs as [->|(p & ->)]; [lia|rewrite length_app; simpl; lia]. }
      split; [cbn [filter success List.length]; lia|].
      split; [|cbn [List.length]; lia].
      constructor; [|exact Hall]. cbn [success code error].
      split; [discriminate|intros _; split; [reflexivity|discriminate]].
Qed.

(** X21.  When [generate_batch] returns, it has one result per test
    case of [test_cases[:max_count]], in their order; the count it
    gives is the number of results marked as successes, and at most one
    request was sent per result.  A result marked as a success carries
    code and no error, any other carries an error and no code.  For a
    [max_count] that is not negative, the number of results is the
    smaller of [max_count] and the number of test cases. *)
Theorem generate_batch_counts (test_cases : list test_case_dict) (max_count : Z)
  (sent sent' : list prompt) (success_count : Z) (results : list batch_result) :
  generate_batch_ test_cases max_count sent = (Some (success_count, results), sent') ->
  map test_case results = slice_to_int max_count test_cases /\
  success_count = Z.of_nat (List.length (filter success results)) /\
  (0 <= success_count <= Z.of_nat (List.length results))%Z /\
  Forall (fun r => (success r = true -> code r <> None /\ error r = None) /\
                   (success r = false -> code r = None /\ error r <> None))
    results /\
  List.length sent' <= List.length sent + List.length results /\
  ((0 <= max_count)%Z ->
   Z.of_nat (List.length results)
   = Z.min (Z.of_nat (List.length test_cases)) max_count).
Proof.
  unfold generate_batch. intros H.
  apply batch_loop_spec in H as (added & -> & Hmap & Hn & Hall & Hsent).
  cbn [app] in *. split; [exact Hmap|]. split; [lia|].
  split; [pose proof (filter_length_le success added); lia|].
  split; [exact Hall|]. split; [exact Hsent|].
  intros Hmax. rewrite <- (length_map test_case added), Hmap.
  unfold slice_to_int. destruct (Z.leb_spec 0 max_count); [|lia].
  rewrite length_firstn. lia.
Qed.

Lemma detect_module_truthy (test_case : test_case_dict) :
  truthy (_detect_module lower test_case) = true.
Proof.
  unfold _detect_module.
  repeat match goal with
         | |- context [if ?b then _ else _] => destruct b
         end; reflexivity.
Qed.

(** A test case of the reader prepares without a [KeyError] when the
    two managers hold mappings and the locators can be serialised. *)
Lemma prepare_of_test_case (tc : SheetReader.TestCase) :
  (exists entries, locators = YMap entries) ->
  (exists entries,
     urls url_manager = YMap entries /\
     forall v,
       dict_get (_detect_module lower (of_test_case tc)) entries = Some v ->
       exists actions, v = YMap actions) ->
  (forall v, exists text, dumps_locators v = Ret text) ->
  exists p, prepare_ (of_test_case tc) = Ret p.
Proof.
  intros (lentries & Hloc) (uentries & Hurls & Hmod) Hdumps.
  unfold prepare, _create_prompt.
  change (getitem (of_test_case tc) (py"test_id"))
    with (@Ret str (SheetReader.test_id tc)).
  change (getitem (of_test_case tc) (py"description"))
    with (@Ret str (SheetReader.description tc)).
  change (getitem (of_test_case tc) (py"steps"))
    with (@Ret str (SheetReader.steps tc)).
  change (getitem (of_test_case tc) (py"expected_result"))
    with (@Ret str (SheetReader.expected_result tc)).
  change (getitem (of_test_case tc) (py"priority"))
    with (@Ret str (SheetReader.priority tc)).
  cbn [and_then].
  rewrite detect_module_truthy.
  assert (Hbundle : exists b,
            locator_bundle attribute_error locators
              (_detect_module lower (of_test_case tc)) = Ret b).
  { unfold locator_bundle, locators_of, LocatorManager.get_all. rewrite Hloc.
    cbn [and_then].
    destruct (eqb _ (py"lead")); [cbn [and_then]; eauto|].
    destruct (eqb _ (py"product")); cbn [and_then]; eauto. }
  destruct Hbundle as (b & ->). cbn [and_then].
  assert (Hu : exists table,
            urls_of repr_map attribute_error url_manager
              (_detect_module lower (of_test_case tc)) = Ret table).
  { unfold urls_of, URLPaths.get_all_urls. rewrite Hurls.
    destruct (dict_get (_detect_module lower (of_test_case tc)) uentries)
      as [v|] eqn:E; [|eauto].
    destruct (Hmod v eq_refl) as (actions & ->). eauto. }
  destruct Hu as (table & ->). cbn [and_then].
  destruct (Hdumps b) as (text & ->). cbn [and_then]. eauto.
Qed.

(** X22.  A test case built by the sheet reader always reaches the
    model service: when the locator and URL managers hold mappings and
    the locators can be serialised, [generate_code] sends exactly one
    request for it, which carries the five fields of the row, the
    module detected for it and the function name [test_] followed by
    the lower-cased id. *)
Theorem reader_test_case_reaches_model (tc : SheetReader.TestCase)
  (sent : list prompt) :
  (exists entries, locators = YMap entries) ->
  (exists entries,
     urls url_manager = YMap entries /\
     forall v,
       dict_get (_detect_module lower (of_test_case tc)) entries = Some v ->
       exists actions, v = YMap actions) ->
  (forall v, exists text, dumps_locators v = Ret text) ->
  exists p,
    snd (generate_code_ (of_test_case tc) sent) = sent ++ [p] /\
    p_test_id p = SheetReader.test_id tc /\
    p_description p = SheetReader.description tc /\
    p_steps p = SheetReader.steps tc /\
    p_expected_result p = SheetReader.expected_result tc /\
    p_priority p = SheetReader.priority tc /\
    p_module p = _detect_module lower (of_test_case tc) /\
    p_function_name p = py"test_" ++ lower (SheetReader.test_id tc).
Proof.
  intros Hloc Hurls Hdumps.
  destruct (prepare_of_test_case tc Hloc Hurls Hdumps) as (p & Hp).
  exists p. split.
  - unfold generate_code. rewrite Hp.
    destruct (client sent p) as [[content|]|[msg|]]; reflexivity.
  - apply prepare_reads_fields in Hp as (H1 & H2 & H3 & H4 & H5 & H6 & H7).
    change (getitem (of_test_case tc) (py"test_id"))
      with (@Ret str (SheetReader.test_id tc)) in H1.
    change (getitem (of_test_case tc) (py"description"))
      with (@Ret str (SheetReader.description tc)) in H2.
    change (getitem (of_test_case tc) (py"steps"))
      with (@Ret str (SheetReader.steps tc)) in H3.
    change (getitem (of_test_case tc) (py"expected_result"))
      with (@Ret str (SheetReader.expected_result tc)) in H4.
    change (getitem (of_test_case tc) (py"priority"))
      with (@Ret str (SheetReader.priority tc)) in H5.
    injection H1 as H1. injection H2 as H2. injection H3 as H3.
    injection H4 as H4. injection H5 as H5.
    rewrite H6, <- H1. auto 10.
Qed.

End CodeGenerationFacts.

Lemma reader_test_case_reaches_model_witness :
  exists p,
    snd (run_generate_code full_case) = [] ++ [p] /\
    CodeGeneration.p_test_id p = py"TC001" /\
    CodeGeneration.p_module p = py"contract" /\
    CodeGeneration.p_function_name p = py"test_tc001".
Proof.
  destruct (@reader_test_case_reaches_model Py.lower_ascii repr_map_dots
              attribute_error_plain (fun _ => py"{...}") (fun _ => Ret (py"{...}"))
              sample_locators contract_urls (fun _ _ => Ret (Some fenced_code))
              (SheetReader.mkTestCase (py"TC001") (py"Open the contract list")
                 (py"1. Go to the list") (py"The list is shown") (py"High")
                 4 [] [] []) [])
    as (p & Hs & H1 & _ & _ & _ & _ & Hm & Hf).
  - eexists. reflexivity.
  - eexists. split; [reflexivity|]. vm_compute. intros v [= <-]. eauto.
  - intros v. eexists. reflexivity.
  - exists p. split; [exact Hs|]. split; [exact H1|]. split; [exact Hm|exact Hf].
Defined.

Lemma generate_code_outcome_witness :
  fst (run_generate_code full_case)
  = Some (true, Some (py"async def test_tc001(page: Page):"), None) /\
  exists p content,
    snd (run_generate_code full_case) = [] ++ [p] /\
    Some (py"async def test_tc001(page: Page):")
    = Some (CodeGeneration.clean_code content) /\
    CodeGeneration.getitem full_case (py"test_id")
    = Ret (CodeGeneration.p_test_id p).
Proof.
  split; [vm_compute; reflexivity|].
  assert (H : run_generate_code full_case
              = (Some (true, Some (py"async def test_tc001(page: Page):"), None),
                 snd (run_generate_code full_case)))
    by (vm_compute; reflexivity).
  destruct (generate_code_outcome _ _ _ _ _ _ _ _ _ _ H) as [Hok _].
  destruct (Hok eq_refl) as (p & content & H1 & _ & H3 & _ & H5 & _).
  exists p, content. auto.
Defined.

Lemma generate_code_needs_all_fields_witness :
  exists msg,
    run_generate_code link_and_report
    = (Some (false, None, Some (py"Error generating code: " ++ msg)), []).
Proof.
  apply (@generate_code_needs_all_fields Py.lower_ascii repr_map_dots
           attribute_error_plain (fun _ => py"{...}") (fun _ => Ret (py"{...}"))
           sample_locators contract_urls (fun _ _ => Ret (Some fenced_code))
           link_and_report (py"priority") (Exception (py"'priority'")) []).
  - cbn [In]. auto 10.
  - vm_compute. reflexivity.
Defined.

Lemma generate_batch_counts_witness :
  fst (run_generate_batch [full_case; full_case; full_case] 2)
  = Some (2%Z, two_results) /\
  Z.of_nat (List.length two_results) = Z.min (Z.of_nat 3) 2.
Proof.
  split; [vm_compute; reflexivity|].
  assert (H : run_generate_batch [full_case; full_case; full_case] 2
              = (Some (2%Z, two_results),
                 snd (run_generate_batch [full_case; full_case; full_case] 2)))
    by (vm_compute; reflexivity).
  destruct (generate_batch_counts _ _ _ _ _ _ _ _ _ _ _ H)
    as (_ & _ & _ & _ & _ & Hmin).
  apply Hmin. lia.
Defined.

(** ** The parser of the model's answers *)

Section ParserFacts.
Import Py ChatGPTService CodeGeneration.

Variable capitalize : str -> str.
Variable repr : json -> str.
Variable json_loads : str -> loads_result.
Variable error_text : json -> str.

#[local] Abbreviation parse_ :=
  (_parse_test_cases capitalize repr json_loads error_text).

Lemma after_first_line (line rest : str) :
  forallb (fun c => negb (char_eqb c 10%N)) line = true ->
  after_first 10%N (line ++ 10%N :: rest) = rest.
Proof.
  induction line as [|c line IH]; cbn [app after_first forallb].
  - reflexivity.
  - intros H. apply andb_true_iff in H as [Hc Hl].
    destruct (char_eqb c 10%N); [discriminate|]. apply IH. exact Hl.
Qed.

(** A text between square brackets is trimmed, and no fence opens or
    closes it. *)
Lemma bracketed_plain (mid : str) :
  let body := 91%N :: mid ++ [93%N] in
  trimmed body /\
  startswith body (py"```") = false /\
  endswith body (py"```") = false.
Proof.
  cbv zeta. split; [|split].
  - unfold trimmed, strip. rewrite lstrip_nonspace by reflexivity.
    change (91%N :: mid ++ [93%N]) with ((91%N :: mid) ++ [93%N]).
    apply rstrip_app_nonspace. reflexivity.
  - reflexivity.
  - unfold endswith. change (91%N :: mid ++ [93%N]) with ((91%N :: mid) ++ [93%N]).
    rewrite rev_app_distr. reflexivity.
Qed.

Lemma strip_fence_bare (mid : str) :
  strip_fence (91%N :: mid ++ [93%N]) = 91%N :: mid ++ [93%N].
Proof.
  destruct (bracketed_plain mid) as (Ht & Hs & He). unfold trimmed in Ht.
  unfold strip_fence. rewrite Ht, Hs, He. exact Ht.
Qed.

Lemma strip_fence_fenced (pre tag mid ws post : str) :
  blank pre -> blank post -> blank ws ->
  forallb (fun c => negb (char_eqb c 10%N)) tag = true ->
  strip_fence (pre ++ (py"```" ++ tag ++ 10%N :: (91%N :: mid ++ [93%N])
                       ++ ws ++ py"```") ++ post)
  = 91%N :: mid ++ [93%N].
Proof.
  intros Hpre Hpost Hws Htag.
  destruct (bracketed_plain mid) as (Ht & _ & _).
  assert (Hne : 91%N :: mid ++ [93%N] <> []) by discriminate.
  destruct (@closing_fence [] (91%N :: mid ++ [93%N]) ws eq_refl Hws Ht Hne)
    as (_ & Hends & Hslice).
  unfold strip_fence.
  assert (Hfirst :
    strip (pre ++ (py"```" ++ tag ++ 10%N :: (91%N :: mid ++ [93%N])
                   ++ ws ++ py"```") ++ post)
    = py"```" ++ tag ++ 10%N :: (91%N :: mid ++ [93%N]) ++ ws ++ py"```").
  { apply strip_between_blanks; auto; try reflexivity.
    replace (py"```" ++ tag ++ 10%N :: (91%N :: mid ++ [93%N]) ++ ws ++ py"```")
      with ((py"```" ++ tag ++ 10%N :: (91%N :: mid ++ [93%N]) ++ ws
             ++ [96; 96]%N) ++ [96%N]).
    - apply rstrip_app_nonspace. reflexivity.
    - rewrite <- !app_assoc. cbn [app]. rewrite <- !app_assoc. reflexivity. }
  rewrite Hfirst. clear Hfirst.
  rewrite startswith_refl_app.
  replace (py"```" ++ tag ++ 10%N :: (91%N :: mid ++ [93%N]) ++ ws ++ py"```")
    with ((py"```" ++ tag) ++ 10%N :: ((91%N :: mid ++ [93%N]) ++ ws ++ py"```"))
    by (rewrite <- app_assoc; reflexivity).
  rewrite after_first_line.
  - match goal with
    | |- context [endswith ?a ?b] =>
        replace (endswith a b) with true by (symmetry; exact Hends)
    end.
    exact Hslice.
  - rewrite forallb_app, Htag. reflexivity.
Qed.

(** X23.  A fence around the array changes nothing: an answer made of
    an opening fence with any tag on its line, a text between square
    brackets, optional white space and a closing fence, with white
    space around the whole, is parsed as the bracketed text alone
    is. *)
Theorem parse_ignores_fence (pre tag mid ws post : str) :
  blank pre -> blank post -> blank ws ->
  forallb (fun c => negb (char_eqb c 10%N)) tag = true ->
  parse_ (Some (pre ++ (py"```" ++ tag ++ 10%N :: (91%N :: mid ++ [93%N])
                        ++ ws ++ py"```") ++ post))
  = parse_ (Some (91%N :: mid ++ [93%N])).
Proof.
  intros Hpre Hpost Hws Htag. unfold _parse_test_cases.
  rewrite strip_fence_bare, strip_fence_fenced by assumption. reflexivity.
Qed.

Lemma dict_lookup_set_same (key : str) (v : json) (d : record) :
  dict_lookup key (dict_set key v d) = Some v.
Proof.
  induction d as [|[k x] d IH]; cbn [dict_set dict_lookup].
  - replace (eqb key key) with true by (symmetry; apply eqb_eq; reflexivity).
    reflexivity.
  - destruct (eqb k key) eqn:E; cbn [dict_lookup]; rewrite E; [reflexivity|exact IH].
Qed.

Lemma dict_lookup_set_other (key key' : str) (v : json) (d : record) :
  key' <> key ->
  dict_lookup key (dict_set key' v d) = dict_lookup key d.
Proof.
  intros Hne. induction d as [|[k x] d IH]; cbn [dict_set dict_lookup].
  - destruct (eqb key' key) eqn:E; [apply eqb_eq in E; contradiction|reflexivity].
  - destruct (eqb k key') eqn:E; cbn [dict_lookup].
    + destruct (eqb k key) eqn:E'; [|reflexivity].
      apply eqb_eq in E, E'. congruence.
    + destruct (eqb k key); [reflexivity|exact IH].
Qed.

Lemma dict_set_keys (key : str) (v : json) (d : record) :
  dict_lookup key d <> None -> map fst (dict_set key v d) = map fst d.
Proof.
  induction d as [|[k x] d IH]; cbn [dict_set dict_lookup map fst].
  - congruence.
  - destruct (eqb k key); cbn [map fst]; [reflexivity|].
    intros H. rewrite IH by exact H. reflexivity.
Qed.

Lemma normalise_same (field : str) (post : str -> str) (tc : record) (v : json) :
  dict_lookup field tc = Some v ->
  dict_lookup field (normalise repr field post tc)
  = Some (JStr (post (strip (py_str repr v)))).
Proof. unfold normalise. intros ->. apply dict_lookup_set_same. Qed.

Lemma normalise_other (field field' : str) (post : str -> str) (tc : record) :
  field' <> field ->
  dict_lookup field (normalise repr field' post tc) = dict_lookup field tc.
Proof.
  intros Hne. unfold normalise.
  destruct (dict_lookup field' tc); [|reflexivity].
  apply dict_lookup_set_other. exact Hne.
Qed.

Lemma normalise_keys (field : str) (post : str -> str) (tc : record) :
  map fst (normalise repr field post tc) = map fst tc.
Proof.
  unfold normalise. destruct (dict_lookup field tc) eqn:E; [|reflexivity].
  apply dict_set_keys. congruence.
Qed.

(** A record as the validation loop leaves it: the keys of [members],
    in their order, with the four required values turned into trimmed
    strings and the priority capitalised. *)
Lemma validate_one_record (tc : json) (r : record) :
  validate_one capitalize repr error_text tc = inl (Some r) ->
  exists members,
    tc = JObj members /\ map fst r = map fst members /\
    (forall field,
       In field [py"description"; py"steps"; py"expected_result"] ->
       exists v, dict_lookup field members = Some v /\
                 dict_lookup field r = Some (JStr (strip (py_str repr v)))) /\
    (exists v, dict_lookup (py"priority") members = Some v /\
               dict_lookup (py"priority") r
               = Some (JStr (capitalize (strip (py_str repr v))))).
Proof.
  destruct tc as [| | | | |items|members]; cbn [validate_one];
    try discriminate;
    try (destruct (forallb _ required_fields); discriminate).
  destruct (forallb _ required_fields) eqn:Hall; [|discriminate].
  intros [= <-]. exists members. split; [reflexivity|].
  split; [rewrite !normalise_keys; reflexivity|].
  unfold required_fields in Hall. cbn [forallb] in Hall.
  destruct (dict_lookup (py"description") members) as [v1|] eqn:E1; [|discriminate].
  destruct (dict_lookup (py"steps") members) as [v2|] eqn:E2; [|discriminate].
  destruct (dict_lookup (py"expected_result") members) as [v3|] eqn:E3;
    [|discriminate].
  destruct (dict_lookup (py"priority") members) as [v4|] eqn:E4; [|discriminate].
  assert (Hd : forall a b : str, eqb a b = false -> a <> b)
    by (intros a b H; apply eqb_neq; exact H).
  split.
  - intros field [<-|[<-|[<-|[]]]].
    + exists v1. split; [assumption|].
      rewrite !normalise_other by (apply Hd; reflexivity).
      apply (@normalise_same (py"description") (fun s => s)). exact E1.
    + exists v2. split; [assumption|].
      rewrite !normalise_other by (apply Hd; reflexivity).
      apply (@normalise_same (py"steps") (fun s => s)).
      rewrite normalise_other by (apply Hd; reflexivity). exact E2.
    + exists v3. split; [assumption|].
      rewrite !normalise_other by (apply Hd; reflexivity).
      apply (@normalise_same (py"expected_result") (fun s => s)).
      rewrite !normalise_other by (apply Hd; reflexivity). exact E3.
  - exists v4. split; [reflexivity|].
    apply (@normalise_same (py"priority") capitalize).
    rewrite !normalise_other by (apply Hd; reflexivity). exact E4.
Qed.

Lemma validate_records (test_cases : list json) :
  forall valid,
    validate capitalize repr error_text test_cases = inl valid ->
    List.length valid <= List.length test_cases /\
    Forall (fun r => exists tc,
                       In tc test_cases /\
                       validate_one capitalize repr error_text tc = inl (Some r))
      valid.
Proof.
  induction test_cases as [|tc rest IH]; cbn [validate]; intros valid.
  - intros [= <-]. split; [simpl; lia|constructor].
  - destruct (validate_one capitalize repr error_text tc) as [kept|msg] eqn:E;
      [|discriminate].
    destruct (validate capitalize repr error_text rest) as [valid0|msg];
      [|discriminate].
    destruct (IH valid0 eq_refl) as [Hlen Hall].
    assert (Hall' : Forall (fun r => exists tc0,
                       In tc0 (tc :: rest) /\
                       validate_one capitalize repr error_text tc0 = inl (Some r))
                      valid0).
    { eapply Forall_impl; [|exact Hall]. intros r (tc0 & Hin & Hv).
      exists tc0. split; [right; exact Hin|exact Hv]. }
    intros [= <-]. destruct kept as [r|]; cbn [List.length].
    + split; [lia|]. constructor; [|exact Hall'].
      exists tc. split; [left; reflexivity|exact E].
    + split; [lia|exact Hall'].
Qed.

(** X24.  Every record of a successful parse holds the four required
    fields as strings: [description], [steps] and [expected_result]
    without white space at either end, and [priority] as the
    capitalised form of such a text. *)
Theorem parsed_records_are_normalised (response_text : option str)
  (test_cases : list record) (error : option str) :
  parse_ response_text = (true, test_cases, error) ->
  Forall (fun r =>
            (forall field,
               In field [py"description"; py"steps"; py"expected_result"] ->
               exists s, dict_lookup field r = Some (JStr s) /\ trimmed s) /\
            (exists s, dict_lookup (py"priority") r = Some (JStr (capitalize s)) /\
                       trimmed s))
    test_cases.
Proof.
  unfold _parse_test_cases.
  destruct response_text as [text|]; [|discriminate].
  destruct (find _ _); [|discriminate].
  destruct (rfind_char _ _); [|discriminate].
  destruct (json_loads _) as [v|msg|msg]; try discriminate.
  destruct v; try discriminate.
  destruct (validate capitalize repr error_text items) as [valid|msg] eqn:E;
    [|discriminate].
  destruct valid as [|r rs]; [discriminate|]. intros [= <- <-].
  apply validate_records in E as [_ Hall].
  eapply Forall_impl; [|exact Hall]. intros r0 (tc & _ & Hv).
  apply validate_one_record in Hv as (members & _ & _ & Hfields & Hprio).
  split.
  - intros field Hin. destruct (Hfields field Hin) as (v & _ & Hl).
    eexists. split; [exact Hl|]. apply strip_idempotent.
  - destruct Hprio as (v & _ & Hl).
    eexists. split; [exact Hl|]. apply strip_idempotent.
Qed.

End ParserFacts.

Lemma parse_ignores_fence_witness :
  ChatGPTService._parse_test_cases capitalize_ascii repr_scalar loads_one_record
    error_text_plain
    (Some ([10%N] ++ (py"```" ++ py"json" ++ 10%N :: (91%N :: py"1, 2" ++ [93%N])
                      ++ [10%N] ++ py"```") ++ [32%N]))
  = ChatGPTService._parse_test_cases capitalize_ascii repr_scalar loads_one_record
      error_text_plain (Some (91%N :: py"1, 2" ++ [93%N])).
Proof.
  apply (@parse_ignores_fence capitalize_ascii repr_scalar loads_one_record
           error_text_plain [10%N] (py"json") (py"1, 2") [10%N] [32%N]);
    reflexivity.
Defined.

Lemma parsed_records_are_normalised_witness :
  ChatGPTService._parse_test_cases capitalize_ascii repr_scalar loads_one_record
    error_text_plain (Some one_record_text) = (true, [one_record], None) /\
  Forall (fun r =>
            (forall field,
               In field [py"description"; py"steps"; py"expected_result"] ->
               exists s, ChatGPTService.dict_lookup field r
                         = Some (ChatGPTService.JStr s) /\
                         CodeGeneration.trimmed s) /\
            (exists s, ChatGPTService.dict_lookup (py"priority") r
                       = Some (ChatGPTService.JStr (capitalize_ascii s)) /\
                       CodeGeneration.trimmed s))
    [one_record].
Proof.
  split; [vm_compute; reflexivity|].
  apply (@parsed_records_are_normalised capitalize_ascii repr_scalar
           loads_one_record error_text_plain (Some one_record_text)
           [one_record] None).
  vm_compute. reflexivity.
Defined.

(** ** The generation protocol, as a whole *)

Section GenerationInvariants.
Import Py ChatGPTService.

Variable capitalize : str -> str.
Variable repr : json -> str.
Variable json_loads : str -> loads_result.
Variable error_text : json -> str.
Variable service : list prompt -> prompt -> outcome (option str).

#[local] Abbreviation parse' :=
  (_parse_test_cases capitalize repr json_loads error_text).
#[local] Abbreviation generate' :=
  (generate_test_cases capitalize repr json_loads error_text service).

(** One request and the parse of its answer: an exception leaves the
    method, or the batch fails with a message, or it gives records. *)
Lemma batch_cases (p : prompt) (sent : list prompt) :
  _call_chatgpt service p sent = (None, sent ++ [p]) \/
  (exists text msg,
     _call_chatgpt service p sent = (Some (false, text, Some msg), sent ++ [p])) \/
  (exists text,
     _call_chatgpt service p sent = (Some (true, text, None), sent ++ [p]) /\
     ((exists msg, parse' text = (false, [], Some msg)) \/
      (exists r rs, parse' text = (true, r :: rs, None)))).
Proof.
  unfold _call_chatgpt. destruct (service sent p) as [text|[msg|]].
  - right. right. exists text. split; [reflexivity|].
    destruct (parse_shape capitalize repr json_loads error_text text)
      as [(r & rs & H)|(msg & H)]; eauto.
  - right. left. eauto.
  - left. reflexivity.
Qed.

Lemma len_app (A : Type) (a b : list A) : len (a ++ b) = (len a + len b)%Z.
Proof. unfold len. rewrite length_app. lia. Qed.

Lemma breakdown_batch12_counts (a b : Z) (bd : BatchBreakdown) :
  breakdown_batch12 a b = Some bd ->
  count (batch1_happy_path bd) = a /\ count (batch2_validation bd) = b /\
  count (batch3_edge_cases bd) = 0%Z.
Proof.
  unfold breakdown_batch12.
  destruct (share a (a + b)); [|discriminate].
  destruct (share b (a + b)); [|discriminate].
  intros [= <-]. auto.
Qed.

Lemma breakdown_all_counts (a b c : Z) (bd : BatchBreakdown) :
  breakdown_all a b c = Some bd ->
  count (batch1_happy_path bd) = a /\ count (batch2_validation bd) = b /\
  count (batch3_edge_cases bd) = c.
Proof.
  unfold breakdown_all.
  destruct (share a (a + b + c)); [|discriminate].
  destruct (share b (a + b + c)); [|discriminate].
  destruct (share c (a + b + c)); [|discriminate].
  intros [= <-]. auto.
Qed.

(** X25.  Whatever the model service answers, a tuple returned by
    [generate_test_cases] is of one of two shapes.  A failure carries no
    test case, an error text and no breakdown.  A success carries at
    least one test case and a breakdown whose three counts add up to
    the number of test cases returned.  Between one and three requests
    were sent. *)
Theorem generate_test_cases_result_shape
  (brd_content : str) (target_count : Z) (batch_mode : bool)
  (sent sent' : list prompt) (success : bool) (test_cases : list record)
  (error_message : option str) (batch_breakdown : option BatchBreakdown) :
  generate' brd_content target_count batch_mode sent
  = (Some (success, test_cases, error_message, batch_breakdown), sent') ->
  (success = false ->
   test_cases = [] /\ error_message <> None /\ batch_breakdown = None) /\
  (success = true ->
   test_cases <> [] /\
   exists b,
     batch_breakdown = Some b /\
     (count (batch1_happy_path b) + count (batch2_validation b)
      + count (batch3_edge_cases b) = len test_cases)%Z) /\
  exists requests,
    sent' = sent ++ requests /\ 1 <= List.length requests <= 3.
Proof.
  assert (Hfail : forall (msg : option str) (requests : list prompt),
    msg <> None -> 1 <= List.length requests <= 3 ->
    (Some (false, @nil record, msg, @None BatchBreakdown), sent ++ requests)
    = (Some (success, test_cases, error_message, batch_breakdown), sent') ->
    (success = false ->
     test_cases = [] /\ error_message <> None /\ batch_breakdown = None) /\
    (success = true ->
     test_cases <> [] /\
     exists b,
       batch_breakdown = Some b /\
       (count (batch1_happy_path b) + count (batch2_validation b)
        + count (batch3_edge_cases b) = len test_cases)%Z) /\
    exists requests,
      sent' = sent ++ requests /\ 1 <= List.length requests <= 3).
  { intros msg requests Hmsg Hlen [= <- <- <- <- <-].
    split; [auto|]. split; [discriminate|]. eauto. }
  assert (Hok : forall (cases : list record) (msg : option str)
                       (bd : BatchBreakdown) (requests : list prompt),
    cases <> [] ->
    (count (batch1_happy_path bd) + count (batch2_validation bd)
     + count (batch3_edge_cases bd) = len cases)%Z ->
    1 <= List.length requests <= 3 ->
    (Some (true, cases, msg, Some bd), sent ++ requests)
    = (Some (success, test_cases, error_message, batch_breakdown), sent') ->
    (success = false ->
     test_cases = [] /\ error_message <> None /\ batch_breakdown = None) /\
    (success = true ->
     test_cases <> [] /\
     exists b,
       batch_breakdown = Some b /\
       (count (batch1_happy_path b) + count (batch2_validation b)
        + count (batch3_edge_cases b) = len test_cases)%Z) /\
    exists requests,
      sent' = sent ++ requests /\ 1 <= List.length requests <= 3).
  { intros cases msg bd requests Hne Hsum Hlen [= <- <- <- <- <-].
    split; [discriminate|]. split; [eauto|]. eauto. }
  unfold generate_test_cases, _create_prompt_ui_happy_path,
    _create_prompt_ui_validation, _create_prompt_ui_edge_cases.
  destruct (batch_mode && (70 <=? target_count)%Z).
  - (* three batches *)
    unfold bind at 1.
    destruct (batch_cases (Generate UIHappyPath brd_content 30) sent)
      as [H1|[(t1 & m1 & H1)|(t1 & H1 & [(m1 & P1)|(r1 & rs1 & P1)])]];
      rewrite H1; cbn [negb]; unfold ret.
    + discriminate.
    + apply Hfail; [discriminate|simpl; lia].
    + rewrite P1. cbn [negb]. apply Hfail; [discriminate|simpl; lia].
    + rewrite P1. cbn [negb]. unfold bind at 1.
      destruct (batch_cases (Generate UIValidation brd_content 30)
                  (sent ++ [Generate UIHappyPath brd_content 30]))
        as [H2|[(t2 & m2 & H2)|(t2 & H2 & [(m2 & P2)|(r2 & rs2 & P2)])]];
        rewrite H2; cbn [negb]; rewrite <- ?app_assoc.
      * discriminate.
      * apply Hok; [discriminate|cbn; lia|simpl; lia].
      * rewrite P2. cbn [negb]. apply Hok; [discriminate|cbn; lia|simpl; lia].
      * rewrite P2. cbn [negb]. unfold bind at 1.
        destruct (batch_cases (Generate UIEdgeCases brd_content (target_count - 60))
                    ((sent ++ [Generate UIHappyPath brd_content 30])
                     ++ [Generate UIValidation brd_content 30]))
          as [H3|[(t3 & m3 & H3)|(t3 & H3 & [(m3 & P3)|(r3 & rs3 & P3)])]];
          rewrite <- ?app_assoc in H3; rewrite H3; cbn [negb];
          rewrite <- ?app_assoc.
        -- discriminate.
        -- unfold bind, lift.
           destruct (breakdown_batch12 (len (r1 :: rs1)) (len (r2 :: rs2)))
             as [bd|] eqn:Eb; [|discriminate].
           apply breakdown_batch12_counts in Eb as (E1 & E2 & E3).
           apply Hok; [discriminate| |simpl; lia].
           rewrite E1, E2, E3, len_app. lia.
        -- rewrite P3. cbn [negb]. unfold bind, lift.
           destruct (breakdown_batch12 (len (r1 :: rs1)) (len (r2 :: rs2)))
             as [bd|] eqn:Eb; [|discriminate].
           apply breakdown_batch12_counts in Eb as (E1 & E2 & E3).
           apply Hok; [discriminate| |simpl; lia].
           rewrite E1, E2, E3, len_app. lia.
        -- rewrite P3. cbn [negb]. unfold bind, lift.
           destruct (breakdown_all (len (r1 :: rs1)) (len (r2 :: rs2))
                       (len (r3 :: rs3))) as [bd|] eqn:Eb; [|discriminate].
           apply breakdown_all_counts in Eb as (E1 & E2 & E3).
           apply Hok; [discriminate| |simpl; lia].
           rewrite E1, E2, E3, !len_app. lia.
  - (* single batch *)
    unfold bind.
    destruct (batch_cases (Generate UIHappyPath brd_content target_count) sent)
      as [H1|[(t1 & m1 & H1)|(t1 & H1 & [(m1 & P1)|(r1 & rs1 & P1)])]];
      rewrite H1; cbn [negb]; unfold ret.
    + discriminate.
    + apply Hfail; [discriminate|simpl; lia].
    + rewrite P1. cbn [negb]. apply Hfail; [discriminate|simpl; lia].
    + rewrite P1. cbn [negb]. apply Hok; [discriminate|cbn; lia|simpl; lia].
Qed.

End GenerationInvariants.

Lemma generate_test_cases_result_shape_witness :
  fst (run_generate [Ret (Some one_record_text); Raise (Exception (py"Timeout"))]
         sample_brd 80 true)
  = Some (true, [one_record], Some (py"Batch 2 failed but Batch 1 succeeded"),
          Some (ChatGPTService.breakdown_batch1_only 1)) /\
  [one_record] <> [].
Proof.
  split; [vm_compute; reflexivity|].
  assert (H : run_generate [Ret (Some one_record_text); Raise (Exception (py"Timeout"))]
                sample_brd 80 true
              = (Some (true, [one_record],
                       Some (py"Batch 2 failed but Batch 1 succeeded"),
                       Some (ChatGPTService.breakdown_batch1_only 1)),
                 snd (run_generate
                        [Ret (Some one_record_text); Raise (Exception (py"Timeout"))]
                        sample_brd 80 true)))
    by (vm_compute; reflexivity).
  destruct (@generate_test_cases_result_shape _ _ _ _ _ _ _ _ _ _ _ _ _ _ H)
    as (_ & Hok & _).
  exact (proj1 (Hok eq_refl)).
Defined.

(** ** From the runner to the sheet *)

Section RunAndReport.
Import Py ResultReporter Reporting.

Variable lower : str -> str.
Variable format_0f : PyFloat.float -> str.

(** X26.  A result of [run_single_test] that [report_result] has
    written is one of two rows: [PASS] with the error and screenshot
    cells emptied, or [FAIL] with the error message of the result in
    the error cell, cut to 1000 characters and marked when longer. *)
Theorem reported_run_is_pass_or_explained_fail
  (w : PlaywrightRunner.World) (browser : bool) (test_id code_file : str)
  (r : PlaywrightRunner.Result)
  (env : Remote) (sheet sheet' : Worksheet) (test_case : Case) (log : list write) :
  PlaywrightRunner.run_single_test lower w browser test_id code_file = Some r ->
  report_result format_0f env sheet test_case (of_result r)
  = (Some true, sheet', log) ->
  exists row_num,
    row_number test_case = Some row_num /\
    ((cell sheet' row_num 6 = py"PASS" /\
      cell sheet' row_num 7 = [] /\ cell sheet' row_num 8 = []) \/
     (cell sheet' row_num 6 = py"FAIL" /\
      exists error_msg,
        PlaywrightRunner.error_message r = Some error_msg /\
        cell sheet' row_num 7 = error_cell (Some error_msg))).
Proof.
  intros Hrun Hreport.
  apply run_single_test_cases in Hrun as (_ & _ & Hcases).
  apply report_result_cells in Hreport as (row_num & Hn & _ & H6 & H7 & H8).
  exists row_num. split; [exact Hn|].
  unfold status_text, status_cell, of_result in H6. cbn [status] in H6.
  cbn [of_result error_message] in H7. cbn [of_result screenshot_path] in H8.
  destruct Hcases as [(Hs & He & Hp & _)|(Hs & He)].
  - left. rewrite H6, H7, He, Hs. split; [reflexivity|]. split; [reflexivity|].
    apply H8. rewrite Hp. discriminate.
  - right. rewrite H6, Hs. split; [reflexivity|].
    destruct (PlaywrightRunner.error_message r) as [msg|]; [|contradiction].
    exists msg. split; [reflexivity|exact H7].
Qed.

End RunAndReport.

Lemma reported_run_is_pass_or_explained_fail_witness :
  exists row_num,
    Reporting.row_number tc001_case = Some row_num /\
    ((Reporting.cell timeout_reported row_num 6 = py"PASS" /\
      Reporting.cell timeout_reported row_num 7 = [] /\
      Reporting.cell timeout_reported row_num 8 = []) \/
     (Reporting.cell timeout_reported row_num 6 = py"FAIL" /\
      exists error_msg,
        PlaywrightRunner.error_message timeout_result = Some error_msg /\
        Reporting.cell timeout_reported row_num 7
        = Reporting.error_cell (Some error_msg))).
Proof.
  apply (@reported_run_is_pass_or_explained_fail Py.lower_ascii format_0f_dots
           timeout_world false (py"TC001") (py"tests/generated/test_tc001.py")
           timeout_result quiet_remote fresh_sheet timeout_reported tc001_case
           (snd (Reporting.report_result format_0f_dots quiet_remote fresh_sheet
                   tc001_case (Reporting.of_result timeout_result)))).
  - vm_compute. reflexivity.
  - vm_compute. reflexivity.
Defined.

(** ** The estimation request *)

Section EstimateRequest.
Import Py ChatGPTService.

Variable lower : str -> str.
Variable digit_value : char -> option Z.
Variable service : list prompt -> prompt -> outcome (option str).

(** X27.  [estimate_required_test_cases] sends exactly one request,
    whatever comes of it; the request carries a prefix of the document
    of at most 6000 characters, which is the whole document when it is
    not longer, and the number generated so far. *)
Theorem estimate_sends_one_bounded_request
  (brd_content : str) (generated_count : Z) (sent : list prompt) :
  exists content_sample rest,
    snd (estimate_required_test_cases lower digit_value service brd_content
           generated_count sent)
    = sent ++ [Estimate content_sample generated_count] /\
    brd_content = content_sample ++ rest /\
    (len content_sample <= 6000)%Z /\
    ((len brd_content <= 6000)%Z -> rest = []).
Proof.
  unfold estimate_required_test_cases.
  destruct (Z.ltb_spec 6000 (len brd_content)) as [Hlong|Hshort].
  - exists (slice_to (Z.to_nat 6000) brd_content),
           (skipn (Z.to_nat 6000) brd_content).
    split; [|split; [|split]].
    + destruct (service sent _) as [[content|]|[msg|]]; try reflexivity.
      destruct (first_number digit_value (strip content)); reflexivity.
    + unfold slice_to. symmetry. apply firstn_skipn.
    + unfold len, slice_to. rewrite length_firstn. lia.
    + lia.
  - exists brd_content, []. split; [|split; [|split]].
    + destruct (service sent _) as [[content|]|[msg|]]; try reflexivity.
      destruct (first_number digit_value (strip content)); reflexivity.
    + symmetry. apply app_nil_r.
    + exact Hshort.
    + reflexivity.
Qed.

End EstimateRequest.
